(** * CSV ingestion and reconciliation pipeline of sentiment_eval_backend

    A shallow embedding of [services/csv_processor.py] (classes
    [CSVProcessor] and [CSVValidator]) together with the part of
    [core/models.py] it writes to, and the properties of the
    specification proved, or refuted, over it.

    Conventions.
    - A Python [str] is a list of Unicode code points ([pystr]); a file is a
      list of bytes, or cannot be opened.
    - A pandas cell is [option pystr]: [None] is the missing value (NaN
      before cleaning, Python [None] after it), [Some s] a value together
      with the text [astype(str)] renders it as.
    - pandas' tokenizer ([pd.read_csv] once the bytes are decoded) is a
      library function and is a parameter of the development; the three
      decoders are defined.  [SimpleCsv.tokenize] is a small tokenizer to
      run the definitions on concrete files.
    - Django's ORM calls are modelled on an explicit store of three
      tables; primary keys ([uuid4]) are drawn from a counter and
      [auto_now] timestamps from a logical clock.  Whether the database
      enforces [max_length] is a parameter.  A row is processed in a
      transaction: when it raises, the store is the one before the row.
    - Exceptions are values of type [exn]; the texts of library exceptions
      are representative.  The timestamps of the processing log are left
      out. *)

From Stdlib Require Import String Ascii.
From Stdlib Require Import List NArith ZArith Arith Bool Lia.
From Stdlib Require DecimalString Decimal.
Import ListNotations.
Open Scope string_scope.
Open Scope list_scope.
Open Scope nat_scope.

Set Implicit Arguments.

(* ===================================================================== *)
(** ** Python strings *)
(* ===================================================================== *)

Module PyStr.

Definition pystr := list N.

(** A literal: each character of the Rocq string is one code point. *)
Definition py (s : string) : pystr :=
  map N_of_ascii (list_ascii_of_string s).

Fixpoint eqb (a b : pystr) : bool :=
  match a, b with
  | [], [] => true
  | x :: a', y :: b' => N.eqb x y && eqb a' b'
  | _, _ => false
  end.

Definition mem (s : pystr) (l : list pystr) : bool := existsb (eqb s) l.

(** [str.isspace] on one code point (CPython's [_PyUnicode_IsWhitespace]). *)
Definition isspace (c : N) : bool :=
  ((9 <=? c) && (c <=? 13) || (28 <=? c) && (c <=? 32) ||
   (c =? 133) || (c =? 160) || (c =? 5760) ||
   (8192 <=? c) && (c <=? 8202) || (c =? 8232) || (c =? 8233) ||
   (c =? 8239) || (c =? 8287) || (c =? 12288))%N.

Fixpoint lstrip (s : pystr) : pystr :=
  match s with
  | c :: s' => if isspace c then lstrip s' else s
  | [] => []
  end.

Definition rstrip (s : pystr) : pystr := List.rev (lstrip (List.rev s)).

(** [s.strip()] *)
Definition strip (s : pystr) : pystr := rstrip (lstrip s).

(** Python truthiness of a string: non-empty. *)
Definition truthy (s : pystr) : bool :=
  match s with [] => false | _ => true end.

(** [str(n)] for a non-negative integer. *)
Definition of_nat (n : nat) : pystr :=
  py (DecimalString.NilEmpty.string_of_uint (Nat.to_uint n)).

Definition join (sep : pystr) (l : list pystr) : pystr :=
  match l with
  | [] => []
  | x :: r => fold_left (fun acc y => acc ++ sep ++ y) r x
  end.

End PyStr.
Import PyStr.

Declare Scope py_scope.
Delimit Scope py_scope with py.
Notation "a +++ b" := (@app N a b) (at level 60, right associativity) : py_scope.
Open Scope py_scope.

(* ===================================================================== *)
(** ** Exceptions *)
(* ===================================================================== *)

(** The exception classes that occur on the paths modelled here; each
    carries the text [str(e)] gives. *)
Inductive exn : Type :=
| UnicodeDecodeError (msg : pystr)
| ParserError (msg : pystr)          (* pandas.errors.ParserError / EmptyDataError *)
| OSError (msg : pystr)              (* FileNotFoundError, PermissionError *)
| KeyError (msg : pystr)
| ValueError (msg : pystr)
| IntegrityError (msg : pystr)       (* django.db.IntegrityError *)
| DataError (msg : pystr)            (* django.db.DataError *)
| MultipleObjectsReturned (msg : pystr).

Definition str_of_exn (e : exn) : pystr :=
  match e with
  | UnicodeDecodeError m | ParserError m | OSError m | KeyError m
  | ValueError m | IntegrityError m | DataError m
  | MultipleObjectsReturned m => m
  end.

Definition is_UnicodeDecodeError (e : exn) : bool :=
  match e with UnicodeDecodeError _ => true | _ => false end.

(** Result of a call that may raise. *)
Inductive result (A : Type) : Type :=
| Ok (a : A)
| Raise (e : exn).
Arguments Ok {A} a.
Arguments Raise {A} e.

(* ===================================================================== *)
(** ** Tables *)
(* ===================================================================== *)

Definition cell := option pystr.

(** A [DataFrame]: column labels and the rows, each with its index label. *)
Record DataFrame : Type := mkDF {
  df_columns : list pystr;
  df_rows : list (nat * list cell)
}.

(** A row as [iterrows] yields it: a [Series] indexed by the column labels. *)
Record Series : Type := mkSeries {
  s_index : list pystr;
  s_values : list cell
}.

Fixpoint col_pos (name : pystr) (cols : list pystr) : option nat :=
  match cols with
  | [] => None
  | c :: cols' => if eqb c name then Some 0 else option_map S (col_pos name cols')
  end.

(** [name in df.columns] *)
Definition has_column (name : pystr) (cols : list pystr) : bool :=
  match col_pos name cols with Some _ => true | None => false end.

(** The cell of a row under a column label; a row shorter than the header
    is padded with missing values, as pandas does. *)
Definition cell_at (cols : list pystr) (vals : list cell) (name : pystr) : cell :=
  match col_pos name cols with
  | Some i => nth i vals None
  | None => None
  end.

(** [len(df)] *)
Definition len (df : DataFrame) : nat := length (df_rows df).

Fixpoint update_nth {A} (i : nat) (f : A -> A) (l : list A) : list A :=
  match l, i with
  | [], _ => []
  | x :: l', O => f x :: l'
  | x :: l', S i' => x :: update_nth i' f l'
  end.

(** [df[col] = f(df[col])], cell by cell. *)
Definition map_column (name : pystr) (f : cell -> cell) (df : DataFrame) : DataFrame :=
  match col_pos name (df_columns df) with
  | Some i =>
      mkDF (df_columns df)
           (map (fun r => (fst r, update_nth i f (snd r))) (df_rows df))
  | None => df
  end.

(** [df.iloc[i:j]] for [0 <= i <= j]. *)
Definition iloc (i j : nat) (df : DataFrame) : DataFrame :=
  mkDF (df_columns df) (firstn (j - i) (skipn i (df_rows df))).

(** [df.iterrows()] *)
Definition iterrows (df : DataFrame) : list (nat * Series) :=
  map (fun r => (fst r, mkSeries (df_columns df) (snd r))) (df_rows df).

(** [row[name]]: raises [KeyError] when the label is absent. *)
Definition getitem (row : Series) (name : pystr) : result cell :=
  if has_column name (s_index row)
  then Ok (cell_at (s_index row) (s_values row) name)
  else Raise (KeyError name).

(** [row.get(name, default)] *)
Definition get (row : Series) (name : pystr) (default : cell) : cell :=
  if has_column name (s_index row)
  then cell_at (s_index row) (s_values row) name
  else default.

(** Python truthiness of a cell that is [None] or a [str]. *)
Definition cell_truthy (c : cell) : bool :=
  match c with Some s => truthy s | None => false end.

Definition cell_eqb (a b : cell) : bool :=
  match a, b with
  | None, None => true
  | Some x, Some y => eqb x y
  | _, _ => false
  end.

(* ===================================================================== *)
(** ** Files and text encodings *)
(* ===================================================================== *)

(** What a path designates: nothing that can be opened (the text is the
    operating system's message), or a byte content. *)
Inductive file : Type :=
| Unreadable (msg : pystr)
| Content (bs : list Byte.byte).

Definition bytes_of (s : string) : list Byte.byte :=
  map byte_of_ascii (list_ascii_of_string s).

Inductive encoding : Type := utf_8 | latin_1 | cp1252.

Definition encoding_name (e : encoding) : pystr :=
  match e with
  | utf_8 => py "utf-8"
  | latin_1 => py "latin-1"
  | cp1252 => py "cp1252"
  end.

Module Codec.
Local Open Scope N_scope.

Definition between (lo hi b : N) : bool := (lo <=? b) && (b <=? hi).
Definition cont (b : N) : bool := between 0x80 0xBF b.

(** Strict UTF-8: shortest form only, no surrogates, at most U+10FFFF. *)
Fixpoint utf8 (bs : list N) : option pystr :=
  match bs with
  | [] => Some []
  | b0 :: r =>
      if b0 <? 0x80 then option_map (cons b0) (utf8 r)
      else if between 0xC2 0xDF b0 then
        match r with
        | b1 :: r1 =>
            if cont b1
            then option_map (cons ((b0 - 0xC0) * 64 + (b1 - 0x80))) (utf8 r1)
            else None
        | _ => None
        end
      else if between 0xE0 0xEF b0 then
        match r with
        | b1 :: b2 :: r2 =>
            if between (if b0 =? 0xE0 then 0xA0 else 0x80)
                       (if b0 =? 0xED then 0x9F else 0xBF) b1 && cont b2
            then option_map
                   (cons ((b0 - 0xE0) * 4096 + (b1 - 0x80) * 64 + (b2 - 0x80)))
                   (utf8 r2)
            else None
        | _ => None
        end
      else if between 0xF0 0xF4 b0 then
        match r with
        | b1 :: b2 :: b3 :: r3 =>
            if between (if b0 =? 0xF0 then 0x90 else 0x80)
                       (if b0 =? 0xF4 then 0x8F else 0xBF) b1
               && cont b2 && cont b3
            then option_map
                   (cons ((b0 - 0xF0) * 262144 + (b1 - 0x80) * 4096
                          + (b2 - 0x80) * 64 + (b3 - 0x80)))
                   (utf8 r3)
            else None
        | _ => None
        end
      else None
  end.

(** ISO-8859-1: byte [b] is code point [b]. *)
Definition latin1 (bs : list N) : option pystr := Some bs.

(** Windows-1252, one byte; five bytes are unassigned. *)
Definition cp1252_char (b : N) : option N :=
  if between 0x80 0x9F b then
    nth (N.to_nat (b - 0x80))
      [Some 0x20AC; None; Some 0x201A; Some 0x0192; Some 0x201E; Some 0x2026;
       Some 0x2020; Some 0x2021; Some 0x02C6; Some 0x2030; Some 0x0160;
       Some 0x2039; Some 0x0152; None; Some 0x017D; None;
       None; Some 0x2018; Some 0x2019; Some 0x201C; Some 0x201D; Some 0x2022;
       Some 0x2013; Some 0x2014; Some 0x02DC; Some 0x2122; Some 0x0161;
       Some 0x203A; Some 0x0153; None; Some 0x017E; Some 0x0178]
      None
  else Some b.

Fixpoint cp1252_text (bs : list N) : option pystr :=
  match bs with
  | [] => Some []
  | b :: r =>
      match cp1252_char b, cp1252_text r with
      | Some c, Some t => Some (c :: t)
      | _, _ => None
      end
  end.

(** [bytes.decode(encoding)], [None] standing for [UnicodeDecodeError]. *)
Definition decode (e : encoding) (bs : list Byte.byte) : option pystr :=
  let ns := map Byte.to_N bs in
  match e with
  | utf_8 => utf8 ns
  | latin_1 => latin1 ns
  | cp1252 => cp1252_text ns
  end.

End Codec.

(** What pandas' tokenizer answers on a decoded text. *)
Inductive parse_outcome : Type :=
| Parsed (df : DataFrame)
| Malformed (msg : pystr).

(** The upload ledger, [core.models.DataUploadLog]. *)
Inductive Status : Type := pending | processing | completed | failed.

(** The JSON value stored in [processing_log]. *)
Inductive LogDoc : Type :=
| EmptyDoc                                   (* default=dict *)
| SummaryDoc (logs : list pystr) (total successful failed_ : nat)
| ErrorDoc (error : pystr) (logs : list pystr).

Record DataUploadLog : Type := mkLog {
  status : Status;
  total_rows : nat;
  successful_rows : nat;
  failed_rows : nat;
  error_message : option pystr;
  processing_log : LogDoc
}.

(** A ledger row as [DataUploadLog.objects.create(..., status='pending')]
    makes it. *)
Definition new_upload_log : DataUploadLog :=
  mkLog pending 0 0 0 None EmptyDoc.

(** The [CSVProcessor] instance: the ledger object it holds and its own
    counters and log (the timestamps of the log entries are left out). *)
Record CSVProcessor : Type := mkProc {
  upload_log : DataUploadLog;
  p_processing_log : list pystr;
  p_successful_rows : nat;
  p_failed_rows : nat
}.

(** [CSVProcessor.__init__] *)
Definition init (log : DataUploadLog) : CSVProcessor := mkProc log [] 0 0.

(** [_add_log] *)
Definition _add_log (self : CSVProcessor) (message : pystr) : CSVProcessor :=
  mkProc (upload_log self) (p_processing_log self ++ [message])
         (p_successful_rows self) (p_failed_rows self).

Definition candidate_encodings : list encoding := [utf_8; latin_1; cp1252].

Definition could_not_decode : pystr :=
  py "Could not decode CSV file with common encodings".

(** How the [for encoding in ...] loop of [_read_csv] ends. *)
Inductive loop_outcome : Type :=
| Returned (df : DataFrame) (enc : encoding)
| Escaped (e : exn)          (* an exception other than UnicodeDecodeError *)
| Exhausted.                 (* every candidate raised UnicodeDecodeError *)

Section Reader.

(** [tokenize text sep nrows]: pandas' parser on a decoded text. *)
Variable tokenize : pystr -> pystr -> option nat -> parse_outcome.

(** [pd.read_csv(file_path, encoding=enc, sep=sep, nrows=nrows)] *)
Definition read_csv (f : file) (enc : encoding) (sep : pystr)
           (nrows : option nat) : result DataFrame :=
  match f with
  | Unreadable m => Raise (OSError m)
  | Content bs =>
      match Codec.decode enc bs with
      | None =>
          Raise (UnicodeDecodeError
                   (py "'" +++ encoding_name enc +++ py "' codec can't decode bytes"))
      | Some text =>
          match tokenize text sep nrows with
          | Parsed df => Ok df
          | Malformed m => Raise (ParserError m)
          end
      end
  end.

(** The loop of [_read_csv], with the encodings it attempted. *)
Fixpoint read_loop (f : file) (sep : pystr) (encs : list encoding)
  : loop_outcome * list encoding :=
  match encs with
  | [] => (Exhausted, [])
  | enc :: encs' =>
      match read_csv f enc sep None with
      | Ok df => (Returned df enc, [enc])
      | Raise e =>
          if is_UnicodeDecodeError e
          then let (o, tried) := read_loop f sep encs' in (o, enc :: tried)
          else (Escaped e, [enc])
      end
  end.

Definition failed_to_read (e : exn) : exn :=
  ValueError (py "Failed to read CSV file: " +++ str_of_exn e).

(** [CSVProcessor._read_csv] *)
Definition _read_csv (self : CSVProcessor) (f : file) (sep : pystr)
  : result DataFrame * CSVProcessor :=
  match fst (read_loop f sep candidate_encodings) with
  | Returned df enc =>
      (Ok df,
       _add_log self (py "Successfully read CSV with " +++ encoding_name enc
                      +++ py " encoding"))
  | Escaped e => (Raise (failed_to_read e), self)
  | Exhausted => (Raise (failed_to_read (ValueError could_not_decode)), self)
  end.

End Reader.

(* ===================================================================== *)
(** ** Row normalizer: [CSVProcessor._clean_data] *)
(* ===================================================================== *)

Definition REQUIRED_COLUMNS : list pystr :=
  [py "review_id"; py "review_text"; py "review_sentence";
   py "gpt4"; py "Gemini flash 2.5"; py "perplexity"; py "sentence_id"].

Definition essential_columns : list pystr :=
  [py "review_id"; py "review_sentence"; py "sentence_id"].

Definition text_columns : list pystr :=
  [py "review_text"; py "review_sentence"; py "gpt4";
   py "Gemini flash 2.5"; py "perplexity"].

(** The values [replace] turns into [None]. *)
Definition sentinels : list pystr := [py "nan"; py "NaN"; py "null"; py ""].

(** [repr] of a list of column labels, the text of pandas' [KeyError]. *)
Definition repr_labels (l : list pystr) : pystr :=
  py "[" +++ join (py ", ") (map (fun c => py "'" +++ c +++ py "'") l) +++ py "]".

(** [Series.astype(str)] on one cell: the missing value renders as "nan". *)
Definition astype_str (c : cell) : pystr :=
  match c with Some s => s | None => py "nan" end.

(** [.replace(['nan', 'NaN', 'null', ''], None)] on one cell. *)
Definition replace_sentinels (s : pystr) : cell :=
  if mem s sentinels then None else Some s.

(** One cell of a text column through the two assignments of the loop. *)
Definition clean_text_cell (c : cell) : cell :=
  replace_sentinels (strip (astype_str c)).

(** One cell of an identifier column. *)
Definition clean_id_cell (c : cell) : cell := Some (strip (astype_str c)).

Definition notna (c : cell) : bool :=
  match c with Some _ => true | None => false end.

(** [df.dropna(subset=subset)] *)
Definition dropna (subset : list pystr) (df : DataFrame) : result DataFrame :=
  match filter (fun c => negb (has_column c (df_columns df))) subset with
  | [] =>
      Ok (mkDF (df_columns df)
               (filter (fun r => forallb (fun c => notna (cell_at (df_columns df) (snd r) c))
                                         subset)
                       (df_rows df)))
  | missing => Raise (KeyError (repr_labels missing))
  end.

(** The loop over [text_columns]. *)
Definition clean_text_columns (df : DataFrame) : DataFrame :=
  fold_left
    (fun d col =>
       if has_column col (df_columns d) then map_column col clean_text_cell d else d)
    text_columns df.

Definition _clean_data (self : CSVProcessor) (df : DataFrame)
  : result DataFrame * CSVProcessor :=
  let initial_count := len df in
  match dropna essential_columns df with
  | Raise e => (Raise e, self)
  | Ok df1 =>
      let dropped_count := initial_count - len df1 in
      let self1 :=
        if (0 <? dropped_count)%nat
        then _add_log self (py "Dropped " +++ of_nat dropped_count
                            +++ py " rows with missing essential data")
        else self in
      let df2 := clean_text_columns df1 in
      let df3 := map_column (py "review_id") clean_id_cell df2 in
      let df4 := map_column (py "sentence_id") clean_id_cell df3 in
      (Ok df4, self1)
  end.

(* ===================================================================== *)
(** ** The persisted entities ([core/models.py]) *)
(* ===================================================================== *)

Record Review : Type := mkReview {
  r_id : nat;                     (* primary key *)
  r_review_id : pystr;            (* CharField(max_length=100) *)
  r_review_text : pystr;          (* TextField(), NOT NULL *)
  r_created_at : nat;
  r_updated_at : nat              (* auto_now *)
}.

Record ReviewSentence : Type := mkSentence {
  s_id : nat;
  s_review : nat;                 (* ForeignKey(Review) *)
  s_sentence_id : pystr;          (* CharField(max_length=100) *)
  s_review_sentence : pystr;      (* TextField(), NOT NULL *)
  s_gpt4_prediction : cell;       (* TextField(null=True) *)
  s_gemini_prediction : cell;
  s_perplexity_prediction : cell;
  s_created_at : nat;
  s_updated_at : nat
}.

Record ModelPrediction : Type := mkPrediction {
  m_id : nat;
  m_sentence : nat;               (* ForeignKey(ReviewSentence) *)
  m_model_name : pystr;           (* CharField(max_length=20) *)
  m_prediction_text : pystr;      (* TextField(), NOT NULL *)
  m_confidence_score : option N;  (* FloatField(null=True); never set here *)
  m_created_at : nat
}.

(** The three tables, the source of fresh primary keys and the clock. *)
Record Store : Type := mkStore {
  reviews : list Review;
  sentences : list ReviewSentence;
  predictions : list ModelPrediction;
  next_id : nat;
  clock : nat
}.

Definition empty_store : Store := mkStore [] [] [] 0 0.

(* ===================================================================== *)
(** ** Transactions *)
(* ===================================================================== *)

(** A computation inside [with transaction.atomic()]: it reads and writes
    the store and may raise; when it raises, its writes are gone. *)
Definition Tx (A : Type) : Type := Store -> result (A * Store).

Definition ret {A} (a : A) : Tx A := fun st => Ok (a, st).

Definition bind {A B} (c : Tx A) (k : A -> Tx B) : Tx B :=
  fun st =>
    match c st with
    | Ok (a, st') => k a st'
    | Raise e => Raise e
    end.

Definition raise {A} (e : exn) : Tx A := fun _ => Raise e.

Definition lift {A} (r : result A) : Tx A :=
  fun st => match r with Ok a => Ok (a, st) | Raise e => Raise e end.

Notation "x <- c ;; k" := (bind c (fun x => k))
  (at level 61, c at next level, right associativity).
Notation "c ;;; k" := (bind c (fun _ => k))
  (at level 61, right associativity).

(* ===================================================================== *)
(** ** The ORM calls of the reconciliation engine *)
(* ===================================================================== *)

Section ORM.

(** Whether the database rejects a [CharField] value longer than its
    [max_length] (PostgreSQL does, SQLite does not). *)
Variable enforce_max_length : bool.

Definition too_long (n : nat) (s : pystr) : bool :=
  enforce_max_length && (n <? length s)%nat.

Definition not_null (column : string) : exn :=
  IntegrityError (py "NOT NULL constraint failed: " +++ py column).

Definition value_too_long (n : nat) : exn :=
  DataError (py "value too long for type character varying(" +++ of_nat n +++ py ")").

(** A lookup [field=value]: a [None] value matches no row. *)
Definition matches (stored : pystr) (value : cell) : bool :=
  match value with Some v => eqb stored v | None => false end.

(** [Review.objects.create(review_id=..., review_text=...)] *)
Definition Review_create (review_id review_text : cell) : Tx Review :=
  fun st =>
    match review_id, review_text with
    | None, _ => Raise (not_null "reviews.review_id")
    | _, None => Raise (not_null "reviews.review_text")
    | Some rid, Some text =>
        if too_long 100 rid then Raise (value_too_long 100)
        else
          let r := mkReview (next_id st) rid text (clock st) (clock st) in
          Ok (r, mkStore (reviews st ++ [r]) (sentences st) (predictions st)
                         (S (next_id st)) (S (clock st)))
    end.

(** [Review.objects.get_or_create(review_id=..., defaults={'review_text': ...})] *)
Definition Review_get_or_create (review_id review_text : cell)
  : Tx (Review * bool) :=
  fun st =>
    match filter (fun r => matches (r_review_id r) review_id) (reviews st) with
    | [] => (r <- Review_create review_id review_text ;; ret (r, true)) st
    | [r] => Ok ((r, false), st)
    | _ =>
        Raise (MultipleObjectsReturned
                 (py "get() returned more than one Review"))
    end.

(** [review.review_text = text; review.save()] *)
Definition Review_save (review : Review) (text : cell) : Tx Review :=
  fun st =>
    match text with
    | None => Raise (not_null "reviews.review_text")
    | Some t =>
        let r' := mkReview (r_id review) (r_review_id review) t
                           (r_created_at review) (clock st) in
        Ok (r', mkStore
                  (map (fun r => if (r_id r =? r_id review)%nat then r' else r)
                       (reviews st))
                  (sentences st) (predictions st) (next_id st) (S (clock st)))
    end.

Definition Sentence_create (review : nat) (sentence_id review_sentence : cell)
           (gpt4 gemini perplexity : cell) : Tx ReviewSentence :=
  fun st =>
    match sentence_id, review_sentence with
    | None, _ => Raise (not_null "review_sentences.sentence_id")
    | _, None => Raise (not_null "review_sentences.review_sentence")
    | Some sid, Some text =>
        if too_long 100 sid then Raise (value_too_long 100)
        else
          let s := mkSentence (next_id st) review sid text gpt4 gemini perplexity
                              (clock st) (clock st) in
          Ok (s, mkStore (reviews st) (sentences st ++ [s]) (predictions st)
                         (S (next_id st)) (S (clock st)))
    end.

(** [ReviewSentence.objects.get_or_create(review=..., sentence_id=...,
    defaults={...})] *)
Definition Sentence_get_or_create (review : nat) (sentence_id review_sentence : cell)
           (gpt4 gemini perplexity : cell) : Tx (ReviewSentence * bool) :=
  fun st =>
    match filter (fun s => (s_review s =? review)%nat
                           && matches (s_sentence_id s) sentence_id)
                 (sentences st) with
    | [] =>
        (s <- Sentence_create review sentence_id review_sentence
                              gpt4 gemini perplexity ;;
         ret (s, true)) st
    | [s] => Ok ((s, false), st)
    | _ =>
        Raise (MultipleObjectsReturned
                 (py "get() returned more than one ReviewSentence"))
    end.

(** [sentence.save()] after the four fields were assigned. *)
Definition Sentence_save (sentence : ReviewSentence) (review_sentence : cell)
           (gpt4 gemini perplexity : cell) : Tx unit :=
  fun st =>
    match review_sentence with
    | None => Raise (not_null "review_sentences.review_sentence")
    | Some text =>
        let s' := mkSentence (s_id sentence) (s_review sentence)
                             (s_sentence_id sentence) text gpt4 gemini perplexity
                             (s_created_at sentence) (clock st) in
        Ok (tt, mkStore (reviews st)
                  (map (fun s => if (s_id s =? s_id sentence)%nat then s' else s)
                       (sentences st))
                  (predictions st) (next_id st) (S (clock st)))
    end.

(** [ModelPrediction.objects.update_or_create(sentence=..., model_name=...,
    defaults={'prediction_text': ..., 'confidence_score': None})] *)
Definition Prediction_update_or_create (sentence : nat) (model_name : pystr)
           (prediction_text : pystr) : Tx unit :=
  fun st =>
    match filter (fun p => (m_sentence p =? sentence)%nat
                           && eqb (m_model_name p) model_name)
                 (predictions st) with
    | [] =>
        if too_long 20 model_name then Raise (value_too_long 20)
        else
          let p := mkPrediction (next_id st) sentence model_name prediction_text
                                None (clock st) in
          Ok (tt, mkStore (reviews st) (sentences st) (predictions st ++ [p])
                          (S (next_id st)) (S (clock st)))
    | [p] =>
        let p' := mkPrediction (m_id p) (m_sentence p) (m_model_name p)
                               prediction_text None (m_created_at p) in
        Ok (tt, mkStore (reviews st) (sentences st)
                  (map (fun q => if (m_id q =? m_id p)%nat then p' else q)
                       (predictions st))
                  (next_id st) (S (clock st)))
    | _ =>
        Raise (MultipleObjectsReturned
                 (py "get() returned more than one ModelPrediction"))
    end.

(* ------------------------------------------------------------------- *)
(** *** [_process_single_row] and [_create_model_predictions] *)

(** [if prediction_text and prediction_text.strip()] *)
Definition non_blank (prediction_text : cell) : bool :=
  match prediction_text with
  | Some s => truthy s && truthy (strip s)
  | None => false
  end.

Definition model_data (row : Series) : list (pystr * cell) :=
  [(py "gpt4", get row (py "gpt4") None);
   (py "gemini", get row (py "Gemini flash 2.5") None);
   (py "perplexity", get row (py "perplexity") None)].

(** The body of the loop over [model_data]. *)
Definition upsert_prediction (sentence : nat) (model_name : pystr)
           (prediction_text : cell) : Tx unit :=
  match prediction_text with
  | Some s =>
      if truthy s && truthy (strip s)
      then Prediction_update_or_create sentence model_name s
      else ret tt
  | None => ret tt
  end.

Fixpoint upsert_predictions (sentence : nat) (data : list (pystr * cell))
  : Tx unit :=
  match data with
  | [] => ret tt
  | (model_name, prediction_text) :: data' =>
      upsert_prediction sentence model_name prediction_text ;;;
      upsert_predictions sentence data'
  end.

Definition _create_model_predictions (sentence : ReviewSentence) (row : Series)
  : Tx unit :=
  upsert_predictions (s_id sentence) (model_data row).

Definition _process_single_row (row : Series) : Tx unit :=
  review_id <- lift (getitem row (py "review_id")) ;;
  rc <- Review_get_or_create review_id (get row (py "review_text") (Some [])) ;;
  let (review, created) := (rc : Review * bool) in
  (if negb created && cell_truthy (get row (py "review_text") None)
   then
     text <- lift (getitem row (py "review_text")) ;;
     if negb (cell_eqb (Some (r_review_text review)) text)
     then Review_save review text ;;; ret tt
     else ret tt
   else ret tt) ;;;
  sentence_id <- lift (getitem row (py "sentence_id")) ;;
  review_sentence <- lift (getitem row (py "review_sentence")) ;;
  let gpt4 := get row (py "gpt4") None in
  let gemini := get row (py "Gemini flash 2.5") None in
  let perplexity := get row (py "perplexity") None in
  sc <- Sentence_get_or_create (r_id review) sentence_id review_sentence
                               gpt4 gemini perplexity ;;
  let (sentence, created') := (sc : ReviewSentence * bool) in
  (if negb created'
   then
     let updated :=
       negb (cell_eqb (Some (s_review_sentence sentence)) review_sentence)
       || negb (cell_eqb (s_gpt4_prediction sentence) gpt4)
       || negb (cell_eqb (s_gemini_prediction sentence) gemini)
       || negb (cell_eqb (s_perplexity_prediction sentence) perplexity) in
     if updated
     then Sentence_save sentence review_sentence gpt4 gemini perplexity
     else ret tt
   else ret tt) ;;;
  _create_model_predictions sentence row.

End ORM.

(* ===================================================================== *)
(** ** The run: [_process_batch] and [process_csv_file] *)
(* ===================================================================== *)

(** Everything a run touches: the processor object, the entity tables, and
    the ledger row as it is persisted, with every version [save()] wrote. *)
Record World : Type := mkWorld {
  self : CSVProcessor;
  store : Store;
  ledger : DataUploadLog;
  saves : list DataUploadLog
}.

(** A run starts from a ledger row already created and persisted. *)
Definition start (log : DataUploadLog) (st : Store) : World :=
  mkWorld (init log) st log [].

Definition with_self (w : World) (p : CSVProcessor) : World :=
  mkWorld p (store w) (ledger w) (saves w).

(** [self.upload_log.save()] *)
Definition save_upload_log (w : World) : World :=
  mkWorld (self w) (store w) (upload_log (self w))
          (saves w ++ [upload_log (self w)]).

(** Assignment to the fields of [self.upload_log]. *)
Definition set_upload_log (w : World) (f : DataUploadLog -> DataUploadLog) : World :=
  with_self w (mkProc (f (upload_log (self w))) (p_processing_log (self w))
                      (p_successful_rows (self w)) (p_failed_rows (self w))).

Definition batch_size : nat := 1000.

(** [range(start, stop, step)] for [step > 0], by recursion on a bound on
    the number of values. *)
Fixpoint range_from (fuel start stop step : nat) : list nat :=
  match fuel with
  | O => []
  | S fuel' =>
      if (start <? stop)%nat
      then start :: range_from fuel' (start + step) stop step
      else []
  end.

Definition range (start stop step : nat) : list nat :=
  range_from stop start stop step.

(** What [process_csv_file] returns. *)
Inductive RunResult : Type :=
| Success (total successful failed_ : nat) (log : list pystr)
| Failure (error : pystr) (log : list pystr).

Section Run.

Variable tokenize : pystr -> pystr -> option nat -> parse_outcome.
Variable enforce_max_length : bool.

(** One iteration of the loop of [_process_batch]: the row in its own
    transaction, then one of the two counters. *)
Definition process_row (w : World) (ir : nat * Series) : World :=
  let (index, row) := ir in
  let p := self w in
  match _process_single_row enforce_max_length row (store w) with
  | Ok (_, st') =>
      mkWorld (mkProc (upload_log p) (p_processing_log p)
                      (p_successful_rows p + 1) (p_failed_rows p))
              st' (ledger w) (saves w)
  | Raise e =>
      let p' := mkProc (upload_log p) (p_processing_log p)
                       (p_successful_rows p) (p_failed_rows p + 1) in
      let error_msg := py "Row " +++ of_nat (index + 1) +++ py ": " +++ str_of_exn e in
      with_self w (_add_log p' error_msg)
  end.

(** [_process_batch] *)
Definition _process_batch (w : World) (batch_df : DataFrame)
           (batch_start_row : nat) : World :=
  let w1 := with_self w (_add_log (self w)
              (py "Processing batch starting at row " +++ of_nat batch_start_row)) in
  fold_left process_row (iterrows batch_df) w1.

(** The loop over the batches of [process_csv_file]. *)
Definition process_batches (w : World) (df : DataFrame) (total_rows : nat) : World :=
  fold_left
    (fun w i => _process_batch w (iloc i (i + batch_size) df) (i + 1))
    (range 0 total_rows batch_size) w.

(** The [except Exception] branch of [process_csv_file]. *)
Definition run_failed (w : World) (e : exn) : RunResult * World :=
  let logs := p_processing_log (self w) in
  let w1 := set_upload_log w (fun l =>
              mkLog failed (total_rows l) (successful_rows l) (failed_rows l)
                    (Some (str_of_exn e)) (ErrorDoc (str_of_exn e) logs)) in
  (Failure (str_of_exn e) logs, save_upload_log w1).

(** The world when the run is about to enter the batch loop, or the
    exception that ended it before. *)
Definition prepare (w : World) (f : file) : result DataFrame * World :=
  let w1 := set_upload_log w (fun l =>
              mkLog processing (total_rows l) (successful_rows l) (failed_rows l)
                    (error_message l) (processing_log l)) in
  let w2 := save_upload_log w1 in
  match _read_csv tokenize (self w2) f (py ";") with
  | (Raise e, p) => (Raise e, with_self w2 p)
  | (Ok df, p) =>
      match _clean_data p df with
      | (Raise e, p') => (Raise e, with_self w2 p')
      | (Ok df', p') =>
          let w3 := set_upload_log (with_self w2 p') (fun l =>
                      mkLog (status l) (len df') (successful_rows l) (failed_rows l)
                            (error_message l) (processing_log l)) in
          (Ok df', save_upload_log w3)
      end
  end.

(** The statements after the batch loop. *)
Definition finish (w : World) (total : nat) : RunResult * World :=
  let p := self w in
  let w1 := set_upload_log w (fun l =>
              mkLog completed (total_rows l)
                    (p_successful_rows p) (p_failed_rows p) (error_message l)
                    (SummaryDoc (p_processing_log p) total
                                (p_successful_rows p) (p_failed_rows p))) in
  (Success total (p_successful_rows p) (p_failed_rows p) (p_processing_log p),
   save_upload_log w1).

(** [CSVProcessor.process_csv_file] *)
Definition process_csv_file (w : World) (f : file) : RunResult * World :=
  match prepare w f with
  | (Raise e, w') => run_failed w' e
  | (Ok df, w') =>
      let total_rows := len df in
      finish (process_batches w' df total_rows) total_rows
  end.

(** The worlds a poller can observe while the rows of a batch are
    processed: the one after each row, in order. *)
Fixpoint worlds_after_rows (w : World) (rows : list (nat * Series)) : list World :=
  match rows with
  | [] => []
  | r :: rows' => let w' := process_row w r in w' :: worlds_after_rows w' rows'
  end.

(** The same over the whole batch loop. *)
Fixpoint worlds_of_batches (w : World) (df : DataFrame) (starts : list nat)
  : list World :=
  match starts with
  | [] => []
  | i :: starts' =>
      let batch_df := iloc i (i + batch_size) df in
      let w1 := with_self w (_add_log (self w)
                  (py "Processing batch starting at row " +++ of_nat (i + 1))) in
      worlds_after_rows w1 (iterrows batch_df)
      ++ worlds_of_batches (_process_batch w batch_df (i + 1)) df starts'
  end.

Definition worlds_during_loop (w : World) (df : DataFrame) : list World :=
  worlds_of_batches w df (range 0 (len df) batch_size).

End Run.

(* ===================================================================== *)
(** ** The standalone validator: [CSVValidator.validate_csv_file] *)
(* ===================================================================== *)

Record Report : Type := mkReport {
  valid : bool;
  error : option pystr;
  missing_columns : list pystr;
  total_columns : nat;
  report_total_rows : Z;
  sample_data : list Series;
  columns : list pystr
}.

(** The number of lines a text-mode file object yields (universal
    newlines: "\n", "\r" and "\r\n" each end a line). *)
Fixpoint count_lines (t : pystr) : nat :=
  match t with
  | [] => 0
  | c :: t' =>
      if (c =? 10)%N then S (count_lines t')
      else if (c =? 13)%N then
        match t' with
        | c' :: t'' => if (c' =? 10)%N then S (count_lines t'') else S (count_lines t')
        | [] => 1
        end
      else
        match t' with
        | [] => 1
        | _ => count_lines t'
        end
  end.

Section Validator.

Variable tokenize : pystr -> pystr -> option nat -> parse_outcome.

(** The decoder of the platform's default text encoding, which
    [open(file_path)] uses; [None] stands for [UnicodeDecodeError]. *)
Variable locale_decode : list Byte.byte -> option pystr.

(** [sum(1 for line in open(file_path))] *)
Definition line_count (f : file) : result nat :=
  match f with
  | Unreadable m => Raise (OSError m)
  | Content bs =>
      match locale_decode bs with
      | Some text => Ok (count_lines text)
      | None => Raise (UnicodeDecodeError (py "codec can't decode bytes"))
      end
  end.

(** [df.head(n).to_dict('records')] *)
Definition head_records (n : nat) (df : DataFrame) : list Series :=
  map snd (firstn n (iterrows df)).

Definition validate_csv_file (f : file) : Report :=
  match read_csv tokenize f utf_8 (py ";") (Some 5) with
  | Raise e => mkReport false (Some (str_of_exn e)) [] 0 0 [] []
  | Ok df_sample =>
      let required_columns := REQUIRED_COLUMNS in
      let missing :=
        filter (fun col => negb (has_column col (df_columns df_sample)))
               required_columns in
      match line_count f with
      | Raise e => mkReport false (Some (str_of_exn e)) [] 0 0 [] []
      | Ok n =>
          mkReport (length missing =? 0)%nat None missing
                   (length (df_columns df_sample)) (Z.of_nat n - 1)
                   (head_records 3 df_sample) (df_columns df_sample)
      end
  end.

End Validator.

(** A small tokenizer used to run the definitions on concrete files: fields
    are split at the separator, records at "\n", the first record is the
    header, an empty field is a missing value, and a record with more
    fields than the header is malformed. *)
Module SimpleCsv.

Fixpoint split_on (sep : N) (t : pystr) : list pystr :=
  match t with
  | [] => [[]]
  | c :: t' =>
      match split_on sep t' with
      | cur :: rest => if (c =? sep)%N then [] :: cur :: rest else (c :: cur) :: rest
      | [] => [[c]]
      end
  end.

Definition lines (t : pystr) : list pystr :=
  filter (fun l => truthy l) (split_on 10 t).

Definition to_cell (s : pystr) : cell :=
  match s with [] => None | _ => Some s end.

Fixpoint number {A} (i : nat) (l : list A) : list (nat * A) :=
  match l with
  | [] => []
  | x :: l' => (i, x) :: number (S i) l'
  end.

Definition tokenize (t sep : pystr) (nrows : option nat) : parse_outcome :=
  match sep, lines t with
  | [d], header :: records =>
      let cols := split_on d header in
      let rows := map (fun l => map to_cell (split_on d l)) records in
      if forallb (fun r => (length r <=? length cols)%nat) rows
      then Parsed (mkDF cols (number 0 (match nrows with
                                        | Some n => firstn n rows
                                        | None => rows
                                        end)))
      else Malformed (py "Error tokenizing data")
  | _, _ => Malformed (py "No columns to parse from file")
  end.

End SimpleCsv.

(* ===================================================================== *)
(** ** The evaluation side of the database ([core/models.py]) *)
(* ===================================================================== *)

Record User : Type := mkUser {
  u_id : nat;
  u_username : pystr;
  u_is_superuser : bool;          (* AbstractUser.is_superuser *)
  u_role : pystr
}.

Record HumanEvaluation : Type := mkEvaluation {
  h_id : nat;
  h_sentence : nat;               (* ForeignKey(ReviewSentence, CASCADE) *)
  h_evaluator : nat;              (* ForeignKey(User, CASCADE) *)
  h_best_model : pystr;
  h_alternative_solution : cell;  (* TextField(null=True) *)
  h_notes : cell;                 (* TextField(null=True) *)
  h_created_at : nat
}.

Record EvaluationSession : Type := mkSession {
  e_id : nat;
  e_evaluator : nat;              (* ForeignKey(User, CASCADE) *)
  e_completed_at : option Z;      (* DateTimeField(null=True), in seconds *)
  e_is_active : bool
}.

(** The tables of ingestion with the tables of the evaluators. *)
Record Database : Type := mkDatabase {
  entities : Store;
  users : list User;
  evaluations : list HumanEvaluation;
  sessions : list EvaluationSession
}.

(** [Model.objects.get(pk=k)] on a table, when there is such a record. *)
Definition lookup {A} (pk : A -> nat) (k : nat) (l : list A) : option A :=
  find (fun a => (pk a =? k)%nat) l.

(* ===================================================================== *)
(** ** The cleanup command ([core/management/commands/cleanup_data.py]) *)
(* ===================================================================== *)

Module cleanup_data.

(** [filter(gpt4_prediction__isnull=True, gemini_prediction__isnull=True,
    perplexity_prediction__isnull=True)] *)
Definition empty_sentence (s : ReviewSentence) : bool :=
  negb (notna (s_gpt4_prediction s))
  && negb (notna (s_gemini_prediction s))
  && negb (notna (s_perplexity_prediction s)).

(** [timedelta(days=7)], in seconds. *)
Definition seven_days : Z := 7 * 86400.

(** [filter(is_active=False, completed_at__lt=cutoff_date)]: a session
    without [completed_at] is not selected. *)
Definition old_session (now : Z) (e : EvaluationSession) : bool :=
  negb (e_is_active e)
  && match e_completed_at e with
     | Some t => (t <? now - seven_days)%Z
     | None => false
     end.

(** [queryset.delete()] on sentences: with them go the predictions and
    the evaluations that refer to them ([on_delete=CASCADE]). *)
Definition delete_sentences (doomed : ReviewSentence -> bool) (db : Database)
  : Database :=
  let st := entities db in
  let gone := map s_id (filter doomed (sentences st)) in
  let stays (sentence : nat) := negb (existsb (Nat.eqb sentence) gone) in
  mkDatabase
    (mkStore (reviews st)
             (filter (fun s => negb (doomed s)) (sentences st))
             (filter (fun p => stays (m_sentence p)) (predictions st))
             (next_id st) (clock st))
    (users db)
    (filter (fun h => stays (h_sentence h)) (evaluations db))
    (sessions db).

(** [queryset.delete()] on sessions: nothing refers to a session. *)
Definition delete_sessions (doomed : EvaluationSession -> bool) (db : Database)
  : Database :=
  mkDatabase (entities db) (users db) (evaluations db)
             (filter (fun e => negb (doomed e)) (sessions db)).

(** [Command.handle]: what it writes to [stdout], and the database it
    leaves.  [now] is [timezone.now()]. *)
Definition handle (dry_run : bool) (now : Z) (db : Database)
  : list pystr * Database :=
  let empty_sentences := empty_sentence in
  let old_sessions := old_session now in
  if dry_run
  then
    ([py "Would delete "
      +++ of_nat (length (filter empty_sentences (sentences (entities db))))
      +++ py " empty sentences";
      py "Would delete " +++ of_nat (length (filter old_sessions (sessions db)))
      +++ py " old sessions"],
     db)
  else
    let deleted_sentences :=
      length (filter empty_sentences (sentences (entities db))) in
    let db1 := delete_sentences empty_sentences db in
    let deleted_sessions := length (filter old_sessions (sessions db1)) in
    let db2 := delete_sessions old_sessions db1 in
    ([py "Cleaned up:" +++ [10%N] +++ py "- " +++ of_nat deleted_sentences
      +++ py " empty sentences" +++ [10%N] +++ py "- " +++ of_nat deleted_sessions
      +++ py " old sessions"],
     db2).

End cleanup_data.

(* ===================================================================== *)
(** ** The exporter: [DataExporter.export_evaluations_to_csv] *)
(* ===================================================================== *)

Section Exporter.

(** [datetime.isoformat()] *)
Variable isoformat : nat -> pystr.

(** The keys of the dict the loop appends, in their order. *)
Definition export_columns : list pystr :=
  [py "sentence_id"; py "review_id"; py "review_sentence"; py "gpt4_prediction";
   py "gemini_prediction"; py "perplexity_prediction"; py "evaluator";
   py "best_model"; py "alternative_solution"; py "notes"; py "evaluation_date"].

(** [HumanEvaluation.objects.select_related('sentence__review',
    'evaluator').all()]: each evaluation joined with its sentence, the
    review of the sentence and its evaluator; the joins are inner joins,
    the three foreign keys being mandatory. *)
Definition select_related (db : Database)
  : list (HumanEvaluation * ReviewSentence * Review * User) :=
  flat_map
    (fun h =>
       match lookup s_id (h_sentence h) (sentences (entities db)),
             lookup u_id (h_evaluator h) (users db) with
       | Some s, Some u =>
           match lookup r_id (s_review s) (reviews (entities db)) with
           | Some r => [(h, s, r, u)]
           | None => []
           end
       | _, _ => []
       end)
    (evaluations db).

(** The values of the dict appended for one evaluation. *)
Definition export_record (j : HumanEvaluation * ReviewSentence * Review * User)
  : list cell :=
  let '(eval_obj, sentence, review, evaluator) := j in
  [Some (s_sentence_id sentence);
   Some (r_review_id review);
   Some (s_review_sentence sentence);
   s_gpt4_prediction sentence;
   s_gemini_prediction sentence;
   s_perplexity_prediction sentence;
   Some (u_username evaluator);
   Some (h_best_model eval_obj);
   h_alternative_solution eval_obj;
   h_notes eval_obj;
   Some (isoformat (h_created_at eval_obj))].

(** [pd.DataFrame(data)] for a list of dicts that all have the keys
    [keys]: the columns are the keys and the index is 0, 1, ...; without
    any dict there is no column either. *)
Definition DataFrame_of_records (keys : list pystr) (data : list (list cell))
  : DataFrame :=
  match data with
  | [] => mkDF [] []
  | _ => mkDF keys (combine (seq 0 (length data)) data)
  end.

Definition export_evaluations_to_csv (db : Database) : DataFrame :=
  DataFrame_of_records export_columns (map export_record (select_related db)).

End Exporter.

(* ===================================================================== *)
(** ** The ingestion command ([core/management/commands/process_csv.py]) *)
(* ===================================================================== *)

(** [s.startswith(prefix)] *)
Fixpoint starts_with (prefix s : pystr) : bool :=
  match prefix, s with
  | [], _ => true
  | c :: prefix', d :: s' => N.eqb c d && starts_with prefix' s'
  | _ :: _, [] => false
  end.

(** [sub in s] *)
Fixpoint contains (sub s : pystr) : bool :=
  starts_with sub s
  || match s with
     | [] => false
     | _ :: s' => contains sub s'
     end.

(** [queryset.first()] on a queryset without ordering: the record with
    the least primary key. *)
Fixpoint first_by_pk {A} (pk : A -> nat) (l : list A) : option A :=
  match l with
  | [] => None
  | a :: l' =>
      match first_by_pk pk l' with
      | Some b => if (pk b <? pk a)%nat then Some b else Some a
      | None => Some a
      end
  end.

(** [str(z)] for an integer. *)
Definition of_Z (z : Z) : pystr :=
  match z with
  | Zneg _ => py "-" +++ of_nat (Z.abs_nat z)
  | _ => of_nat (Z.to_nat z)
  end.

Module process_csv.

(** The parsed command line. *)
Record Options : Type := mkOptions {
  csv_file_path : pystr;
  user_id : option nat;           (* --user-id, default None *)
  validate_only : bool            (* --validate-only *)
}.

(** How [handle] ends. *)
Inductive Exit : Type :=
| Done
| CommandError (msg : pystr).

(** What [handle] did: the lines written to [stdout], how it ended, the
    entity tables, and the ledger row if one was created, as it is
    persisted at the end. *)
Record Outcome : Type := mkOutcome {
  stdout : list pystr;
  exit : Exit;
  tables : Store;
  upload : option DataUploadLog
}.

Section Command.

Variable tokenize : pystr -> pystr -> option nat -> parse_outcome.
Variable locale_decode : list Byte.byte -> option pystr.
Variable enforce_max_length : bool.

(** What a path designates, when it exists ([os.path.exists]). *)
Variable fs : pystr -> option file.

(** The text of a sample record, a dict, in an f-string. *)
Variable repr_record : Series -> pystr.

(** [str(upload_log.id)] of the ledger row [handle] creates. *)
Variable new_id : pystr.

(** The user the ledger row is attributed to, or the message of the
    [CommandError]; [if user_id:] is false for 0 too. *)
Definition get_user (user_id : option nat) (us : list User) : User + pystr :=
  match user_id with
  | Some (S _ as k) =>
      match lookup u_id k us with
      | Some u => inl u
      | None => inr (py "User with ID " +++ of_nat k +++ py " does not exist.")
      end
  | _ =>
      match first_by_pk u_id (filter u_is_superuser us) with
      | Some u => inl u
      | None =>
          inr (py "No superuser found. Please create one or specify --user-id")
      end
  end.

(** The lines of the [--validate-only] branch. *)
Definition validation_lines (validation_result : Report) : list pystr :=
  py "Validating CSV structure..."
  :: (if valid validation_result
      then
        ([10003%N] +++ py " CSV is valid! Found "
         +++ of_Z (report_total_rows validation_result) +++ py " rows with "
         +++ of_nat (total_columns validation_result) +++ py " columns")
        :: py "Sample data:"
        :: map (fun isample =>
                  py "  Row " +++ of_nat (fst isample) +++ py ": "
                  +++ repr_record (snd isample))
               (combine (seq 1 (length (sample_data validation_result)))
                        (sample_data validation_result))
      else
        ([10007%N] +++ py " CSV validation failed: "
         +++ match error validation_result with
             | Some e => e
             | None => py "Unknown error"
             end)
        :: match missing_columns validation_result with
           | [] => []
           | missing => [py "Missing columns: " +++ join (py ", ") missing]
           end).

(** The log entries [handle] shows after a run with failed rows. *)
Definition error_logs (processing_log : list pystr) : list pystr :=
  firstn 5 (filter (contains (py "Row")) processing_log).

(** The lines written after [process_csv_file] returned. *)
Definition result_lines (result : RunResult) : list pystr :=
  match result with
  | Success total successful failed_ processing_log =>
      ([10003%N] +++ py " Successfully processed CSV!" +++ [10%N]
       +++ py "  Total rows: " +++ of_nat total +++ [10%N]
       +++ py "  Successful: " +++ of_nat successful +++ [10%N]
       +++ py "  Failed: " +++ of_nat failed_)
      :: (if (0 <? failed_)%nat
          then
            ([9888%N] +++ py " " +++ of_nat failed_ +++ py " rows failed to process")
            :: map (fun message => py "  " +++ message) (error_logs processing_log)
          else [])
  | Failure error _ =>
      [[10007%N] +++ py " CSV processing failed: " +++ error]
  end.

(** [Command.handle] *)
Definition handle (options : Options) (db : Database) : Outcome :=
  let st := entities db in
  match fs (csv_file_path options) with
  | None =>
      mkOutcome []
        (CommandError (py "File " +++ [34%N] +++ csv_file_path options +++ [34%N]
                       +++ py " does not exist."))
        st None
  | Some f =>
      match get_user (user_id options) (users db) with
      | inr msg => mkOutcome [] (CommandError msg) st None
      | inl user =>
          let line1 := py "Processing CSV file: " +++ csv_file_path options in
          if validate_only options
          then
            mkOutcome
              (line1 :: validation_lines (validate_csv_file tokenize locale_decode f))
              Done st None
          else
            let line2 := py "Created upload log with ID: " +++ new_id in
            let (result, w) :=
              process_csv_file tokenize enforce_max_length
                               (start new_upload_log st) f in
            mkOutcome
              (line1 :: line2 :: result_lines result)
              (match result with
               | Success _ _ _ _ => Done
               | Failure _ _ => CommandError (py "CSV processing failed")
               end)
              (store w) (Some (ledger w))
      end
  end.

End Command.

End process_csv.


(* ===================================================================== *)
(** ** Vocabulary of the specification: the normalizer *)
(* ===================================================================== *)

(** [s.lower()] on the letters A-Z. *)
Definition lower (s : pystr) : pystr :=
  map (fun c => if ((65 <=? c) && (c <=? 90))%N then (c + 32)%N else c) s.

(** A "sentinel empty representation" in the sense of the specification:
    any case variant of "nan" or "null", or the zero-length string. *)
Definition sentinel_variant (s : pystr) : bool :=
  mem (lower s) [py "nan"; py "null"; py ""].

(** The rows [dropna] keeps. *)
Definition has_essentials (cols : list pystr) (r : nat * list cell) : bool :=
  forallb (fun c => notna (cell_at cols (snd r) c)) essential_columns.

(** [vals[col] = f(vals[col])] on one row. *)
Definition update_at (cols : list pystr) (name : pystr) (f : cell -> cell)
           (vals : list cell) : list cell :=
  match col_pos name cols with
  | Some i => update_nth i f vals
  | None => vals
  end.

(** The values of a row after all the assignments of [_clean_data]. *)
Definition cleaned_values (cols : list pystr) (vals : list cell) : list cell :=
  update_at cols (py "sentence_id") clean_id_cell
    (update_at cols (py "review_id") clean_id_cell
       (fold_left (fun v col => update_at cols col clean_text_cell v)
                  text_columns vals)).

(** A cleaned row against the parsed row it comes from: same index label,
    and each text column holds the trimmed text, or the null value when
    the trimmed text is "nan", "NaN", "null" or empty. *)
Definition normalized_row (cols : list pystr) (raw cleaned : nat * list cell) : Prop :=
  fst cleaned = fst raw
  /\ forall col, In col text_columns ->
       let s := strip (astype_str (cell_at cols (snd raw) col)) in
       (s = py "nan" \/ s = py "NaN" \/ s = py "null" \/ s = py "" ->
        cell_at cols (snd cleaned) col = None)
       /\ (~ (s = py "nan" \/ s = py "NaN" \/ s = py "null" \/ s = py "") ->
           cell_at cols (snd cleaned) col = Some s).

(** The normalizer as the specification words it: in the cleaned table no
    value of a text column is a sentinel empty representation. *)
Definition every_sentinel_variant_is_nulled : Prop :=
  forall self df df' self',
    _clean_data self df = (Ok df', self') ->
    forall r col s,
      In r (df_rows df') -> In col text_columns ->
      cell_at (df_columns df') (snd r) col = Some s ->
      sentinel_variant s = false.

(* ===================================================================== *)
(** ** Vocabulary of the specification: the run and its ledger *)
(* ===================================================================== *)

Definition invalid_report (e : exn) : Report :=
  mkReport false (Some (str_of_exn e)) [] 0 0 [] [].


(** The ledger row once [status = 'processing'] is assigned, and once
    [total_rows] is. *)
Definition in_processing (l : DataUploadLog) : DataUploadLog :=
  mkLog processing (total_rows l) (successful_rows l) (failed_rows l)
        (error_message l) (processing_log l).

Definition with_total (l : DataUploadLog) (n : nat) : DataUploadLog :=
  mkLog (status l) n (successful_rows l) (failed_rows l)
        (error_message l) (processing_log l).

(** The rows the batch loop hands to [_process_batch], batch after batch. *)
Definition batched_rows (df : DataFrame) : list (nat * Series) :=
  concat (map (fun i => iterrows (iloc i (i + batch_size) df))
              (range 0 (len df) batch_size)).

(** One observable step of the row loop, from a world to the next one:
    the persisted ledger is not written, and exactly one of the two
    counters of the processor grows, by one. *)
Definition row_step (prev w : World) : Prop :=
  ledger w = ledger prev
  /\ saves w = saves prev
  /\ upload_log (self w) = upload_log (self prev)
  /\ ((p_successful_rows (self w) = p_successful_rows (self prev) + 1
       /\ p_failed_rows (self w) = p_failed_rows (self prev))
      \/ (p_successful_rows (self w) = p_successful_rows (self prev)
          /\ p_failed_rows (self w) = p_failed_rows (self prev) + 1)).

(** A sequence of worlds each a [row_step] from the one before. *)
Fixpoint progresses (prev : World) (trace : list World) : Prop :=
  match trace with
  | [] => True
  | w :: trace' => row_step prev w /\ progresses w trace'
  end.

(** Two worlds that differ at most in the processing log. *)
Definition same_but_log (w w' : World) : Prop :=
  store w = store w' /\ ledger w = ledger w' /\ saves w = saves w'
  /\ upload_log (self w) = upload_log (self w')
  /\ p_successful_rows (self w) = p_successful_rows (self w')
  /\ p_failed_rows (self w) = p_failed_rows (self w').


(* ===================================================================== *)
(** ** Vocabulary of the specification: the store *)
(* ===================================================================== *)

Definition sentence_key (s : ReviewSentence) : nat * pystr :=
  (s_review s, s_sentence_id s).

Definition prediction_key (p : ModelPrediction) : nat * pystr :=
  (m_sentence p, m_model_name p).

(** The invariants of the database: primary keys are unique and were drawn
    from the counter, foreign keys too; there is one review per
    [review_id] (kept by [get_or_create], not by a constraint), and the two
    [unique_together] constraints hold. *)
Record wf_store (st : Store) : Prop := mk_wf {
  wf_review_pk : NoDup (map r_id (reviews st));
  wf_sentence_pk : NoDup (map s_id (sentences st));
  wf_prediction_pk : NoDup (map m_id (predictions st));
  wf_review_fresh : Forall (fun r => r_id r < next_id st) (reviews st);
  wf_sentence_fresh :
    Forall (fun s => s_id s < next_id st /\ s_review s < next_id st) (sentences st);
  wf_prediction_fresh :
    Forall (fun p => m_id p < next_id st /\ m_sentence p < next_id st) (predictions st);
  wf_review_key : NoDup (map r_review_id (reviews st));
  wf_sentence_key : NoDup (map sentence_key (sentences st));
  wf_prediction_key : NoDup (map prediction_key (predictions st))
}.

(** The part of it the prediction table needs on its own. *)
Definition prediction_pks_ok (st : Store) : Prop :=
  NoDup (map m_id (predictions st))
  /\ Forall (fun p => m_id p < next_id st) (predictions st).

(** The records of one model. *)
Definition predictions_of_model (model_name : pystr) (st : Store)
  : list ModelPrediction :=
  filter (fun p => eqb (m_model_name p) model_name) (predictions st).

(** The records of [model] are the same, field for field and in number,
    in the two stores. *)
Definition same_model_records (model : pystr) (st st' : Store) : Prop :=
  predictions_of_model model st' = predictions_of_model model st.

(** "Empty, null, or whitespace-only after trimming". *)
Definition blank (prediction_text : cell) : Prop :=
  match prediction_text with
  | None => True
  | Some s => strip s = []
  end.

(** The three models and the column each is read from. *)
Definition model_columns : list (pystr * pystr) :=
  [(py "gpt4", py "gpt4"); (py "gemini", py "Gemini flash 2.5");
   (py "perplexity", py "perplexity")].

(** [l' = replace_pk pk a' l]: the record with the primary key of [a'] is
    overwritten by [a'] ([UPDATE ... WHERE id = pk]). *)
Definition replace_pk {A} (pk : A -> nat) (a' : A) (l : list A) : list A :=
  map (fun q => if pk q =? pk a' then a' else q) l.

(** [c] keeps the invariant [I] and relates the store before and after by
    [R] whenever it returns. *)
Definition preserves (I : Store -> Prop) (R : Store -> Store -> Prop)
           {A} (c : Tx A) : Prop :=
  forall st, I st -> forall a st', c st = Ok (a, st') -> I st' /\ R st st'.

(** The values [_process_single_row] reads from a row. *)
Record RowFields : Type := mkFields {
  f_review_id : pystr;
  f_review_text : pystr;
  f_sentence_id : pystr;
  f_review_sentence : pystr;
  f_gpt4 : cell;
  f_gemini : cell;
  f_perplexity : cell
}.

(** [row] carries the values [x]. *)
Definition has_fields (row : Series) (x : RowFields) : Prop :=
  getitem row (py "review_id") = Ok (Some (f_review_id x))
  /\ getitem row (py "review_text") = Ok (Some (f_review_text x))
  /\ getitem row (py "sentence_id") = Ok (Some (f_sentence_id x))
  /\ getitem row (py "review_sentence") = Ok (Some (f_review_sentence x))
  /\ get row (py "gpt4") None = f_gpt4 x
  /\ get row (py "Gemini flash 2.5") None = f_gemini x
  /\ get row (py "perplexity") None = f_perplexity x.

(** A valid row: the two identifiers, the review text and the sentence
    are present, the review text is not empty, and the identifiers fit
    their columns. *)
Definition valid_fields (x : RowFields) : Prop :=
  length (f_review_id x) <= 100
  /\ length (f_sentence_id x) <= 100
  /\ f_review_text x <> [].

Definition valid_row (row : Series) (x : RowFields) : Prop :=
  has_fields row x /\ valid_fields x.

Definition fields_model_data (x : RowFields) : list (pystr * cell) :=
  [(py "gpt4", f_gpt4 x); (py "gemini", f_gemini x);
   (py "perplexity", f_perplexity x)].

(** The lookups of the three [get_or_create] calls. *)
Definition review_test (review_id : pystr) (r : Review) : bool :=
  matches (r_review_id r) (Some review_id).

Definition sentence_test (review : nat) (sentence_id : pystr) (s : ReviewSentence)
  : bool :=
  (s_review s =? review) && matches (s_sentence_id s) (Some sentence_id).

Definition prediction_test (sentence : nat) (model_name : pystr)
           (p : ModelPrediction) : bool :=
  (m_sentence p =? sentence) && eqb (m_model_name p) model_name.

(** The three parts of [_process_single_row] on a row with fields [x]. *)
Definition review_step (enforce_max_length : bool) (x : RowFields) : Tx Review :=
  rc <- Review_get_or_create enforce_max_length (Some (f_review_id x))
                             (Some (f_review_text x)) ;;
  let (review, created) := (rc : Review * bool) in
  (if negb created && truthy (f_review_text x)
   then
     if negb (eqb (r_review_text review) (f_review_text x))
     then Review_save review (Some (f_review_text x)) ;;; ret tt
     else ret tt
   else ret tt) ;;;
  ret review.

Definition sentence_step (enforce_max_length : bool) (x : RowFields) (review : nat)
  : Tx ReviewSentence :=
  sc <- Sentence_get_or_create enforce_max_length review (Some (f_sentence_id x))
                               (Some (f_review_sentence x))
                               (f_gpt4 x) (f_gemini x) (f_perplexity x) ;;
  let (sentence, created) := (sc : ReviewSentence * bool) in
  (if negb created
   then
     if negb (eqb (s_review_sentence sentence) (f_review_sentence x))
        || negb (cell_eqb (s_gpt4_prediction sentence) (f_gpt4 x))
        || negb (cell_eqb (s_gemini_prediction sentence) (f_gemini x))
        || negb (cell_eqb (s_perplexity_prediction sentence) (f_perplexity x))
     then Sentence_save sentence (Some (f_review_sentence x))
                        (f_gpt4 x) (f_gemini x) (f_perplexity x)
     else ret tt
   else ret tt) ;;;
  ret sentence.

Definition row_program (enforce_max_length : bool) (x : RowFields) : Tx unit :=
  review <- review_step enforce_max_length x ;;
  sentence <- sentence_step enforce_max_length x (r_id review) ;;
  upsert_predictions enforce_max_length (s_id sentence) (fields_model_data x).

(** The stored sentence carries the text and the three raw predictions of
    the row. *)
Definition sentence_has_fields (s : ReviewSentence) (x : RowFields) : Prop :=
  s_review_sentence s = f_review_sentence x
  /\ s_gpt4_prediction s = f_gpt4 x
  /\ s_gemini_prediction s = f_gemini x
  /\ s_perplexity_prediction s = f_perplexity x.

(** The store holds one record for [(sentence, model_name)], with this
    text and no confidence score. *)
Definition stored_as (st : Store) (sentence : nat) (model_name text : pystr) : Prop :=
  exists p, filter (prediction_test sentence model_name) (predictions st) = [p]
            /\ m_prediction_text p = text /\ m_confidence_score p = None.

(** The records [_create_model_predictions] creates for a sentence that
    has none: one per non-blank prediction, in the order of the models,
    with keys drawn from [n] and creation times from [t]. *)
Fixpoint new_predictions (sentence : nat) (data : list (pystr * cell)) (n t : nat)
  : list ModelPrediction :=
  match data with
  | [] => []
  | (model_name, prediction_text) :: data' =>
      match prediction_text with
      | Some text =>
          if non_blank prediction_text
          then mkPrediction n sentence model_name text None t
               :: new_predictions sentence data' (S n) (S t)
          else new_predictions sentence data' n t
      | None => new_predictions sentence data' n t
      end
  end.

(** The store holds what the row says: the review of its [review_id] has
    its text, the sentence keyed by that review and its [sentence_id] has
    its sentence text and raw predictions, and each model with a non-blank
    prediction has a record with that text and no confidence score. *)
Definition agrees (st : Store) (x : RowFields) : Prop :=
  exists r s,
    filter (review_test (f_review_id x)) (reviews st) = [r]
    /\ r_review_text r = f_review_text x
    /\ filter (sentence_test (r_id r) (f_sentence_id x)) (sentences st) = [s]
    /\ sentence_has_fields s x
    /\ forall model text,
         In (model, Some text) (fields_model_data x) ->
         non_blank (Some text) = true ->
         stored_as st (s_id s) model text.

(** Two rows do not contradict each other: with the same [review_id] they
    carry the same review text, and with the same [sentence_id] too, the
    same sentence and predictions. *)
Definition compatible (x y : RowFields) : Prop :=
  f_review_id x = f_review_id y ->
  f_review_text x = f_review_text y
  /\ (f_sentence_id x = f_sentence_id y ->
      f_review_sentence x = f_review_sentence y
      /\ f_gpt4 x = f_gpt4 y /\ f_gemini x = f_gemini y
      /\ f_perplexity x = f_perplexity y).

(** No sentence is stored for the [(review_id, sentence_id)] of the row. *)
Definition pair_absent (st : Store) (x : RowFields) : Prop :=
  forall r s,
    In r (reviews st) -> In s (sentences st) ->
    r_review_id r = f_review_id x -> s_review s = r_id r ->
    s_sentence_id s <> f_sentence_id x.

(** The three tables are the same in the two stores. *)
Definition same_tables (st st' : Store) : Prop :=
  reviews st' = reviews st /\ sentences st' = sentences st
  /\ predictions st' = predictions st.

(** The specification's reading of a new pair: processing the row creates
    a Review. *)
Definition new_pair_creates_a_review : Prop :=
  forall enforce_max_length row x st st',
    wf_store st -> valid_row row x -> pair_absent st x ->
    _process_single_row enforce_max_length row st = Ok (tt, st') ->
    length (reviews st') = S (length (reviews st)).

(** The specification's reading of idempotence: whatever the file, a
    second run on it leaves the three tables as the first run left them. *)
Definition second_run_is_a_no_op : Prop :=
  forall tokenize enforce_max_length log1 log2 st0 f,
    wf_store st0 ->
    let run1 := process_csv_file tokenize enforce_max_length (start log1 st0) f in
    let run2 := process_csv_file tokenize enforce_max_length
                                 (start log2 (store (snd run1))) f in
    same_tables (store (snd run1)) (store (snd run2)).

(* ===================================================================== *)
(** ** Files, tables and rows used as examples *)
(* ===================================================================== *)



(** A semicolon-delimited file with every required column but
    [sentence_id]. *)
Definition file_without_sentence_id : file :=
  Content (bytes_of "review_id;review_text;review_sentence;gpt4;Gemini flash 2.5;perplexity"
           ++ [Byte.x0a] ++ bytes_of "R1;Great product;It works well;Positive;Positive;"
           ++ [Byte.x0a]).

(** A parsed table with one record whose [gpt4] field is " NULL ". *)
Definition shouting_table : DataFrame :=
  mkDF REQUIRED_COLUMNS
       [(0, [Some (py "R1"); Some (py "Great product"); Some (py " It works well ");
             Some (py " NULL "); Some (py " nan "); Some (py "Positive");
             Some (py "R1-S1")])].

(** What [_clean_data] makes of it. *)
Definition cleaned_shouting_table : DataFrame :=
  mkDF REQUIRED_COLUMNS
       [(0, [Some (py "R1"); Some (py "Great product"); Some (py "It works well");
             Some (py "NULL"); None; Some (py "Positive"); Some (py "R1-S1")])].

(** The example file of the specification: one record, no [perplexity]
    prediction. *)
Definition example_file : file :=
  Content (bytes_of "review_id;review_text;review_sentence;gpt4;Gemini flash 2.5;perplexity;sentence_id"
           ++ [Byte.x0a]
           ++ bytes_of "R1;Great product;It works well;Positive;Positive;;R1-S1"
           ++ [Byte.x0a]).

(** The example file once read and cleaned. *)
Definition cleaned_example_table : DataFrame :=
  mkDF REQUIRED_COLUMNS
       [(0, [Some (py "R1"); Some (py "Great product"); Some (py "It works well");
             Some (py "Positive"); Some (py "Positive"); None; Some (py "R1-S1")])].


(** A run on the example file, from a fresh ledger and an empty store. *)
Definition example_run : RunResult * World :=
  process_csv_file SimpleCsv.tokenize true (start new_upload_log empty_store)
                   example_file.

(** The row of the example file, as [iterrows] yields it. *)
Definition example_row : Series :=
  mkSeries REQUIRED_COLUMNS
           [Some (py "R1"); Some (py "Great product"); Some (py "It works well");
            Some (py "Positive"); Some (py "Positive"); None; Some (py "R1-S1")].

(** The fields of [example_row]. *)
Definition example_fields : RowFields :=
  mkFields (py "R1") (py "Great product") (py "R1-S1") (py "It works well")
           (Some (py "Positive")) (Some (py "Positive")) None.

(** The same row with a [perplexity] prediction. *)
Definition full_row : Series :=
  mkSeries REQUIRED_COLUMNS
           [Some (py "R1"); Some (py "Great product"); Some (py "It works well");
            Some (py "Positive"); Some (py "Positive"); Some (py "Negative");
            Some (py "R1-S1")].

(** The world after [full_row] was processed on an empty store. *)
Definition world_with_three_predictions : World :=
  process_row true (start new_upload_log empty_store) (0, full_row).

(** A second sentence of the same review. *)
Definition second_sentence_row : Series :=
  mkSeries REQUIRED_COLUMNS
           [Some (py "R1"); Some (py "Great product"); Some (py "Battery is weak");
            Some (py "Negative"); Some (py "Negative"); Some (py "Negative");
            Some (py "R1-S2")].

(** Its fields. *)
Definition second_sentence_fields : RowFields :=
  mkFields (py "R1") (py "Great product") (py "R1-S2") (py "Battery is weak")
           (Some (py "Negative")) (Some (py "Negative")) (Some (py "Negative")).

(** The store after [example_row] was processed on an empty store. *)
Definition store_with_example : Store := store (snd example_run).

(** A file whose two records give different texts for the same review:
    each run writes the first text, then the second. *)
Definition file_with_two_texts : file :=
  Content (bytes_of "review_id;review_text;review_sentence;gpt4;Gemini flash 2.5;perplexity;sentence_id"
           ++ [Byte.x0a]
           ++ bytes_of "R1;First text;It works well;Positive;Positive;;R1-S1"
           ++ [Byte.x0a]
           ++ bytes_of "R1;Second text;Battery is weak;Negative;Negative;Negative;R1-S2"
           ++ [Byte.x0a]).

(** Two runs on it, the second on the store the first one left. *)
Definition two_texts_first_run : RunResult * World :=
  process_csv_file SimpleCsv.tokenize true (start new_upload_log empty_store)
                   file_with_two_texts.

Definition two_texts_second_run : RunResult * World :=
  process_csv_file SimpleCsv.tokenize true
                   (start new_upload_log (store (snd two_texts_first_run)))
                   file_with_two_texts.

(** A file whose first record has no review text: its review does not
    exist when the record is first processed, and does when the file is
    processed again. *)
Definition file_with_late_review : file :=
  Content (bytes_of "review_id;review_text;review_sentence;gpt4;Gemini flash 2.5;perplexity;sentence_id"
           ++ [Byte.x0a]
           ++ bytes_of "R9;;First sentence;Positive;Positive;Positive;R9-S1"
           ++ [Byte.x0a]
           ++ bytes_of "R9;Nice phone;Second sentence;Positive;Positive;Positive;R9-S2"
           ++ [Byte.x0a]).

(** Two runs on it, the second on the store the first one left. *)
Definition late_review_first_run : RunResult * World :=
  process_csv_file SimpleCsv.tokenize true (start new_upload_log empty_store)
                   file_with_late_review.

Definition late_review_second_run : RunResult * World :=
  process_csv_file SimpleCsv.tokenize true
                   (start new_upload_log (store (snd late_review_first_run)))
                   file_with_late_review.

(* ===================================================================== *)
(** ** Further properties of the code: vocabulary and examples *)
(* ===================================================================== *)

(** A parsed table with three records: the first has padded identifiers,
    the second no sentence, the third a sentence of white space only. *)
Definition table_with_gaps : DataFrame :=
  mkDF REQUIRED_COLUMNS
       [(0, [Some (py " R1 "); Some (py "Great product"); Some (py "It works well");
             Some (py "Positive"); Some (py "Positive"); None; Some (py " R1-S1")]);
        (1, [Some (py "R1"); Some (py "Great product"); None;
             Some (py "Positive"); None; None; Some (py "R1-S2")]);
        (2, [Some (py "R2"); None; Some (py "   ");
             None; None; None; Some (py "R2-S1")])].

(** The log line [_clean_data] writes when it dropped [n] rows. *)
Definition dropped_message (n : nat) : pystr :=
  py "Dropped " +++ of_nat n +++ py " rows with missing essential data".

(** The essential columns the table lacks, in the order [dropna] names
    them. *)
Definition missing_essentials (df : DataFrame) : list pystr :=
  filter (fun c => negb (has_column c (df_columns df))) essential_columns.

(** A parsed table with every required column but [sentence_id]. *)
Definition table_without_sentence_id : DataFrame :=
  mkDF [py "review_id"; py "review_text"; py "review_sentence"; py "gpt4";
        py "Gemini flash 2.5"; py "perplexity"]
       [(0, [Some (py "R1"); Some (py "Great product"); Some (py "It works well");
             Some (py "Positive"); Some (py "Positive"); None])].

(** The two identifier columns. *)
Definition id_columns : list pystr := [py "review_id"; py "sentence_id"].

(** A path that designates no file. *)
Definition absent_file : file :=
  Unreadable (py "[Errno 2] No such file or directory: 'upload.csv'").

(** The log line [_read_csv] writes when [enc] parsed the file. *)
Definition read_message (enc : encoding) : pystr :=
  py "Successfully read CSV with " +++ encoding_name enc +++ py " encoding".

(** What never changes in a record once it is stored: its primary key,
    the values it is looked up by, and its creation time. *)
Definition review_identity (r : Review) : nat * pystr * nat :=
  (r_id r, r_review_id r, r_created_at r).

Definition sentence_identity (s : ReviewSentence) : nat * nat * pystr * nat :=
  (s_id s, s_review s, s_sentence_id s, s_created_at s).

Definition prediction_identity (p : ModelPrediction) : nat * nat * pystr * nat :=
  (m_id p, m_sentence p, m_model_name p, m_created_at p).

(** [st'] extends [st]: each table of [st'] holds the records of [st], in
    their order and with their identity, followed by new ones; keys and
    clock did not go back. *)
Definition extends (st st' : Store) : Prop :=
  (exists l, map review_identity (reviews st')
             = map review_identity (reviews st) ++ l)
  /\ (exists l, map sentence_identity (sentences st')
                = map sentence_identity (sentences st) ++ l)
  /\ (exists l, map prediction_identity (predictions st')
                = map prediction_identity (predictions st) ++ l)
  /\ next_id st <= next_id st'
  /\ clock st <= clock st'.

(** Referential integrity: every sentence belongs to a stored review and
    every prediction to a stored sentence. *)
Definition references_ok (st : Store) : Prop :=
  incl (map s_review (sentences st)) (map r_id (reviews st))
  /\ incl (map m_sentence (predictions st)) (map s_id (sentences st)).

(** A store reached from a well-formed one by the ORM calls of the
    engine. *)
Definition kept (st st' : Store) : Prop :=
  wf_store st' /\ extends st st' /\ (references_ok st -> references_ok st').

(** The store a run on [f] leaves. *)
Definition store_after_run (tokenize : pystr -> pystr -> option nat -> parse_outcome)
           (enforce_max_length : bool) (log : DataUploadLog) (st : Store) (f : file)
  : Store :=
  store (snd (process_csv_file tokenize enforce_max_length (start log st) f)).


(** The two kinds of lines [_process_batch] logs. *)
Definition is_row_error (m : pystr) : bool := starts_with (py "Row ") m.

Definition is_batch_start (m : pystr) : bool :=
  starts_with (py "Processing batch starting at row ") m.

(** The line logged for a row that raised [e]. *)
Definition row_error_message (index : nat) (e : exn) : pystr :=
  py "Row " +++ of_nat (index + 1) +++ py ": " +++ str_of_exn e.

(** What a piece of the run adds to the log: the log grows at its end, by
    one "Row" line for each row that failed and [batches] lines that
    announce a batch. *)
Definition logs_added (batches : nat) (w w' : World) : Prop :=
  exists l, p_processing_log (self w') = p_processing_log (self w) ++ l
             /\ length (filter is_row_error l) + p_failed_rows (self w)
                = p_failed_rows (self w')
             /\ length (filter is_batch_start l) = batches.

(** The raw prediction a stored sentence holds for the model read from
    [column]. *)
Definition raw_prediction (column : pystr) (s : ReviewSentence) : cell :=
  if eqb column (py "gpt4") then s_gpt4_prediction s
  else if eqb column (py "Gemini flash 2.5") then s_gemini_prediction s
  else s_perplexity_prediction s.

(** The example row with another review text, and its fields. *)
Definition reworded_row : Series :=
  mkSeries REQUIRED_COLUMNS
           [Some (py "R1"); Some (py "Great product, really");
            Some (py "It works well"); Some (py "Positive"); Some (py "Positive");
            None; Some (py "R1-S1")].

Definition reworded_fields : RowFields :=
  mkFields (py "R1") (py "Great product, really") (py "R1-S1") (py "It works well")
           (Some (py "Positive")) (Some (py "Positive")) None.

(** The store after [full_row] was processed on an empty store: the
    sentence has its three predictions. *)
Definition store_with_three_predictions : Store :=
  store world_with_three_predictions.

(** [row] carries the identifiers, the sentence and the predictions of
    [x]; nothing is said of its [review_text]. *)
Definition has_sentence_fields (row : Series) (x : RowFields) : Prop :=
  getitem row (py "review_id") = Ok (Some (f_review_id x))
  /\ getitem row (py "sentence_id") = Ok (Some (f_sentence_id x))
  /\ getitem row (py "review_sentence") = Ok (Some (f_review_sentence x))
  /\ get row (py "gpt4") None = f_gpt4 x
  /\ get row (py "Gemini flash 2.5") None = f_gemini x
  /\ get row (py "perplexity") None = f_perplexity x.

(** The identifiers fit their columns. *)
Definition ids_fit (x : RowFields) : Prop :=
  length (f_review_id x) <= 100 /\ length (f_sentence_id x) <= 100.

(** The first part of [_process_single_row], on a row whose [review_id]
    is [rid]: the review is looked up or created, and its text updated. *)
Definition review_part (enforce_max_length : bool) (row : Series) (rid : pystr)
  : Tx Review :=
  rc <- Review_get_or_create enforce_max_length (Some rid)
                             (get row (py "review_text") (Some [])) ;;
  let (review, created) := (rc : Review * bool) in
  (if negb created && cell_truthy (get row (py "review_text") None)
   then
     text <- lift (getitem row (py "review_text")) ;;
     if negb (cell_eqb (Some (r_review_text review)) text)
     then Review_save review text ;;; ret tt
     else ret tt
   else ret tt) ;;;
  ret review.

(** The fields of [x] with a review text that is not empty. *)
Definition with_some_text (x : RowFields) : RowFields :=
  mkFields (f_review_id x) (py "-") (f_sentence_id x) (f_review_sentence x)
           (f_gpt4 x) (f_gemini x) (f_perplexity x).

(** A record of a table that has no [review_text] column. *)
Definition row_without_text_column : Series :=
  mkSeries [py "review_id"; py "review_sentence"; py "gpt4"; py "sentence_id"]
           [Some (py "R7"); Some (py "Fast delivery"); Some (py "Positive");
            Some (py "R7-S1")].

Definition fields_without_text_column : RowFields :=
  mkFields (py "R7") (py "") (py "R7-S1") (py "Fast delivery")
           (Some (py "Positive")) None None.

(** A record whose [review_text] is null. *)
Definition row_with_null_text : Series :=
  mkSeries REQUIRED_COLUMNS
           [Some (py "R1"); None; Some (py "It works well");
            Some (py "Positive"); Some (py "Positive"); None; Some (py "R1-S1")].

(* --------------------------------------------------------------------- *)
(** *** The whole database *)

(** Every evaluation refers to a stored sentence and a stored user. *)
Definition evaluations_ok (db : Database) : Prop :=
  incl (map h_sentence (evaluations db)) (map s_id (sentences (entities db)))
  /\ incl (map h_evaluator (evaluations db)) (map u_id (users db)).

(** The invariants of the database: unique keys and valid references. *)
Definition database_ok (db : Database) : Prop :=
  wf_store (entities db) /\ references_ok (entities db) /\ evaluations_ok db.

(** The two reports of the cleanup command. *)
Definition would_delete (n m : nat) : list pystr :=
  [py "Would delete " +++ of_nat n +++ py " empty sentences";
   py "Would delete " +++ of_nat m +++ py " old sessions"].

Definition cleaned_up (n m : nat) : list pystr :=
  [py "Cleaned up:" +++ [10%N] +++ py "- " +++ of_nat n +++ py " empty sentences"
   +++ [10%N] +++ py "- " +++ of_nat m +++ py " old sessions"].

(** A database with one review and two sentences: the first sentence has
    two predictions; the second has none left in its columns, but still
    one ModelPrediction record, and was evaluated once.  Of the three
    sessions the first ended long ago, the second is active and the
    third ended without a completion time. *)
Definition example_database : Database :=
  mkDatabase
    (mkStore
       [mkReview 0 (py "R1") (py "Great product") 0 0]
       [mkSentence 1 0 (py "R1-S1") (py "It works well") (Some (py "Positive"))
                   (Some (py "Positive")) None 1 1;
        mkSentence 4 0 (py "R1-S2") (py "Battery is weak") None None None 4 6]
       [mkPrediction 2 1 (py "gpt4") (py "Positive") None 2;
        mkPrediction 3 1 (py "gemini") (py "Positive") None 3;
        mkPrediction 5 4 (py "gpt4") (py "Negative") None 5]
       6 7)
    [mkUser 0 (py "alice") false (py "evaluator")]
    [mkEvaluation 0 1 0 (py "gpt4") None None 8;
     mkEvaluation 1 4 0 (py "none") (Some (py "Neutral")) None 9]
    [mkSession 0 0 (Some 1000%Z) false;
     mkSession 1 0 None true;
     mkSession 2 0 None false].

(** A time more than seven days after the first session ended. *)
Definition example_now : Z := 2000000.

(** The database [db] with other ingestion tables. *)
Definition with_entities (db : Database) (st : Store) : Database :=
  mkDatabase st (users db) (evaluations db) (sessions db).

(** A valid record that carries no prediction at all, and its fields. *)
Definition row_without_predictions : Series :=
  mkSeries REQUIRED_COLUMNS
           [Some (py "R3"); Some (py "Arrived late"); Some (py "Box was damaged");
            None; None; None; Some (py "R3-S1")].

Definition fields_without_predictions : RowFields :=
  mkFields (py "R3") (py "Arrived late") (py "R3-S1") (py "Box was damaged")
           None None None.

(** [j] is the evaluation [h] with the sentence, the review and the
    evaluator its foreign keys designate. *)
Definition joined (db : Database) (h : HumanEvaluation)
           (j : HumanEvaluation * ReviewSentence * Review * User) : Prop :=
  let '(h', s, r, u) := j in
  h' = h
  /\ In s (sentences (entities db)) /\ s_id s = h_sentence h
  /\ In r (reviews (entities db)) /\ r_id r = s_review s
  /\ In u (users db) /\ u_id u = h_evaluator h.

(** A record of the exported table for the evaluation [h]. *)
Definition exported_as (isoformat : nat -> pystr) (db : Database)
           (h : HumanEvaluation) (vals : list cell) : Prop :=
  exists s r u,
    joined db h (h, s, r, u)
    /\ vals = export_record isoformat (h, s, r, u)
    /\ cell_at export_columns vals (py "sentence_id") = Some (s_sentence_id s)
    /\ cell_at export_columns vals (py "review_id") = Some (r_review_id r)
    /\ cell_at export_columns vals (py "evaluator") = Some (u_username u)
    /\ cell_at export_columns vals (py "best_model") = Some (h_best_model h)
    /\ cell_at export_columns vals (py "alternative_solution")
       = h_alternative_solution h.

(* ===================================================================== *)
(** * Properties *)
(* ===================================================================== *)

(** ** Strings and columns *)

Lemma eqb_eq (a b : pystr) : eqb a b = true <-> a = b.
Proof.
  revert b; induction a as [|x a IH]; intros [|y b]; simpl; split;
    try congruence; try reflexivity.
  - intros H. apply andb_true_iff in H as [Hx Hr].
    apply N.eqb_eq in Hx. apply IH in Hr. congruence.
  - intros H. injection H as -> ->. rewrite N.eqb_refl. simpl. now apply IH.
Qed.

Lemma eqb_refl (a : pystr) : eqb a a = true.
Proof. now apply eqb_eq. Qed.

Lemma eqb_neq (a b : pystr) : eqb a b = false <-> a <> b.
Proof.
  split.
  - intros H E. apply eqb_eq in E. congruence.
  - intros H. destruct (eqb a b) eqn:E; [apply eqb_eq in E; contradiction | reflexivity].
Qed.

Lemma mem_In (s : pystr) (l : list pystr) : mem s l = true <-> In s l.
Proof.
  unfold mem. rewrite existsb_exists. split.
  - intros (x & Hx & E). apply eqb_eq in E. now subst.
  - intros H. exists s. split; [assumption | apply eqb_refl].
Qed.

(** ** The encoding-resilient reader *)

Section ReaderFacts.

Variable tokenize : pystr -> pystr -> option nat -> parse_outcome.




(** What the loop returns is the parse of an encoding all of whose
    predecessors failed to decode. *)
Lemma read_loop_returned (f : file) (sep : pystr) (encs : list encoding)
      (df : DataFrame) (enc : encoding) :
  fst (read_loop tokenize f sep encs) = Returned df enc ->
  exists before after,
    encs = before ++ enc :: after
    /\ read_csv tokenize f enc sep None = Ok df
    /\ Forall (fun e => forall df', read_csv tokenize f e sep None <> Ok df') before.
Proof.
  induction encs as [|e0 encs IH]; simpl; [discriminate|].
  destruct (read_csv tokenize f e0 sep None) as [df0|e] eqn:R.
  - simpl. intros H. injection H as -> ->.
    exists [], encs. repeat split; [assumption | constructor].
  - destruct (is_UnicodeDecodeError e).
    + destruct (read_loop tokenize f sep encs) as [o tried]. simpl in *.
      intros H. destruct (IH H) as (before & after & -> & Hr & Hb).
      exists (e0 :: before), after. repeat split; [assumption|].
      constructor; [|assumption]. intros df'. congruence.
    + simpl. discriminate.
Qed.


End ReaderFacts.



(** C10. "latin-1" decodes every byte sequence, so for every file the
    loop of the reader ends at the first or second candidate, by
    returning a table or by an exception that is not a
    [UnicodeDecodeError] (re-raised as "Failed to read CSV file: ...");
    "cp1252" is never attempted and the branch raising "Could not decode
    CSV file with common encodings" is never reached. *)
Theorem C10_could_not_decode_branch_unreachable
        (tokenize : pystr -> pystr -> option nat -> parse_outcome)
        (self : CSVProcessor) (f : file) (sep : pystr) :
  let (o, tried) := read_loop tokenize f sep candidate_encodings in
  o <> Exhausted
  /\ (tried = [utf_8] \/ tried = [utf_8; latin_1])
  /\ ~ In cp1252 tried
  /\ match o with
     | Returned df enc =>
         (enc = utf_8 \/ enc = latin_1)
         /\ fst (_read_csv tokenize self f sep) = Ok df
     | Escaped e =>
         is_UnicodeDecodeError e = false
         /\ fst (_read_csv tokenize self f sep) = Raise (failed_to_read e)
     | Exhausted => False
     end.
Proof.
  unfold _read_csv, candidate_encodings. simpl read_loop.
  destruct f as [m|bs]; simpl.
  - repeat split; try discriminate; auto. intros [H|[]]; discriminate.
  - destruct (Codec.utf8 (map Byte.to_N bs)) as [text|].
    + destruct (tokenize text sep None); simpl;
        (repeat split; try discriminate; auto; intros [H|[]]; discriminate).
    + simpl. unfold Codec.latin1.
      destruct (tokenize (map Byte.to_N bs) sep None); simpl;
        (repeat split; try discriminate; auto; intros [H|[H|[]]]; discriminate).
Qed.

(** ** The standalone validator *)

(** C6. The validator returns a report on every file.  When the sample
    read or the line count raises, the report is invalid, carries the text
    of the exception and has empty or zero values elsewhere.  When both
    succeed on a file that has every required column except
    [sentence_id], the report is invalid with
    [missing_columns = ['sentence_id']]. *)
Theorem C6_validator_total_and_reports
        (tokenize : pystr -> pystr -> option nat -> parse_outcome)
        (locale_decode : list Byte.byte -> option pystr) (f : file) :
  (exists r, validate_csv_file tokenize locale_decode f = r)
  /\ (forall e, read_csv tokenize f utf_8 (py ";") (Some 5) = Raise e ->
      validate_csv_file tokenize locale_decode f = invalid_report e)
  /\ (forall df e, read_csv tokenize f utf_8 (py ";") (Some 5) = Ok df ->
      line_count locale_decode f = Raise e ->
      validate_csv_file tokenize locale_decode f = invalid_report e)
  /\ (forall df n, read_csv tokenize f utf_8 (py ";") (Some 5) = Ok df ->
      line_count locale_decode f = Ok n ->
      (forall c, In c REQUIRED_COLUMNS -> c <> py "sentence_id" ->
                 has_column c (df_columns df) = true) ->
      has_column (py "sentence_id") (df_columns df) = false ->
      valid (validate_csv_file tokenize locale_decode f) = false
      /\ missing_columns (validate_csv_file tokenize locale_decode f)
         = [py "sentence_id"]
      /\ error (validate_csv_file tokenize locale_decode f) = None).
Proof.
  split; [eexists; reflexivity|]. split; [|split].
  - intros e H. unfold validate_csv_file. now rewrite H.
  - intros df e H L. unfold validate_csv_file. now rewrite H, L.
  - intros df n H L Hall Hno. unfold validate_csv_file. rewrite H, L.
    assert (M : filter (fun col => negb (has_column col (df_columns df)))
                       REQUIRED_COLUMNS = [py "sentence_id"]).
    { unfold REQUIRED_COLUMNS in *. cbn [filter].
      rewrite Hno.
      rewrite !Hall;
        try (cbn [negb]; reflexivity);
        try (intros E; vm_compute in E; discriminate);
        cbn [In]; tauto. }
    rewrite M. simpl. auto.
Qed.

Lemma C6_witness :
  read_csv SimpleCsv.tokenize file_without_sentence_id utf_8 (py ";") (Some 5)
  = Ok (mkDF [py "review_id"; py "review_text"; py "review_sentence"; py "gpt4";
              py "Gemini flash 2.5"; py "perplexity"]
             [(0, [Some (py "R1"); Some (py "Great product");
                   Some (py "It works well"); Some (py "Positive");
                   Some (py "Positive"); None])])
  /\ missing_columns (validate_csv_file SimpleCsv.tokenize (Codec.decode utf_8)
                                        file_without_sentence_id)
     = [py "sentence_id"].
Proof.
  split; [reflexivity|].
  pose proof (C6_validator_total_and_reports SimpleCsv.tokenize (Codec.decode utf_8)
                file_without_sentence_id) as (_ & _ & _ & H).
  eapply H.
  - reflexivity.
  - reflexivity.
  - intros c Hc Hn. simpl in Hc.
    repeat (destruct Hc as [<-|Hc]; [try reflexivity; exfalso; apply Hn; reflexivity|]).
    destruct Hc.
  - reflexivity.
Defined.

(** ** The row normalizer *)

Lemma nth_update_nth_same (f : cell -> cell) (i : nat) (vals : list cell) :
  f None = None -> nth i (update_nth i f vals) None = f (nth i vals None).
Proof.
  intros Hf. revert i; induction vals as [|v vals IH]; intros [|i]; simpl; auto.
Qed.

Lemma nth_update_nth_other (f : cell -> cell) (i j : nat) (vals : list cell) :
  i <> j -> nth j (update_nth i f vals) None = nth j vals None.
Proof.
  revert i j; induction vals as [|v vals IH]; intros [|i] [|j] H; simpl; auto.
  congruence.
Qed.

Lemma col_pos_inj (a b : pystr) (cols : list pystr) (i : nat) :
  col_pos a cols = Some i -> col_pos b cols = Some i -> a = b.
Proof.
  revert i; induction cols as [|c cols IH]; simpl; [discriminate|].
  intros i. destruct (eqb c a) eqn:Ea, (eqb c b) eqn:Eb.
  - apply eqb_eq in Ea, Eb. congruence.
  - intros H. injection H as <-. destruct (col_pos b cols); discriminate.
  - intros H1 H2. injection H2 as <-. destruct (col_pos a cols); discriminate.
  - destruct (col_pos a cols) as [ia|], (col_pos b cols) as [ib|]; simpl;
      try discriminate.
    intros H1 H2. injection H1 as <-. injection H2 as ->. now apply (IH ia).
Qed.

Lemma cell_at_update_same (cols : list pystr) (name : pystr) (f : cell -> cell)
      (vals : list cell) :
  f None = None ->
  cell_at cols (update_at cols name f vals) name = f (cell_at cols vals name).
Proof.
  intros Hf. unfold cell_at, update_at.
  destruct (col_pos name cols) as [i|]; [now apply nth_update_nth_same | auto].
Qed.

Lemma cell_at_update_other (cols : list pystr) (name name' : pystr)
      (f : cell -> cell) (vals : list cell) :
  name <> name' ->
  cell_at cols (update_at cols name f vals) name' = cell_at cols vals name'.
Proof.
  intros Hn. unfold cell_at, update_at.
  destruct (col_pos name' cols) as [j|] eqn:Ej; [|reflexivity].
  destruct (col_pos name cols) as [i|] eqn:Ei; [|reflexivity].
  apply nth_update_nth_other. intros ->. apply Hn. eapply col_pos_inj; eauto.
Qed.

Lemma map_column_rows (name : pystr) (f : cell -> cell) (df : DataFrame) :
  map_column name f df
  = mkDF (df_columns df)
         (map (fun r => (fst r, update_at (df_columns df) name f (snd r)))
              (df_rows df)).
Proof.
  unfold map_column, update_at. destruct df as [cols rows]. simpl.
  destruct (col_pos name cols); [reflexivity|].
  f_equal. induction rows as [|[i v] rows IH]; simpl; congruence.
Qed.

Lemma clean_text_columns_rows (df : DataFrame) :
  clean_text_columns df
  = mkDF (df_columns df)
         (map (fun r => (fst r,
                         fold_left (fun v col => update_at (df_columns df) col
                                                           clean_text_cell v)
                                   text_columns (snd r)))
              (df_rows df)).
Proof.
  unfold clean_text_columns.
  assert (G : forall l d,
             fold_left (fun d col => if has_column col (df_columns d)
                                     then map_column col clean_text_cell d else d) l d
             = mkDF (df_columns d)
                    (map (fun r => (fst r,
                            fold_left (fun v col => update_at (df_columns d) col
                                                              clean_text_cell v)
                                      l (snd r)))
                         (df_rows d))).
  { induction l as [|c l IH]; intros d; simpl.
    - destruct d as [cols rows]. simpl. f_equal.
      induction rows as [|[i v] rows IHr]; simpl; congruence.
    - assert (E : (if has_column c (df_columns d)
                   then map_column c clean_text_cell d else d)
                  = map_column c clean_text_cell d).
      { unfold has_column, map_column.
        destruct (col_pos c (df_columns d)); reflexivity. }
      rewrite E, IH, map_column_rows. simpl. now rewrite map_map. }
  apply G.
Qed.

Lemma _clean_data_rows (self self' : CSVProcessor) (df df' : DataFrame) :
  _clean_data self df = (Ok df', self') ->
  df' = mkDF (df_columns df)
             (map (fun r => (fst r, cleaned_values (df_columns df) (snd r)))
                  (filter (has_essentials (df_columns df)) (df_rows df))).
Proof.
  unfold _clean_data, dropna.
  destruct (filter _ essential_columns); [|discriminate].
  intros H. injection H as <- _.
  rewrite clean_text_columns_rows, !map_column_rows. simpl.
  rewrite !map_map. reflexivity.
Qed.

Lemma cleaned_values_text (cols : list pystr) (vals : list cell) (col : pystr) :
  In col text_columns ->
  cell_at cols (cleaned_values cols vals) col
  = clean_text_cell (cell_at cols vals col).
Proof.
  intros Hin. unfold cleaned_values.
  assert (Hnone : clean_text_cell None = None) by reflexivity.
  rewrite !cell_at_update_other.
  2,3: (intros <-; simpl in Hin;
        repeat (destruct Hin as [Hin|Hin]; [vm_compute in Hin; discriminate|]);
        destruct Hin).
  unfold text_columns in *. cbn [fold_left]. cbn [In] in Hin.
  decompose [or] Hin; subst; try contradiction;
    repeat first
      [ rewrite cell_at_update_same by exact Hnone
      | rewrite cell_at_update_other by (intros E; vm_compute in E; discriminate) ];
    reflexivity.
Qed.

Lemma sentinels_spec (s : pystr) :
  mem s sentinels = true
  <-> s = py "nan" \/ s = py "NaN" \/ s = py "null" \/ s = py "".
Proof.
  rewrite mem_In. unfold sentinels. simpl In. intuition congruence.
Qed.

(** C8 (as amended). For every text column, a kept row's value is
    trimmed, then replaced by the null value exactly when the trimmed text
    is one of "nan", "NaN", "null" or the empty string; every other value,
    other spellings such as "NULL" or "NAN" included, is the trimmed text
    unchanged. *)
Theorem C8_text_columns_trimmed_and_listed_sentinels_nulled
        (self self' : CSVProcessor) (df df' : DataFrame) :
  _clean_data self df = (Ok df', self') ->
  df_columns df' = df_columns df
  /\ Forall2 (normalized_row (df_columns df))
             (filter (has_essentials (df_columns df)) (df_rows df))
             (df_rows df').
Proof.
  intros H. apply _clean_data_rows in H. subst df'. simpl. split; [reflexivity|].
  induction (filter (has_essentials (df_columns df)) (df_rows df)) as [|r rows IH];
    simpl; constructor; [|assumption].
  split; [reflexivity|]. intros col Hin. simpl snd.
  rewrite cleaned_values_text by assumption.
  unfold clean_text_cell, replace_sentinels.
  destruct (mem _ sentinels) eqn:M; split; intros Hs; try reflexivity.
  - exfalso. apply Hs. now apply sentinels_spec.
  - apply sentinels_spec in Hs. congruence.
Qed.

Lemma C8_witness :
  _clean_data (init new_upload_log) shouting_table
  = (Ok cleaned_shouting_table, init new_upload_log)
  /\ df_columns cleaned_shouting_table = df_columns shouting_table
  /\ Forall2 (normalized_row (df_columns shouting_table))
             (df_rows shouting_table) (df_rows cleaned_shouting_table).
Proof.
  split; [reflexivity|].
  apply (@C8_text_columns_trimmed_and_listed_sentinels_nulled
           (init new_upload_log) (init new_upload_log) shouting_table
           cleaned_shouting_table).
  reflexivity.
Defined.

(** C8 as the specification words it fails: " NULL " is trimmed to "NULL",
    a case variant of "null", and is kept. *)
Lemma C8_counterexample : ~ every_sentinel_variant_is_nulled.
Proof.
  intros H.
  assert (E : sentinel_variant (py "NULL") = false).
  { apply (H (init new_upload_log) shouting_table cleaned_shouting_table
             (init new_upload_log) eq_refl
             (0, [Some (py "R1"); Some (py "Great product"); Some (py "It works well");
                  Some (py "NULL"); None; Some (py "Positive"); Some (py "R1-S1")])
             (py "gpt4")).
    - left. reflexivity.
    - unfold text_columns. simpl. tauto.
    - reflexivity. }
  vm_compute in E. discriminate E.
Qed.

(** ** The batch loop *)

Section RunFacts.

Variable tokenize : pystr -> pystr -> option nat -> parse_outcome.
Variable enforce_max_length : bool.


Lemma process_row_step (w : World) (ir : nat * Series) :
  row_step w (process_row enforce_max_length w ir).
Proof.
  unfold row_step, process_row. destruct ir as [index row].
  destruct (_process_single_row enforce_max_length row (store w)) as [[u st']|e];
    simpl; auto 10.
Qed.

Lemma row_step_after_log (w w' : World) (m : pystr) :
  row_step (with_self w (_add_log (self w) m)) w' -> row_step w w'.
Proof. unfold row_step. simpl. auto. Qed.

Lemma progresses_after_log (w : World) (m : pystr) (trace : list World) :
  progresses (with_self w (_add_log (self w) m)) trace -> progresses w trace.
Proof.
  destruct trace as [|w' trace]; simpl; [auto|].
  intros [H1 H2]. split; [exact (row_step_after_log H1) | assumption].
Qed.

Lemma last_cons_default (A : Type) (a : A) (l : list A) (d d' : A) :
  last (a :: l) d = last (a :: l) d'.
Proof.
  revert a; induction l as [|b l IH]; intros a; [reflexivity|].
  change (last (b :: l) d = last (b :: l) d'). apply IH.
Qed.

Lemma progresses_app (w : World) (l1 l2 : list World) :
  progresses w l1 -> progresses (last l1 w) l2 -> progresses w (l1 ++ l2).
Proof.
  revert w; induction l1 as [|x l1 IH]; intros w; simpl; [auto|].
  intros [H1 H2] H3. split; [assumption|]. apply IH; [assumption|].
  destruct l1 as [|y l1]; [exact H3|].
  now rewrite (last_cons_default y l1 x w).
Qed.

Lemma worlds_after_rows_progresses (w : World) (rows : list (nat * Series)) :
  progresses w (worlds_after_rows enforce_max_length w rows).
Proof.
  revert w; induction rows as [|r rows IH]; intros w; simpl; [exact I|].
  split; [apply process_row_step | apply IH].
Qed.

Lemma worlds_after_rows_last (w : World) (rows : list (nat * Series)) :
  last (worlds_after_rows enforce_max_length w rows) w = fold_left (process_row enforce_max_length) rows w.
Proof.
  revert w; induction rows as [|r rows IH]; intros w; simpl; [reflexivity|].
  rewrite <- IH. generalize (process_row enforce_max_length w r). intros w'.
  destruct rows as [|r' rows]; [reflexivity|].
  cbn [worlds_after_rows]. apply last_cons_default.
Qed.

Lemma worlds_after_rows_length (w : World) (rows : list (nat * Series)) :
  length (worlds_after_rows enforce_max_length w rows) = length rows.
Proof.
  revert w; induction rows as [|r rows IH]; intros w; simpl; auto.
Qed.

(** *** Batches *)

Lemma range_from_covers (A : Type) (rows : list A) (b : nat) :
  0 < b ->
  forall fuel start,
    length rows - start <= fuel ->
    concat (map (fun i => firstn (i + b - i) (skipn i rows))
                (range_from fuel start (length rows) b))
    = skipn start rows.
Proof.
  intros Hb. induction fuel as [|fuel IH]; intros start Hf; simpl.
  - symmetry. apply skipn_all2. lia.
  - destruct (start <? length rows) eqn:E.
    + apply Nat.ltb_lt in E. simpl. rewrite IH by lia.
      replace (start + b - start) with b by lia.
      replace (start + b) with (b + start) by lia.
      rewrite <- skipn_skipn. apply firstn_skipn.
    + apply Nat.ltb_ge in E. simpl. symmetry. now apply skipn_all2.
Qed.

(** Every row of the table is in exactly one batch, in order. *)
Lemma batched_rows_all (df : DataFrame) : batched_rows df = iterrows df.
Proof.
  unfold batched_rows, range, iloc, iterrows, len. simpl.
  rewrite <- (map_map (fun i => firstn (i + batch_size - i) (skipn i (df_rows df)))
                      (map (fun r => (fst r, mkSeries (df_columns df) (snd r))))).
  rewrite <- concat_map, (@range_from_covers _ (df_rows df) batch_size);
    [reflexivity | unfold batch_size; lia | lia].
Qed.

Lemma worlds_of_batches_progresses (df : DataFrame) (starts : list nat) :
  forall w, progresses w (worlds_of_batches enforce_max_length w df starts).
Proof.
  induction starts as [|i starts IH]; intros w; [exact I|].
  cbn [worlds_of_batches]. cbv zeta.
  eapply progresses_after_log. apply progresses_app.
  - apply worlds_after_rows_progresses.
  - rewrite worlds_after_rows_last. apply IH.
Qed.

Lemma worlds_of_batches_length (df : DataFrame) (starts : list nat) :
  forall w,
    length (worlds_of_batches enforce_max_length w df starts)
    = length (concat (map (fun i => iterrows (iloc i (i + batch_size) df)) starts)).
Proof.
  induction starts as [|i starts IH]; intros w; [reflexivity|].
  cbn [worlds_of_batches map concat]. cbv zeta.
  now rewrite !length_app, worlds_after_rows_length, IH.
Qed.

Lemma worlds_during_loop_length (w : World) (df : DataFrame) :
  length (worlds_during_loop enforce_max_length w df) = len df.
Proof.
  unfold worlds_during_loop. rewrite worlds_of_batches_length.
  fold (batched_rows df). rewrite batched_rows_all.
  unfold iterrows, len. now rewrite length_map.
Qed.


(** The world after the loop, against the one before it. *)
Lemma fold_process_row_inv (rows : list (nat * Series)) :
  forall w,
    let w' := fold_left (process_row enforce_max_length) rows w in
    ledger w' = ledger w /\ saves w' = saves w
    /\ upload_log (self w') = upload_log (self w)
    /\ p_successful_rows (self w') + p_failed_rows (self w')
       = p_successful_rows (self w) + p_failed_rows (self w) + length rows.
Proof.
  induction rows as [|r rows IH]; intros w; simpl.
  - repeat split; lia.
  - destruct (IH (process_row enforce_max_length w r)) as (Hl & Hs & Hu & Hc).
    destruct (process_row_step w r) as (Hl' & Hs' & Hu' & Hc').
    repeat split; try congruence; lia.
Qed.

Lemma _process_batch_inv (w : World) (batch_df : DataFrame) (n : nat) :
  let w' := _process_batch enforce_max_length w batch_df n in
  ledger w' = ledger w /\ saves w' = saves w
  /\ upload_log (self w') = upload_log (self w)
  /\ p_successful_rows (self w') + p_failed_rows (self w')
     = p_successful_rows (self w) + p_failed_rows (self w)
       + length (iterrows batch_df).
Proof.
  cbv zeta. unfold _process_batch.
  apply (fold_process_row_inv (iterrows batch_df)
           (with_self w (_add_log (self w)
              (py "Processing batch starting at row " +++ of_nat n)))).
Qed.

Lemma fold_process_batch_inv (df : DataFrame) (starts : list nat) :
  forall w,
    let w' := fold_left
                (fun w i => _process_batch enforce_max_length w
                              (iloc i (i + batch_size) df) (i + 1))
                starts w in
    ledger w' = ledger w /\ saves w' = saves w
    /\ upload_log (self w') = upload_log (self w)
    /\ p_successful_rows (self w') + p_failed_rows (self w')
       = p_successful_rows (self w) + p_failed_rows (self w)
         + length (concat (map (fun i => iterrows (iloc i (i + batch_size) df))
                               starts)).
Proof.
  induction starts as [|i starts IH]; intros w; cbn [fold_left map concat].
  - cbv zeta. simpl. repeat split; lia.
  - cbv zeta.
    pose proof (_process_batch_inv w (iloc i (i + batch_size) df) (i + 1)) as Hb.
    cbv zeta in Hb. revert Hb.
    generalize (_process_batch enforce_max_length w
                  (iloc i (i + batch_size) df) (i + 1)).
    intros w1 (Hl' & Hs' & Hu' & Hc').
    specialize (IH w1). cbv zeta in IH. destruct IH as (Hl & Hs & Hu & Hc).
    rewrite length_app. repeat split; try congruence.
    rewrite Hc, Hc'. lia.
Qed.

Lemma process_batches_inv (w : World) (df : DataFrame) :
  let w' := process_batches enforce_max_length w df (len df) in
  ledger w' = ledger w /\ saves w' = saves w
  /\ upload_log (self w') = upload_log (self w)
  /\ p_successful_rows (self w') + p_failed_rows (self w')
     = p_successful_rows (self w) + p_failed_rows (self w) + len df.
Proof.
  cbv zeta. unfold process_batches.
  pose proof (fold_process_batch_inv df (range 0 (len df) batch_size) w) as G.
  cbv zeta in G. fold (batched_rows df) in G. rewrite batched_rows_all in G.
  unfold iterrows in G. rewrite length_map in G. exact G.
Qed.

(** *** Before and after the loop *)

Lemma _read_csv_self (p : CSVProcessor) (f : file) (sep : pystr) :
  let p' := snd (_read_csv tokenize p f sep) in
  upload_log p' = upload_log p
  /\ p_successful_rows p' = p_successful_rows p
  /\ p_failed_rows p' = p_failed_rows p.
Proof.
  cbv zeta. unfold _read_csv.
  destruct (fst (read_loop tokenize f sep candidate_encodings)); simpl; auto.
Qed.

Lemma _clean_data_self (p : CSVProcessor) (df : DataFrame) :
  let p' := snd (_clean_data p df) in
  upload_log p' = upload_log p
  /\ p_successful_rows p' = p_successful_rows p
  /\ p_failed_rows p' = p_failed_rows p.
Proof.
  cbv zeta. unfold _clean_data.
  destruct (dropna essential_columns df) as [df1|e]; simpl; [|auto].
  destruct (0 <? len df - len df1); simpl; auto.
Qed.

(** [prepare] writes the ledger once in [processing], and once more with
    [total_rows] when the table was read and cleaned; it touches neither
    the entity tables nor the counters. *)
Lemma prepare_spec (w : World) (f : file) :
  let l1 := in_processing (upload_log (self w)) in
  let w' := snd (prepare tokenize w f) in
  store w' = store w
  /\ p_successful_rows (self w') = p_successful_rows (self w)
  /\ p_failed_rows (self w') = p_failed_rows (self w)
  /\ match fst (prepare tokenize w f) with
     | Raise e =>
         saves w' = saves w ++ [l1]
         /\ ledger w' = l1 /\ upload_log (self w') = l1
     | Ok df =>
         saves w' = saves w ++ [l1; with_total l1 (len df)]
         /\ ledger w' = with_total l1 (len df)
         /\ upload_log (self w') = with_total l1 (len df)
     end.
Proof.
  cbv zeta. unfold prepare.
  set (w2 := save_upload_log (set_upload_log w _)).
  pose proof (_read_csv_self (self w2) f (py ";")) as R. cbv zeta in R.
  destruct (_read_csv tokenize (self w2) f (py ";")) as [[df|e] p]; simpl in R.
  - pose proof (_clean_data_self p df) as C. cbv zeta in C.
    destruct (_clean_data p df) as [[df'|e] p']; simpl in C; simpl.
    + destruct R as (R1 & R2 & R3), C as (C1 & C2 & C3).
      rewrite C1, R1, C2, R2, C3, R3. subst w2. simpl.
      rewrite <- app_assoc. simpl. auto 10.
    + destruct R as (R1 & R2 & R3), C as (C1 & C2 & C3).
      rewrite C1, R1, C2, R2, C3, R3. subst w2. simpl. auto 10.
  - simpl. destruct R as (R1 & R2 & R3).
    rewrite R1, R2, R3. subst w2. simpl. auto 10.
Qed.


End RunFacts.

(** ** The run *)

(** C1. When a run ends with the ledger in [completed], the table was
    read and cleaned, [total_rows] is its number of rows, every row went
    through the batch loop once, each iteration added one to exactly one of
    the two counters, and [successful_rows + failed_rows = total_rows]. *)
Theorem C1_completed_run_counts_add_up
        (tokenize : pystr -> pystr -> option nat -> parse_outcome)
        (enforce_max_length : bool) (log : DataUploadLog) (st : Store) (f : file)
        (r : RunResult) (w' : World) :
  process_csv_file tokenize enforce_max_length (start log st) f = (r, w') ->
  status (ledger w') = completed ->
  exists df w1,
    prepare tokenize (start log st) f = (Ok df, w1)
    /\ total_rows (ledger w') = len df
    /\ successful_rows (ledger w') + failed_rows (ledger w') = total_rows (ledger w')
    /\ r = Success (len df) (successful_rows (ledger w')) (failed_rows (ledger w'))
                   (p_processing_log (self w'))
    /\ batched_rows df = iterrows df
    /\ length (worlds_during_loop enforce_max_length w1 df) = len df
    /\ progresses w1 (worlds_during_loop enforce_max_length w1 df).
Proof.
  unfold process_csv_file. intros H Hs.
  pose proof (prepare_spec tokenize (start log st) f) as P. cbv zeta in P.
  destruct (prepare tokenize (start log st) f) as [[df|e] w1]; simpl in P.
  - exists df, w1. split; [reflexivity|].
    destruct P as (_ & P2 & P3 & _ & _ & P6).
    pose proof (process_batches_inv enforce_max_length w1 df) as B. cbv zeta in B.
    destruct B as (_ & _ & Bu & Bc).
    unfold finish in H. injection H as <- <-. simpl.
    rewrite Bu, P6. simpl.
    repeat split.
    + rewrite Bc, P2, P3. simpl. reflexivity.
    + apply batched_rows_all.
    + apply worlds_during_loop_length.
    + apply worlds_of_batches_progresses.
  - unfold run_failed in H. injection H as <- <-. simpl in Hs. discriminate.
Qed.

Lemma C1_witness :
  status (ledger (snd example_run)) = completed
  /\ successful_rows (ledger (snd example_run))
     + failed_rows (ledger (snd example_run))
     = total_rows (ledger (snd example_run)).
Proof.
  split; [reflexivity|].
  destruct (@C1_completed_run_counts_add_up
              SimpleCsv.tokenize true new_upload_log empty_store example_file
              (fst example_run) (snd example_run)
              (surjective_pairing example_run) eq_refl)
    as (df & w1 & _ & _ & H & _).
  exact H.
Defined.






(** ** Tables: lookups by key, updates by primary key *)

Section Table.

Variable A : Type.
Variable pk : A -> nat.

Lemma replace_pk_split (a a' : A) (l : list A) :
  NoDup (map pk l) -> In a l -> pk a' = pk a ->
  exists l1 l2, l = l1 ++ a :: l2 /\ replace_pk pk a' l = l1 ++ a' :: l2.
Proof.
  intros Hnd Hin Hpk. apply in_split in Hin as (l1 & l2 & ->).
  exists l1, l2. split; [reflexivity|].
  rewrite map_app in Hnd. simpl in Hnd.
  pose proof (NoDup_remove_2 _ _ _ Hnd) as Hn.
  assert (G : forall l0, ~ In (pk a) (map pk l0) -> replace_pk pk a' l0 = l0).
  { induction l0 as [|x l0 IH]; simpl; intros H0; [reflexivity|].
    destruct (pk x =? pk a') eqn:E.
    - apply Nat.eqb_eq in E. exfalso. apply H0. left. congruence.
    - f_equal. apply IH. tauto. }
  unfold replace_pk in *. rewrite map_app. simpl.
  rewrite Hpk, Nat.eqb_refl. rewrite <- Hpk.
  rewrite !G; [reflexivity | | ]; intros H0; apply Hn; apply in_or_app; auto.
Qed.

Lemma replace_pk_same (a : A) (l : list A) :
  NoDup (map pk l) -> In a l -> replace_pk pk a l = l.
Proof.
  intros Hnd Hin.
  destruct (@replace_pk_split a a l Hnd Hin eq_refl) as (l1 & l2 & E & ->).
  now symmetry.
Qed.

Lemma replace_pk_pks (a' : A) (l : list A) :
  map pk (replace_pk pk a' l) = map pk l.
Proof.
  unfold replace_pk. rewrite map_map. apply map_ext_in. intros x _.
  destruct (pk x =? pk a') eqn:E; [apply Nat.eqb_eq in E; congruence | reflexivity].
Qed.

Lemma replace_pk_filter_other (P : A -> bool) (a a' : A) (l : list A) :
  NoDup (map pk l) -> In a l -> pk a' = pk a -> P a = false -> P a' = false ->
  filter P (replace_pk pk a' l) = filter P l.
Proof.
  intros Hnd Hin Hpk Ha Ha'.
  destruct (@replace_pk_split a a' l Hnd Hin Hpk) as (l1 & l2 & -> & ->).
  rewrite !filter_app. simpl. now rewrite Ha, Ha'.
Qed.

Lemma replace_pk_filter_same (P : A -> bool) (a a' : A) (l : list A) :
  NoDup (map pk l) -> filter P l = [a] -> pk a' = pk a -> P a' = true ->
  filter P (replace_pk pk a' l) = [a'].
Proof.
  intros Hnd Hf Hpk Ha'.
  assert (Hin : In a (filter P l)) by (rewrite Hf; now left).
  apply filter_In in Hin as [Hin Ha].
  destruct (@replace_pk_split a a' l Hnd Hin Hpk) as (l1 & l2 & -> & ->).
  rewrite filter_app in *. simpl in *. rewrite Ha in Hf. rewrite Ha'.
  destruct (filter P l1) as [|x f1]; simpl in *.
  - injection Hf as ->. reflexivity.
  - injection Hf as _ Hf. destruct f1; discriminate.
Qed.

Lemma replace_pk_keys (K : Type) (key : A -> K) (a a' : A) (l : list A) :
  NoDup (map pk l) -> In a l -> pk a' = pk a -> key a' = key a ->
  map key (replace_pk pk a' l) = map key l.
Proof.
  intros Hnd Hin Hpk Hk.
  destruct (@replace_pk_split a a' l Hnd Hin Hpk) as (l1 & l2 & -> & ->).
  rewrite !map_app. simpl. now rewrite Hk.
Qed.

Lemma replace_pk_Forall (Q : A -> Prop) (a' : A) (l : list A) :
  Forall Q l -> Q a' -> Forall Q (replace_pk pk a' l).
Proof.
  intros Hl Ha. unfold replace_pk. apply Forall_map.
  eapply Forall_impl; [|exact Hl]. intros x Hx. simpl.
  destruct (pk x =? pk a'); assumption.
Qed.

(** A lookup by a unique key finds nothing or one record. *)
Lemma unique_key_lookup (K : Type) (key : A -> K) (test : A -> bool) (k : K)
      (l : list A) :
  (forall a, test a = true <-> key a = k) ->
  NoDup (map key l) ->
  filter test l = [] \/ exists a, filter test l = [a].
Proof.
  intros Ht. induction l as [|x l IH]; simpl; intros Hnd; [now left|].
  inversion Hnd as [|? ? Hx Hnd']; subst.
  destruct (test x) eqn:E.
  - right. exists x. f_equal.
    apply Ht in E.
    assert (G : forall y, In y l -> test y = false).
    { intros y Hy. destruct (test y) eqn:Ey; [|reflexivity].
      apply Ht in Ey. exfalso. apply Hx. rewrite E, <- Ey. now apply in_map. }
    clear -G. induction l as [|y l IH]; simpl; [reflexivity|].
    rewrite (G y) by now left. apply IH. intros z Hz. apply G. now right.
  - apply (IH Hnd').
Qed.

Lemma filter_nil_key (K : Type) (key : A -> K) (test : A -> bool) (k : K)
      (l : list A) :
  (forall a, test a = true <-> key a = k) ->
  filter test l = [] -> ~ In k (map key l).
Proof.
  intros Ht Hf Hin. apply in_map_iff in Hin as (a & Ha & Hin).
  assert (H : In a (filter test l)) by (apply filter_In; split; [assumption | now apply Ht]).
  rewrite Hf in H. destruct H.
Qed.

Lemma filter_app_one (P : A -> bool) (l : list A) (x : A) :
  filter P (l ++ [x]) = if P x then filter P l ++ [x] else filter P l.
Proof.
  rewrite filter_app. simpl. destruct (P x); [reflexivity | apply app_nil_r].
Qed.

Lemma NoDup_app_one (B : Type) (l : list B) (x : B) :
  NoDup l -> ~ In x l -> NoDup (l ++ [x]).
Proof.
  intros Hl Hx. apply NoDup_rev in Hl.
  rewrite <- (rev_involutive (l ++ [x])). apply NoDup_rev.
  rewrite rev_app_distr. simpl. constructor; [|assumption].
  now rewrite <- in_rev.
Qed.

End Table.

(** ** Reasoning on transactions *)

Lemma bind_ok (A B : Type) (c : Tx A) (k : A -> Tx B) (st st' : Store) (b : B) :
  bind c k st = Ok (b, st') ->
  exists a st1, c st = Ok (a, st1) /\ k a st1 = Ok (b, st').
Proof.
  unfold bind. destruct (c st) as [[a st1]|e]; [|discriminate].
  intros H. exists a, st1. auto.
Qed.

Lemma bind_step (A B : Type) (c : Tx A) (k : A -> Tx B) (st st1 : Store) (a : A) :
  c st = Ok (a, st1) -> bind c k st = k a st1.
Proof. unfold bind. now intros ->. Qed.

Section Preserves.

Variable I : Store -> Prop.
Variable R : Store -> Store -> Prop.
Hypothesis R_refl : forall st, R st st.
Hypothesis R_trans : forall a b c, R a b -> R b c -> R a c.

Lemma preserves_ret (A : Type) (a : A) : preserves I R (ret a).
Proof. intros st Hi a' st' H. injection H as <- <-. auto. Qed.

Lemma preserves_raise (A : Type) (e : exn) : preserves I R (@raise A e).
Proof. intros st Hi a' st' H. discriminate. Qed.

Lemma preserves_lift (A : Type) (r : result A) : preserves I R (lift r).
Proof.
  intros st Hi a' st' H. unfold lift in H. destruct r; [|discriminate].
  injection H as <- <-. auto.
Qed.

Lemma preserves_bind (A B : Type) (c : Tx A) (k : A -> Tx B) :
  preserves I R c -> (forall a, preserves I R (k a)) -> preserves I R (bind c k).
Proof.
  intros Hc Hk st Hi b st' H.
  apply bind_ok in H as (a & st1 & H1 & H2).
  destruct (Hc st Hi a st1 H1) as [Hi1 Hr1].
  destruct (Hk a st1 Hi1 b st' H2) as [Hi2 Hr2]. eauto.
Qed.

End Preserves.

(** ** Blank predictions are a no-op for their model *)

Section Frame.

Variable enforce_max_length : bool.
Variable model : pystr.

Lemma same_model_records_refl (st : Store) : (same_model_records model) st st.
Proof. reflexivity. Qed.

Lemma same_model_records_trans (a b c : Store) :
  (same_model_records model) a b -> (same_model_records model) b c -> (same_model_records model) a c.
Proof. unfold same_model_records. congruence. Qed.

(** A call that leaves the prediction table alone and only draws keys. *)
Lemma untouched_predictions (A : Type) (c : Tx A) :
  (forall st a st', c st = Ok (a, st') ->
                    predictions st' = predictions st /\ next_id st <= next_id st') ->
  preserves prediction_pks_ok (same_model_records model) c.
Proof.
  intros H st [Hnd Hf] a st' E. destruct (H st a st' E) as [Hp Hn].
  unfold prediction_pks_ok, same_model_records, predictions_of_model.
  rewrite Hp. repeat split; try assumption.
  eapply Forall_impl; [|exact Hf]. simpl. intros p Hp'. lia.
Qed.

Lemma Review_get_or_create_frame (review_id review_text : cell) :
  preserves prediction_pks_ok (same_model_records model)
            (Review_get_or_create enforce_max_length review_id review_text).
Proof.
  apply untouched_predictions. intros st a st'.
  unfold Review_get_or_create, Review_create, bind, ret.
  destruct (filter _ (reviews st)) as [|r [|r' l]].
  - destruct review_id as [rid|]; [|discriminate].
    destruct review_text as [text|]; [|discriminate].
    destruct (too_long _ _ _); [discriminate|].
    intros H. injection H as <- <-. simpl. auto.
  - intros H. injection H as <- <-. auto.
  - discriminate.
Qed.

Lemma Review_save_frame (review : Review) (text : cell) :
  preserves prediction_pks_ok (same_model_records model) (Review_save review text).
Proof.
  apply untouched_predictions. intros st a st'. unfold Review_save.
  destruct text; [|discriminate]. intros H. injection H as <- <-. simpl. auto.
Qed.

Lemma Sentence_get_or_create_frame (review : nat) (sid text g ge p : cell) :
  preserves prediction_pks_ok (same_model_records model)
            (Sentence_get_or_create enforce_max_length review sid text g ge p).
Proof.
  apply untouched_predictions. intros st a st'.
  unfold Sentence_get_or_create, Sentence_create, bind, ret.
  destruct (filter _ (sentences st)) as [|s [|s' l]].
  - destruct sid as [sid|]; [|discriminate].
    destruct text as [text|]; [|discriminate].
    destruct (too_long _ _ _); [discriminate|].
    intros H. injection H as <- <-. simpl. auto.
  - intros H. injection H as <- <-. auto.
  - discriminate.
Qed.

Lemma Sentence_save_frame (s : ReviewSentence) (text g ge p : cell) :
  preserves prediction_pks_ok (same_model_records model) (Sentence_save s text g ge p).
Proof.
  apply untouched_predictions. intros st a st'. unfold Sentence_save.
  destruct text; [|discriminate]. intros H. injection H as <- <-. simpl. auto.
Qed.

(** An upsert for another model does not touch the records of [model]. *)
Lemma Prediction_update_or_create_frame (sentence : nat) (model_name text : pystr) :
  model_name <> model ->
  preserves prediction_pks_ok (same_model_records model)
            (Prediction_update_or_create enforce_max_length sentence model_name text).
Proof.
  intros Hne st [Hnd Hf] a st'. unfold Prediction_update_or_create.
  destruct (filter _ (predictions st)) as [|p [|p' l]] eqn:F.
  - destruct (too_long _ _ _); [discriminate|].
    intros H. injection H as <- <-.
    unfold prediction_pks_ok, same_model_records, predictions_of_model. simpl.
    rewrite map_app, filter_app_one. simpl.
    apply eqb_neq in Hne. rewrite Hne. repeat split.
    + apply NoDup_app_one; [assumption|].
      intros Hin. apply in_map_iff in Hin as (q & Hq & Hin).
      rewrite Forall_forall in Hf. specialize (Hf q Hin). lia.
    + apply Forall_app. split.
      * eapply Forall_impl; [|exact Hf]. simpl. intros q Hq. lia.
      * constructor; [simpl; lia | constructor].
  - intros H. injection H as <- <-.
    assert (Hin : In p (filter (fun p0 => (m_sentence p0 =? sentence)
                                          && eqb (m_model_name p0) model_name)
                               (predictions st))) by (rewrite F; now left).
    apply filter_In in Hin as [Hin Hp]. apply andb_true_iff in Hp as [_ Hm].
    apply eqb_eq in Hm.
    set (p' := mkPrediction (m_id p) (m_sentence p) (m_model_name p) text None
                            (m_created_at p)).
    change (map (fun q => if m_id q =? m_id p then p' else q) (predictions st))
      with (replace_pk m_id p' (predictions st)).
    unfold prediction_pks_ok, same_model_records, predictions_of_model. simpl.
    rewrite replace_pk_pks. repeat split; [assumption | |].
    + apply replace_pk_Forall; [assumption|].
      rewrite Forall_forall in Hf. apply (Hf p Hin).
    + apply (@replace_pk_filter_other _ m_id _ p p'); try assumption; try reflexivity.
      * apply eqb_neq. congruence.
      * simpl. apply eqb_neq. congruence.
  - discriminate.
Qed.

Lemma non_blank_blank (c : cell) : blank c -> non_blank c = false.
Proof.
  unfold blank, non_blank. destruct c as [s|]; [|reflexivity].
  intros ->. apply andb_false_r.
Qed.

Lemma upsert_prediction_frame (sentence : nat) (model_name : pystr) (c : cell) :
  model_name <> model \/ blank c ->
  preserves prediction_pks_ok (same_model_records model)
            (upsert_prediction enforce_max_length sentence model_name c).
Proof.
  intros H. unfold upsert_prediction. destruct c as [s|].
  - destruct (truthy s && truthy (strip s)) eqn:E.
    + destruct H as [H|H].
      * now apply Prediction_update_or_create_frame.
      * apply non_blank_blank in H. simpl in H. congruence.
    + apply preserves_ret. apply same_model_records_refl.
  - apply preserves_ret. apply same_model_records_refl.
Qed.

Lemma upsert_predictions_frame (sentence : nat) (data : list (pystr * cell)) :
  Forall (fun mc => fst mc <> model \/ blank (snd mc)) data ->
  preserves prediction_pks_ok (same_model_records model)
            (upsert_predictions enforce_max_length sentence data).
Proof.
  induction 1 as [|[m c] data Hmc _ IH]; simpl.
  - apply preserves_ret. apply same_model_records_refl.
  - apply preserves_bind.
    + apply same_model_records_trans.
    + now apply upsert_prediction_frame.
    + intros _. exact IH.
Qed.

Lemma _process_single_row_frame (row : Series) :
  Forall (fun mc => fst mc <> model \/ blank (snd mc)) (model_data row) ->
  preserves prediction_pks_ok (same_model_records model)
            (_process_single_row enforce_max_length row).
Proof.
  intros Hd. unfold _process_single_row.
  pose proof same_model_records_refl as Rr.
  pose proof same_model_records_trans as Rt.
  apply preserves_bind; [exact Rt | now apply preserves_lift | intros review_id].
  apply preserves_bind; [exact Rt | apply Review_get_or_create_frame
                         | intros [review created]].
  apply preserves_bind; [exact Rt | | intros _].
  { destruct (negb created && cell_truthy _); [|now apply preserves_ret].
    apply preserves_bind; [exact Rt | now apply preserves_lift | intros text].
    destruct (negb (cell_eqb _ text)); [|now apply preserves_ret].
    apply preserves_bind; [exact Rt | apply Review_save_frame | intros _].
    now apply preserves_ret. }
  apply preserves_bind; [exact Rt | now apply preserves_lift | intros sentence_id].
  apply preserves_bind; [exact Rt | now apply preserves_lift | intros review_sentence].
  apply preserves_bind; [exact Rt | apply Sentence_get_or_create_frame
                         | intros [sentence created']].
  apply preserves_bind; [exact Rt | | intros _].
  { destruct (negb created'); [|now apply preserves_ret].
    match goal with |- preserves _ _ (if ?b then _ else _) => destruct b end;
      [apply Sentence_save_frame | now apply preserves_ret]. }
  unfold _create_model_predictions. now apply upsert_predictions_frame.
Qed.

End Frame.

Lemma model_data_frame (row : Series) (model column : pystr) :
  In (model, column) model_columns ->
  blank (get row column None) ->
  Forall (fun mc => fst mc <> model \/ blank (snd mc)) (model_data row).
Proof.
  intros Hin Hb. unfold model_columns in Hin. simpl in Hin.
  destruct Hin as [E|[E|[E|[]]]]; injection E as <- <-;
    unfold model_data;
    (constructor; [|constructor; [|constructor; [|constructor]]]); simpl;
    try (right; exact Hb);
    left; intros E; vm_compute in E; discriminate.
Qed.

(** C3. When the prediction text of a row for a model is null, empty or
    only whitespace, processing the row leaves the records of that model
    as they were: none is created, none is modified, whether the row
    succeeds or fails. *)
Theorem C3_blank_prediction_leaves_model_records_untouched
        (enforce_max_length : bool) (w : World) (index : nat) (row : Series)
        (model column : pystr) :
  In (model, column) model_columns ->
  blank (get row column None) ->
  prediction_pks_ok (store w) ->
  let w' := process_row enforce_max_length w (index, row) in
  predictions_of_model model (store w') = predictions_of_model model (store w)
  /\ (forall p, m_model_name p = model ->
                (In p (predictions (store w')) <-> In p (predictions (store w))))
  /\ prediction_pks_ok (store w').
Proof.
  intros Hin Hb Hok. cbv zeta.
  assert (G : predictions_of_model model
                (store (process_row enforce_max_length w (index, row)))
              = predictions_of_model model (store w)
              /\ prediction_pks_ok (store (process_row enforce_max_length w (index, row)))).
  { unfold process_row.
    destruct (_process_single_row enforce_max_length row (store w))
      as [[u st']|e] eqn:E; simpl; [|auto].
    destruct (@_process_single_row_frame enforce_max_length model row
                (model_data_frame row Hin Hb) (store w) Hok u st' E) as [H1 H2].
    auto. }
  destruct G as [G1 G2]. split; [exact G1|]. split; [|exact G2].
  intros p Hp. unfold predictions_of_model in G1.
  assert (Hm : eqb (m_model_name p) model = true) by now apply eqb_eq.
  split; intros H.
  - assert (H' : In p (filter (fun q => eqb (m_model_name q) model)
                              (predictions (store (process_row enforce_max_length w
                                                                (index, row))))))
      by (apply filter_In; auto).
    rewrite G1 in H'. now apply filter_In in H'.
  - assert (H' : In p (filter (fun q => eqb (m_model_name q) model)
                              (predictions (store w))))
      by (apply filter_In; auto).
    rewrite <- G1 in H'. now apply filter_In in H'.
Qed.

Lemma C3_witness :
  predictions_of_model (py "perplexity")
    (store (process_row true world_with_three_predictions (1, example_row)))
  = [mkPrediction 4 1 (py "perplexity") (py "Negative") None 4].
Proof.
  assert (Hok : prediction_pks_ok (store world_with_three_predictions)).
  { split.
    - repeat constructor; simpl; intuition discriminate.
    - repeat constructor; simpl; lia. }
  destruct (@C3_blank_prediction_leaves_model_records_untouched
              true world_with_three_predictions 1 example_row
              (py "perplexity") (py "perplexity")) as (H & _).
  - unfold model_columns. simpl. tauto.
  - exact I.
  - exact Hok.
  - rewrite H. reflexivity.
Defined.

(** ** A row through its fields *)

Lemma getitem_get (row : Series) (name : pystr) (c d : cell) :
  getitem row name = Ok c -> get row name d = c.
Proof.
  unfold getitem, get. destruct (has_column name (s_index row)); [|discriminate].
  now intros H; injection H.
Qed.

Lemma _process_single_row_fields (enforce_max_length : bool) (row : Series)
      (x : RowFields) (st : Store) :
  has_fields row x ->
  _process_single_row enforce_max_length row st = row_program enforce_max_length x st.
Proof.
  intros (Hrid & Htext & Hsid & Hsent & Hg & Hge & Hp).
  unfold _process_single_row, row_program, review_step, sentence_step,
    _create_model_predictions, model_data, fields_model_data.
  rewrite Hrid, Hsid, Hsent, Htext, Hg, Hge, Hp.
  rewrite (@getitem_get row (py "review_text") _ (Some []) Htext),
    (@getitem_get row (py "review_text") _ None Htext).
  cbn [cell_truthy cell_eqb]. unfold bind, lift, ret.
  destruct (Review_get_or_create enforce_max_length (Some (f_review_id x))
              (Some (f_review_text x)) st) as [[[review created] st1]|e];
    [|reflexivity].
  destruct (negb created && truthy (f_review_text x));
    [destruct (negb (eqb (r_review_text review) (f_review_text x)));
     [destruct (Review_save review (Some (f_review_text x)) st1) as [[r' st2]|e];
      [|reflexivity]|]|];
    (match goal with
     | |- context [Sentence_get_or_create ?a ?b ?c ?d ?e ?f ?g ?s] =>
         destruct (Sentence_get_or_create a b c d e f g s)
           as [[[sentence created'] st3]|e']; [|reflexivity]
     end;
     destruct (negb created'); [|reflexivity];
     match goal with
     | |- context [if ?b then Sentence_save _ _ _ _ _ else _] =>
         destruct b; [|reflexivity]
     end;
     destruct (Sentence_save sentence (Some (f_review_sentence x)) (f_gpt4 x)
                             (f_gemini x) (f_perplexity x) st3) as [[u st4]|e''];
     reflexivity).
Qed.

(** ** The three steps of a row on a well-formed store *)

Unset Implicit Arguments.

Lemma review_test_spec (rid : pystr) (r : Review) :
  review_test rid r = true <-> r_review_id r = rid.
Proof. unfold review_test, matches. apply eqb_eq. Qed.

Lemma sentence_test_spec (rpk : nat) (sid : pystr) (s : ReviewSentence) :
  sentence_test rpk sid s = true <-> sentence_key s = (rpk, sid).
Proof.
  unfold sentence_test, sentence_key, matches.
  rewrite andb_true_iff, Nat.eqb_eq, eqb_eq. split.
  - intros [-> ->]. reflexivity.
  - intros H. injection H as -> ->. auto.
Qed.

Lemma prediction_test_spec (spk : nat) (model : pystr) (p : ModelPrediction) :
  prediction_test spk model p = true <-> prediction_key p = (spk, model).
Proof.
  unfold prediction_test, prediction_key.
  rewrite andb_true_iff, Nat.eqb_eq, eqb_eq. split.
  - intros [-> ->]. reflexivity.
  - intros H. injection H as -> ->. auto.
Qed.

Lemma test_false (A K : Type) (key : A -> K) (test : A -> bool) (k : K) (a : A) :
  (test a = true <-> key a = k) -> key a <> k -> test a = false.
Proof. intros H Hn. destruct (test a); [exfalso; apply Hn; now apply H | reflexivity]. Qed.

Lemma filter_singleton_In (A : Type) (P : A -> bool) (l : list A) (a : A) :
  filter P l = [a] -> In a l /\ P a = true.
Proof. intros H. apply filter_In. rewrite H. now left. Qed.

Lemma too_long_false (enforce_max_length : bool) (n : nat) (s : pystr) :
  length s <= n -> too_long enforce_max_length n s = false.
Proof.
  intros H. unfold too_long. apply andb_false_iff. right. apply Nat.ltb_ge. exact H.
Qed.

Section Steps.

Variable enforce_max_length : bool.

Lemma review_step_spec (x : RowFields) (st : Store) :
  wf_store st -> valid_fields x ->
  exists review st1,
    review_step enforce_max_length x st = Ok (review, st1)
    /\ wf_store st1
    /\ sentences st1 = sentences st /\ predictions st1 = predictions st
    /\ r_id review < next_id st1
    /\ (exists r1, filter (review_test (f_review_id x)) (reviews st1) = [r1]
                   /\ r_id r1 = r_id review
                   /\ r_review_text r1 = f_review_text x)
    /\ (forall rid', rid' <> f_review_id x ->
          filter (review_test rid') (reviews st1) = filter (review_test rid') (reviews st))
    /\ ((filter (review_test (f_review_id x)) (reviews st) = []
         /\ r_id review = next_id st /\ next_id st1 = S (next_id st)
         /\ length (reviews st1) = S (length (reviews st)))
        \/ (exists r0, filter (review_test (f_review_id x)) (reviews st) = [r0]
                       /\ r_id r0 = r_id review /\ next_id st1 = next_id st
                       /\ length (reviews st1) = length (reviews st)
                       /\ (r_review_text r0 = f_review_text x -> st1 = st))).
Proof.
  intros Hwf (Hlen & _ & Htext).
  destruct Hwf as [W1 W2 W3 W4 W5 W6 W7 W8 W9].
  unfold review_step, bind, Review_get_or_create.
  change (fun r => matches (r_review_id r) (Some (f_review_id x)))
    with (review_test (f_review_id x)).
  destruct (@unique_key_lookup _ _ r_review_id (review_test (f_review_id x))
              (f_review_id x) (reviews st)
              (review_test_spec (f_review_id x)) W7) as [F|[r0 F]]; rewrite F.
  - (* a new review *)
    unfold bind, Review_create, ret. rewrite (too_long_false _ _ _ Hlen). simpl.
    set (r := mkReview (next_id st) (f_review_id x) (f_review_text x)
                       (clock st) (clock st)).
    exists r. eexists. split; [reflexivity|].
    assert (Hfresh : ~ In (next_id st) (map r_id (reviews st))).
    { intros Hin. apply in_map_iff in Hin as (q & Hq & Hin).
      rewrite Forall_forall in W4. specialize (W4 q Hin). lia. }
    split; [constructor; simpl|].
    + rewrite map_app. now apply NoDup_app_one.
    + assumption.
    + assumption.
    + apply Forall_app. split.
      * eapply Forall_impl; [|exact W4]. simpl. intros; lia.
      * constructor; [simpl; lia | constructor].
    + eapply Forall_impl; [|exact W5]. simpl. intros; lia.
    + eapply Forall_impl; [|exact W6]. simpl. intros; lia.
    + rewrite map_app. apply NoDup_app_one; [assumption|].
      eapply filter_nil_key; [apply review_test_spec | exact F].
    + assumption.
    + assumption.
    + simpl. repeat split; try lia.
      * exists r. rewrite filter_app_one, F.
        replace (review_test (f_review_id x) r) with true
          by (symmetry; now apply review_test_spec).
        auto.
      * intros rid' Hne. rewrite filter_app_one.
        rewrite (@test_false _ _ r_review_id (review_test rid') rid' r
                   (review_test_spec rid' r)); [reflexivity|].
        simpl. congruence.
      * left. rewrite length_app. simpl. repeat split; lia.
  - (* an existing review *)
    destruct (filter_singleton_In _ _ _ _ F) as [Hin Ht].
    apply review_test_spec in Ht.
    assert (Htr : truthy (f_review_text x) = true)
      by (destruct (f_review_text x); [congruence | reflexivity]).
    rewrite Htr. simpl negb. simpl andb.
    assert (Hlt : r_id r0 < next_id st)
      by (rewrite Forall_forall in W4; now apply W4).
    destruct (eqb (r_review_text r0) (f_review_text x)) eqn:E; simpl.
    + (* same text: nothing is written *)
      apply eqb_eq in E. unfold ret. exists r0, st. split; [reflexivity|].
      split; [now constructor|].
      repeat split; try assumption; try reflexivity.
      * exists r0. auto.
      * right. exists r0. auto.
    + (* the text is updated *)
      unfold bind, Review_save, ret.
      set (r' := mkReview (r_id r0) (r_review_id r0) (f_review_text x)
                          (r_created_at r0) (clock st)).
      change (map (fun r => if r_id r =? r_id r0 then r' else r) (reviews st))
        with (replace_pk r_id r' (reviews st)).
      exists r0. eexists. split; [reflexivity|].
      split; [constructor; simpl|].
      * now rewrite replace_pk_pks.
      * assumption.
      * assumption.
      * apply replace_pk_Forall; assumption.
      * assumption.
      * assumption.
      * rewrite (@replace_pk_keys _ r_id _ r_review_id r0 r'); auto.
      * assumption.
      * assumption.
      * simpl. repeat split; try assumption.
        -- exists r'. split; [|auto].
           apply (@replace_pk_filter_same _ r_id _ r0 r'); auto.
           apply review_test_spec. exact Ht.
        -- intros rid' Hne.
           apply (@replace_pk_filter_other _ r_id _ r0 r'); auto;
             apply (@test_false _ _ r_review_id (review_test rid') rid');
             try apply review_test_spec; simpl; congruence.
        -- right. exists r0. repeat split; auto.
           ++ unfold replace_pk. now rewrite length_map.
           ++ intros Heq. apply eqb_neq in E. contradiction.
Qed.

Lemma cell_eqb_eq (a b : cell) : cell_eqb a b = true <-> a = b.
Proof.
  destruct a as [a|], b as [b|]; simpl; try (split; congruence).
  rewrite eqb_eq. split; congruence.
Qed.

Lemma sentence_updated_false (s : ReviewSentence) (x : RowFields) :
  negb (eqb (s_review_sentence s) (f_review_sentence x))
  || negb (cell_eqb (s_gpt4_prediction s) (f_gpt4 x))
  || negb (cell_eqb (s_gemini_prediction s) (f_gemini x))
  || negb (cell_eqb (s_perplexity_prediction s) (f_perplexity x)) = false
  <-> sentence_has_fields s x.
Proof.
  unfold sentence_has_fields.
  rewrite !orb_false_iff, !negb_false_iff, eqb_eq, !cell_eqb_eq. tauto.
Qed.

Lemma sentence_step_spec (x : RowFields) (rpk : nat) (st : Store) :
  wf_store st -> valid_fields x -> rpk < next_id st ->
  exists sentence st1,
    sentence_step enforce_max_length x rpk st = Ok (sentence, st1)
    /\ wf_store st1
    /\ reviews st1 = reviews st /\ predictions st1 = predictions st
    /\ s_id sentence < next_id st1
    /\ (exists s1, filter (sentence_test rpk (f_sentence_id x)) (sentences st1) = [s1]
                   /\ s_id s1 = s_id sentence
                   /\ sentence_has_fields s1 x)
    /\ (forall rpk' sid', (rpk', sid') <> (rpk, f_sentence_id x) ->
          filter (sentence_test rpk' sid') (sentences st1)
          = filter (sentence_test rpk' sid') (sentences st))
    /\ ((filter (sentence_test rpk (f_sentence_id x)) (sentences st) = []
         /\ s_id sentence = next_id st /\ next_id st1 = S (next_id st)
         /\ sentences st1 = sentences st ++ [sentence]
         /\ sentence_key sentence = (rpk, f_sentence_id x)
         /\ sentence_has_fields sentence x)
        \/ (exists s0, filter (sentence_test rpk (f_sentence_id x)) (sentences st) = [s0]
                       /\ s_id s0 = s_id sentence /\ next_id st1 = next_id st
                       /\ length (sentences st1) = length (sentences st)
                       /\ (sentence_has_fields s0 x -> st1 = st))).
Proof.
  intros Hwf (_ & Hlen & _) Hrpk.
  destruct Hwf as [W1 W2 W3 W4 W5 W6 W7 W8 W9].
  unfold sentence_step, bind, Sentence_get_or_create.
  change (fun s => (s_review s =? rpk) && matches (s_sentence_id s) (Some (f_sentence_id x)))
    with (sentence_test rpk (f_sentence_id x)).
  destruct (@unique_key_lookup _ _ sentence_key (sentence_test rpk (f_sentence_id x))
              (rpk, f_sentence_id x) (sentences st)
              (sentence_test_spec rpk (f_sentence_id x)) W8) as [F|[s0 F]]; rewrite F.
  - (* a new sentence *)
    unfold bind, Sentence_create, ret. rewrite (too_long_false _ _ _ Hlen). simpl.
    set (s := mkSentence (next_id st) rpk (f_sentence_id x) (f_review_sentence x)
                         (f_gpt4 x) (f_gemini x) (f_perplexity x)
                         (clock st) (clock st)).
    exists s. eexists. split; [reflexivity|].
    assert (Hfresh : ~ In (next_id st) (map s_id (sentences st))).
    { intros Hin. apply in_map_iff in Hin as (q & Hq & Hin).
      rewrite Forall_forall in W5. specialize (W5 q Hin). lia. }
    split; [constructor; cbn [reviews sentences predictions next_id clock]|].
    + assumption.
    + rewrite map_app. now apply NoDup_app_one.
    + assumption.
    + eapply Forall_impl; [|exact W4]. simpl. intros; lia.
    + apply Forall_app. split.
      * eapply Forall_impl; [|exact W5]. simpl. intros; lia.
      * constructor; [simpl; lia | constructor].
    + eapply Forall_impl; [|exact W6]. simpl. intros; lia.
    + assumption.
    + rewrite map_app. apply NoDup_app_one; [assumption|].
      eapply filter_nil_key; [apply sentence_test_spec | exact F].
    + assumption.
    + simpl. repeat split; try lia.
      * exists s. rewrite filter_app_one, F.
        replace (sentence_test rpk (f_sentence_id x) s) with true
          by (symmetry; now apply sentence_test_spec).
        unfold sentence_has_fields. simpl. repeat split.
      * intros rpk' sid' Hne. rewrite filter_app_one.
        rewrite (test_false _ _ sentence_key (sentence_test rpk' sid') (rpk', sid') s
                   (sentence_test_spec rpk' sid' s)); [reflexivity|].
        unfold sentence_key. simpl. congruence.
      * left. unfold sentence_has_fields. simpl. repeat split; auto.
  - (* an existing sentence *)
    destruct (filter_singleton_In _ _ _ _ F) as [Hin Ht].
    apply sentence_test_spec in Ht.
    assert (Hlt : s_id s0 < next_id st /\ s_review s0 < next_id st)
      by (rewrite Forall_forall in W5; now apply W5).
    simpl negb.
    destruct (negb (eqb (s_review_sentence s0) (f_review_sentence x))
              || negb (cell_eqb (s_gpt4_prediction s0) (f_gpt4 x))
              || negb (cell_eqb (s_gemini_prediction s0) (f_gemini x))
              || negb (cell_eqb (s_perplexity_prediction s0) (f_perplexity x)))
      eqn:E.
    + (* some field differs: one write *)
      unfold bind, Sentence_save, ret. cbv beta iota delta [negb].
      set (s' := mkSentence (s_id s0) (s_review s0) (s_sentence_id s0)
                            (f_review_sentence x) (f_gpt4 x) (f_gemini x)
                            (f_perplexity x) (s_created_at s0) (clock st)).
      change (map (fun s => if s_id s =? s_id s0 then s' else s) (sentences st))
        with (replace_pk s_id s' (sentences st)).
      exists s0. eexists. split; [reflexivity|].
      split; [constructor; cbn [reviews sentences predictions next_id clock]|].
      * assumption.
      * now rewrite replace_pk_pks.
      * assumption.
      * assumption.
      * apply replace_pk_Forall; assumption.
      * assumption.
      * assumption.
      * rewrite (@replace_pk_keys _ s_id _ sentence_key s0 s'); auto.
      * assumption.
      * simpl. repeat split; try tauto.
        -- exists s'. split; [|unfold sentence_has_fields; simpl; repeat split].
           apply (@replace_pk_filter_same _ s_id _ s0 s'); auto.
           apply sentence_test_spec. exact Ht.
        -- intros rpk' sid' Hne.
           apply (@replace_pk_filter_other _ s_id _ s0 s'); auto;
             apply (test_false _ _ sentence_key (sentence_test rpk' sid') (rpk', sid'));
             try apply sentence_test_spec; unfold sentence_key in *; simpl; congruence.
        -- right. exists s0. repeat split; auto.
           ++ unfold replace_pk. now rewrite length_map.
           ++ intros Heq. apply sentence_updated_false in Heq. congruence.
    + (* nothing differs: nothing is written *)
      apply sentence_updated_false in E. unfold ret. cbv beta iota delta [negb].
      exists s0, st. split; [reflexivity|].
      split; [now constructor|].
      repeat split; try tauto.
      * exists s0. auto.
      * right. exists s0. auto.
Qed.


Lemma upsert_prediction_spec (spk : nat) (model : pystr) (c : cell) (st : Store) :
  wf_store st -> spk < next_id st -> length model <= 20 ->
  exists st1,
    upsert_prediction enforce_max_length spk model c st = Ok (tt, st1)
    /\ wf_store st1
    /\ reviews st1 = reviews st /\ sentences st1 = sentences st
    /\ next_id st <= next_id st1
    /\ (forall spk' model', (spk', model') <> (spk, model) ->
          filter (prediction_test spk' model') (predictions st1)
          = filter (prediction_test spk' model') (predictions st))
    /\ (non_blank c = false -> st1 = st)
    /\ (forall text, c = Some text -> non_blank c = true ->
          stored_as st1 spk model text
          /\ ((filter (prediction_test spk model) (predictions st) = []
               /\ predictions st1
                  = predictions st ++ [mkPrediction (next_id st) spk model text None
                                                    (clock st)]
               /\ next_id st1 = S (next_id st) /\ clock st1 = S (clock st))
              \/ (exists p0, filter (prediction_test spk model) (predictions st) = [p0]
                             /\ next_id st1 = next_id st
                             /\ length (predictions st1) = length (predictions st)
                             /\ (m_prediction_text p0 = text ->
                                 m_confidence_score p0 = None ->
                                 predictions st1 = predictions st)))).
Proof.
  intros Hwf Hspk Hlen. unfold upsert_prediction.
  assert (Hsame : exists st1, @ret unit tt st = Ok (tt, st1) /\ wf_store st1
            /\ reviews st1 = reviews st /\ sentences st1 = sentences st
            /\ next_id st <= next_id st1
            /\ (forall spk' model', (spk', model') <> (spk, model) ->
                  filter (prediction_test spk' model') (predictions st1)
                  = filter (prediction_test spk' model') (predictions st))
            /\ st1 = st).
  { exists st. unfold ret. split; [reflexivity|]. split; [assumption|].
    repeat split; auto. }
  destruct c as [s|]; simpl non_blank.
  2:{ destruct Hsame as (st1 & H1 & H2 & H3 & H4 & H5 & H6 & H7).
      exists st1. do 7 (split; [assumption || (intros; assumption)|]).
      intros; discriminate. }
  destruct (truthy s && truthy (strip s)) eqn:Enb.
  2:{ destruct Hsame as (st1 & H1 & H2 & H3 & H4 & H5 & H6 & H7).
      exists st1. do 7 (split; [assumption || (intros; assumption)|]).
      intros; discriminate. }
  clear Hsame.
  destruct Hwf as [W1 W2 W3 W4 W5 W6 W7 W8 W9].
  unfold Prediction_update_or_create.
  change (fun p => (m_sentence p =? spk) && eqb (m_model_name p) model)
    with (prediction_test spk model).
  destruct (@unique_key_lookup _ _ prediction_key (prediction_test spk model)
              (spk, model) (predictions st)
              (prediction_test_spec spk model) W9) as [F|[p0 F]]; rewrite F.
  - (* no record yet *)
    rewrite (too_long_false _ _ _ Hlen). cbv beta iota zeta.
    set (p := mkPrediction (next_id st) spk model s None (clock st)).
    eexists. split; [reflexivity|].
    assert (Hfresh : ~ In (next_id st) (map m_id (predictions st))).
    { intros Hin. apply in_map_iff in Hin as (q & Hq & Hin).
      rewrite Forall_forall in W6. specialize (W6 q Hin). lia. }
    split; [constructor; cbn [reviews sentences predictions next_id clock]|].
    + assumption.
    + assumption.
    + rewrite map_app. now apply NoDup_app_one.
    + eapply Forall_impl; [|exact W4]. simpl. intros; lia.
    + eapply Forall_impl; [|exact W5]. simpl. intros; lia.
    + apply Forall_app. split.
      * eapply Forall_impl; [|exact W6]. simpl. intros; lia.
      * constructor; [simpl; lia | constructor].
    + assumption.
    + assumption.
    + rewrite map_app. apply NoDup_app_one; [assumption|].
      eapply filter_nil_key; [apply prediction_test_spec | exact F].
    + cbn [reviews sentences predictions next_id clock].
      split; [reflexivity|]. split; [reflexivity|]. split; [lia|]. split; [|split].
      * intros spk' model' Hne. rewrite filter_app_one.
        rewrite (test_false _ _ prediction_key (prediction_test spk' model')
                   (spk', model') p (prediction_test_spec spk' model' p));
          [reflexivity|].
        unfold prediction_key. simpl. congruence.
      * intros; discriminate.
      * intros text Ht _. injection Ht as <-. split.
        -- unfold stored_as. cbn [predictions]. exists p. rewrite filter_app_one, F.
           replace (prediction_test spk model p) with true
             by (symmetry; now apply prediction_test_spec).
           auto.
        -- left. auto.
  - (* a record exists: it is overwritten *)
    destruct (filter_singleton_In _ _ _ _ F) as [Hin Ht].
    apply prediction_test_spec in Ht. cbv beta iota zeta.
    set (p' := mkPrediction (m_id p0) (m_sentence p0) (m_model_name p0) s None
                            (m_created_at p0)).
    change (map (fun q => if m_id q =? m_id p0 then p' else q) (predictions st))
      with (replace_pk m_id p' (predictions st)).
    eexists. split; [reflexivity|].
    assert (Hlt : m_id p0 < next_id st /\ m_sentence p0 < next_id st)
      by (rewrite Forall_forall in W6; now apply W6).
    split; [constructor; cbn [reviews sentences predictions next_id clock]|].
    + assumption.
    + assumption.
    + now rewrite replace_pk_pks.
    + assumption.
    + assumption.
    + apply replace_pk_Forall; assumption.
    + assumption.
    + assumption.
    + rewrite (@replace_pk_keys _ m_id _ prediction_key p0 p'); auto.
    + cbn [reviews sentences predictions next_id clock].
      split; [reflexivity|]. split; [reflexivity|]. split; [lia|]. split; [|split].
      * intros spk' model' Hne.
        apply (@replace_pk_filter_other _ m_id _ p0 p'); auto;
          apply (test_false _ _ prediction_key (prediction_test spk' model')
                            (spk', model'));
          try apply prediction_test_spec; unfold prediction_key in *; simpl; congruence.
      * intros; discriminate.
      * intros text Htx _. injection Htx as <-. split.
        -- unfold stored_as. cbn [predictions]. exists p'. split; [|auto].
           apply (@replace_pk_filter_same _ m_id _ p0 p'); auto.
           apply prediction_test_spec. exact Ht.
        -- right. exists p0. repeat split; auto.
           ++ unfold replace_pk. now rewrite length_map.
           ++ intros H1 H2.
              assert (E : p' = p0).
              { subst p'. destruct p0; simpl in *. congruence. }
              rewrite E. now apply replace_pk_same.
Qed.


Lemma stored_as_same_lookup (st st' : Store) (spk : nat) (model text : pystr) :
  filter (prediction_test spk model) (predictions st')
  = filter (prediction_test spk model) (predictions st) ->
  stored_as st spk model text -> stored_as st' spk model text.
Proof. unfold stored_as. intros ->. auto. Qed.

Lemma upsert_predictions_spec (spk : nat) (data : list (pystr * cell)) :
  NoDup (map fst data) ->
  Forall (fun mc => length (fst mc) <= 20) data ->
  forall st, wf_store st -> spk < next_id st ->
  exists st1,
    upsert_predictions enforce_max_length spk data st = Ok (tt, st1)
    /\ wf_store st1
    /\ reviews st1 = reviews st /\ sentences st1 = sentences st
    /\ next_id st <= next_id st1
    /\ (forall spk' model', spk' <> spk \/ ~ In model' (map fst data) ->
          filter (prediction_test spk' model') (predictions st1)
          = filter (prediction_test spk' model') (predictions st))
    /\ (forall model text, In (model, Some text) data ->
          non_blank (Some text) = true -> stored_as st1 spk model text)
    /\ ((forall model text, In (model, Some text) data ->
           non_blank (Some text) = true -> stored_as st spk model text) ->
        predictions st1 = predictions st /\ next_id st1 = next_id st)
    /\ ((forall model, In model (map fst data) ->
           filter (prediction_test spk model) (predictions st) = []) ->
        predictions st1
        = predictions st ++ new_predictions spk data (next_id st) (clock st)).
Proof.
  induction data as [|[m c] data IH]; intros Hnd Hlen st Hwf Hspk.
  - exists st. simpl. unfold ret. split; [reflexivity|]. split; [assumption|].
    repeat split; auto.
    + intros model text [].
    + intros _. now rewrite app_nil_r.
  - simpl in Hnd. inversion Hnd as [|? ? Hm Hnd']; subst.
    inversion Hlen as [|? ? Hl Hlen']; subst. simpl in Hl.
    destruct (upsert_prediction_spec spk m c st Hwf Hspk Hl)
      as (st' & E' & Hwf' & Hr' & Hs' & Hn' & Ho' & Hb' & Hnb').
    destruct (IH Hnd' Hlen' st' Hwf' ltac:(lia))
      as (st1 & E1 & Hwf1 & Hr1 & Hs1 & Hn1 & Ho1 & Hst1 & Hnoop1 & Hnew1).
    exists st1. cbn [upsert_predictions].
    split; [unfold bind; rewrite E'; exact E1|].
    split; [assumption|]. split; [congruence|]. split; [congruence|].
    split; [lia|]. split; [|split; [|split]].
    + (* other keys *)
      intros spk' model' Hk. rewrite Ho1, Ho'; [reflexivity | |].
      * intros Heq. injection Heq as -> ->. simpl in Hk. tauto.
      * simpl in Hk. tauto.
    + (* the records of this sentence carry the row's texts *)
      intros model text [Hin|Hin] Hnbk.
      * injection Hin as -> ->.
        apply (stored_as_same_lookup st'); [apply Ho1; now right|].
        now apply (Hnb' text).
      * now apply Hst1.
    + (* nothing to write when the records are there already *)
      intros Hall.
      assert (Hhead : predictions st' = predictions st /\ next_id st' = next_id st).
      { destruct (non_blank c) eqn:Enb.
        - destruct c as [text|]; [|discriminate].
          destruct (Hnb' text eq_refl eq_refl) as [_ [(F & _)|(p0 & F & Hn0 & _ & Hsame)]].
          + destruct (Hall m text (or_introl eq_refl) Enb) as (p & Fp & _).
            congruence.
          + destruct (Hall m text (or_introl eq_refl) Enb) as (p & Fp & Ht & Hc).
            assert (p = p0) by congruence. subst p. auto.
        - rewrite (Hb' eq_refl). auto. }
      destruct Hhead as [Hp' Hni'].
      destruct Hnoop1 as [Hp1 Hni1].
      * intros model text Hin Hnbk.
        apply (stored_as_same_lookup st); [now rewrite Hp'|].
        apply Hall; [now right | assumption].
      * split; congruence.
    + (* a sentence without records gets the new ones *)
      intros Hnone. cbn [new_predictions].
      destruct c as [text|].
      * destruct (non_blank (Some text)) eqn:Enb.
        -- destruct (Hnb' text eq_refl eq_refl)
             as [_ [(F & Hp' & Hni' & Hc')|(p0 & F & _)]].
           ++ rewrite Hnew1.
              ** rewrite Hp', Hni', Hc', <- app_assoc. reflexivity.
              ** intros model Hin. rewrite Ho'.
                 --- apply Hnone. now right.
                 --- intros Heq. injection Heq as ->. contradiction.
           ++ rewrite (Hnone m (or_introl eq_refl)) in F. discriminate.
        -- rewrite (Hb' eq_refl) in *. apply Hnew1.
           intros model Hin. apply Hnone. now right.
      * rewrite (Hb' eq_refl) in *. apply Hnew1.
        intros model Hin. apply Hnone. now right.
Qed.


Lemma fields_models_distinct (x : RowFields) : NoDup (map fst (fields_model_data x)).
Proof.
  unfold fields_model_data. simpl.
  repeat constructor; simpl; intuition (try discriminate).
Qed.

Lemma fields_models_short (x : RowFields) :
  Forall (fun mc => length (fst mc) <= 20) (fields_model_data x).
Proof. unfold fields_model_data. repeat constructor; simpl; lia. Qed.

(** Runs the three steps of [row_program] on [st], naming what each
    specification gives. *)
Ltac run_row x st Hwf Hval :=
  destruct (review_step_spec x st Hwf Hval)
    as (review & st1 & E1 & Hwf1 & Hs1 & Hp1 & Hlt1 & (r1 & F1 & Hid1 & Htext1)
        & Hoth1 & Hcase1);
  destruct (sentence_step_spec x (r_id review) st1 Hwf1 Hval Hlt1)
    as (sentence & st2 & E2 & Hwf2 & Hr2 & Hp2 & Hlt2 & (s1 & F2 & Hid2 & Hf2)
        & Hoth2 & Hcase2);
  destruct (upsert_predictions_spec (s_id sentence) (fields_model_data x)
              (fields_models_distinct x) (fields_models_short x) st2 Hwf2 Hlt2)
    as (st3 & E3 & Hwf3 & Hr3 & Hs3 & Hn3 & Hoth3 & Hst3 & Hnoop3 & Hnew3);
  assert (Erun : row_program enforce_max_length x st = Ok (tt, st3))
    by (unfold row_program, bind; rewrite E1, E2; exact E3).

(** A valid row succeeds on a well-formed store, and the store then
    agrees with it. *)
Lemma row_program_agrees (x : RowFields) (st : Store) :
  wf_store st -> valid_fields x ->
  exists st', row_program enforce_max_length x st = Ok (tt, st')
              /\ wf_store st' /\ agrees st' x.
Proof.
  intros Hwf Hval. run_row x st Hwf Hval.
  exists st3. split; [exact Erun|]. split; [exact Hwf3|].
  exists r1, s1. rewrite Hr3, Hr2, Hs3.
  split; [exact F1|]. split; [exact Htext1|].
  rewrite Hid1. split; [exact F2|]. split; [exact Hf2|].
  rewrite Hid2. exact Hst3.
Qed.


Lemma singleton_eq (A : Type) (l : list A) (a b : A) : l = [a] -> l = [b] -> a = b.
Proof. congruence. Qed.

Lemma pk_inj (A : Type) (pk : A -> nat) (l : list A) (a b : A) :
  NoDup (map pk l) -> In a l -> In b l -> pk a = pk b -> a = b.
Proof.
  induction l as [|x l IH]; simpl; [tauto|].
  intros Hnd Ha Hb E. inversion Hnd as [|? ? Hx Hnd']; subst.
  destruct Ha as [<-|Ha], Hb as [<-|Hb]; auto.
  - exfalso. apply Hx. rewrite E. now apply in_map.
  - exfalso. apply Hx. rewrite <- E. now apply in_map.
Qed.

(** On a store that agrees with the row nothing is written to the three
    tables and no key is drawn. *)
Lemma row_program_noop (x : RowFields) (st : Store) :
  wf_store st -> valid_fields x -> agrees st x ->
  exists st', row_program enforce_max_length x st = Ok (tt, st')
              /\ wf_store st' /\ same_tables st st' /\ next_id st' = next_id st.
Proof.
  intros Hwf Hval (r & s & Fr & Hrt & Fs & Hsf & Hpred). run_row x st Hwf Hval.
  exists st3. split; [exact Erun|]. split; [exact Hwf3|].
  destruct Hcase1 as [(F & _)|(r0 & F0 & Hr0 & Hn1 & _ & Hsame1)]; [congruence|].
  assert (r0 = r) by congruence. subst r0.
  specialize (Hsame1 Hrt). subst st1.
  destruct Hcase2 as [(F & _)|(s0 & Fs0 & Hs0 & Hn2 & _ & Hsame2)];
    [rewrite <- Hr0 in F; congruence|].
  rewrite <- Hr0 in Fs0. assert (s0 = s) by congruence. subst s0.
  specialize (Hsame2 Hsf). subst st2.
  destruct Hnoop3 as [Hp3 Hn3'].
  { rewrite <- Hs0. exact Hpred. }
  unfold same_tables. auto.
Qed.


Lemma agrees_same_tables (st st' : Store) (x : RowFields) :
  same_tables st st' -> agrees st x -> agrees st' x.
Proof.
  intros (Hr & Hs & Hp) (r & s & H). exists r, s.
  unfold stored_as in *. rewrite Hr, Hs, Hp. exact H.
Qed.

Lemma fields_eq (x y : RowFields) :
  f_review_id x = f_review_id y -> f_review_text x = f_review_text y ->
  f_sentence_id x = f_sentence_id y -> f_review_sentence x = f_review_sentence y ->
  f_gpt4 x = f_gpt4 y -> f_gemini x = f_gemini y -> f_perplexity x = f_perplexity y ->
  x = y.
Proof. destruct x, y; simpl; intros; subst; reflexivity. Qed.

(** Processing a row keeps the store in agreement with every row it
    agreed with that does not contradict the processed one. *)
Lemma row_program_preserves (x y : RowFields) (st st' : Store) :
  wf_store st -> valid_fields x -> compatible x y -> agrees st y ->
  row_program enforce_max_length x st = Ok (tt, st') -> agrees st' y.
Proof.
  intros Hwf Hval Hc Hy Hrun.
  pose proof Hy as (ry & sy & Fry & Hryt & Fsy & Hsyf & Hypred).
  run_row x st Hwf Hval.
  rewrite Erun in Hrun. injection Hrun as <-.
  destruct (filter_singleton_In _ _ _ _ F1) as [Hin_r1 Hkey_r1].
  apply review_test_spec in Hkey_r1.
  destruct (filter_singleton_In _ _ _ _ F2) as [Hin_s1 Hkey_s1].
  apply sentence_test_spec in Hkey_s1.
  assert (Hfinish :
            filter (review_test (f_review_id y)) (reviews st1) = [ry] ->
            (r_id ry, f_sentence_id y) <> (r_id review, f_sentence_id x) ->
            agrees st3 y).
  { intros Fry1 Hkey.
    assert (Fsy2 : filter (sentence_test (r_id ry) (f_sentence_id y)) (sentences st2)
                   = [sy]).
    { rewrite Hoth2 by exact Hkey. rewrite Hs1. exact Fsy. }
    assert (Hpk : s_id sy <> s_id sentence).
    { intros Heq. destruct (filter_singleton_In _ _ _ _ Fsy2) as [Hin_sy Hkey_sy].
      apply sentence_test_spec in Hkey_sy.
      assert (sy = s1).
      { apply (pk_inj _ s_id (sentences st2)); try assumption.
        - apply (wf_sentence_pk Hwf2).
        - congruence. }
      subst sy. congruence. }
    exists ry, sy. rewrite Hr3, Hr2, Hs3.
    split; [exact Fry1|]. split; [exact Hryt|]. split; [exact Fsy2|].
    split; [exact Hsyf|].
    intros model text Hin Hnb. apply (stored_as_same_lookup st).
    - rewrite Hoth3 by (left; exact Hpk). rewrite Hp2, Hp1. reflexivity.
    - now apply Hypred. }
  destruct (eqb (f_review_id y) (f_review_id x)) eqn:Erid.
  - apply eqb_eq in Erid. destruct (Hc (eq_sym Erid)) as [Htxt Hrest].
    rewrite Erid in Fry.
    destruct Hcase1 as [(F & _)|(r0 & F0 & Hr0 & _ & _ & Hsame1)]; [congruence|].
    assert (r0 = ry) by congruence. subst r0.
    assert (Est : st1 = st) by (apply Hsame1; congruence).
    destruct (eqb (f_sentence_id y) (f_sentence_id x)) eqn:Esid.
    + apply eqb_eq in Esid. destruct (Hrest (eq_sym Esid)) as (Ha & Hb & Hd & He).
      assert (x = y) by (apply fields_eq; congruence). subst y.
      destruct (row_program_noop x st Hwf Hval Hy) as (st'' & Erun' & _ & Hsame & _).
      rewrite Erun in Erun'. injection Erun' as <-.
      now apply (agrees_same_tables st).
    + apply eqb_neq in Esid. apply Hfinish.
      * rewrite Est, Erid. exact Fry.
      * congruence.
  - apply eqb_neq in Erid. apply Hfinish.
    + rewrite Hoth1 by exact Erid. exact Fry.
    + intros Heq. injection Heq as Heq _.
      assert (Fry1 : filter (review_test (f_review_id y)) (reviews st1) = [ry])
        by (rewrite Hoth1 by exact Erid; exact Fry).
      destruct (filter_singleton_In _ _ _ _ Fry1) as [Hin_ry Hkey_ry].
      apply review_test_spec in Hkey_ry.
      assert (ry = r1).
      { apply (pk_inj _ r_id (reviews st1)); try assumption.
        - apply (wf_review_pk Hwf1).
        - congruence. }
      subst ry. congruence.
Qed.


Lemma filter_none (A : Type) (P : A -> bool) (l : list A) :
  (forall a, In a l -> P a = false) -> filter P l = [].
Proof.
  induction l as [|a l IH]; simpl; intros H; [reflexivity|].
  rewrite (H a) by now left. apply IH. intros b Hb. apply H. now right.
Qed.

(** A valid row whose [(review_id, sentence_id)] pair is not stored yet:
    what the store holds afterwards. *)
Lemma row_program_new_pair (x : RowFields) (st : Store) :
  wf_store st -> valid_fields x -> pair_absent st x ->
  exists st' r s n t,
    row_program enforce_max_length x st = Ok (tt, st')
    /\ wf_store st'
    /\ filter (review_test (f_review_id x)) (reviews st') = [r]
    /\ r_review_text r = f_review_text x
    /\ (filter (review_test (f_review_id x)) (reviews st) = [] ->
        length (reviews st') = S (length (reviews st)))
    /\ (filter (review_test (f_review_id x)) (reviews st) <> [] ->
        length (reviews st') = length (reviews st))
    /\ sentences st' = sentences st ++ [s]
    /\ sentence_key s = (r_id r, f_sentence_id x)
    /\ sentence_has_fields s x
    /\ predictions st'
       = predictions st ++ new_predictions (s_id s) (fields_model_data x) n t.
Proof.
  intros Hwf Hval Habs. run_row x st Hwf Hval.
  assert (Hnew : filter (sentence_test (r_id review) (f_sentence_id x)) (sentences st1)
                 = []).
  { destruct (@unique_key_lookup _ _ sentence_key
                (sentence_test (r_id review) (f_sentence_id x))
                (r_id review, f_sentence_id x) (sentences st1)
                (sentence_test_spec (r_id review) (f_sentence_id x))
                (wf_sentence_key Hwf1)) as [F|[s0 F]]; [exact F|].
    exfalso. destruct (filter_singleton_In _ _ _ _ F) as [Hin Hkey].
    apply sentence_test_spec in Hkey. unfold sentence_key in Hkey.
    injection Hkey as Hrev Hsid. rewrite Hs1 in Hin.
    destruct Hcase1 as [(_ & Hid & _)|(r0 & F0 & Hr0 & _)].
    - pose proof (wf_sentence_fresh Hwf) as Hf. rewrite Forall_forall in Hf.
      specialize (Hf s0 Hin). lia.
    - destruct (filter_singleton_In _ _ _ _ F0) as [Hin0 Hkey0].
      apply review_test_spec in Hkey0.
      apply (Habs r0 s0 Hin0 Hin Hkey0); congruence. }
  destruct Hcase2 as [(_ & Hsid & Hn2 & Hsent & Hkey & Hfields)|(s0 & F0 & _)];
    [|congruence].
  exists st3, r1, sentence, (next_id st2), (clock st2).
  split; [exact Erun|]. split; [exact Hwf3|].
  rewrite Hr3, Hr2, Hs3, Hsent, Hs1.
  split; [exact F1|]. split; [exact Htext1|]. split; [|split].
  - intros F. destruct Hcase1 as [(_ & _ & _ & Hl)|(r0 & F0 & _)]; [exact Hl | congruence].
  - intros F. destruct Hcase1 as [(F0 & _)|(r0 & _ & _ & _ & Hl & _)];
      [contradiction | exact Hl].
  - split; [reflexivity|]. split; [congruence|]. split; [exact Hfields|].
    rewrite Hnew3, Hp2, Hp1; [reflexivity|].
    intros model _. apply filter_none. intros p Hp.
    rewrite Hp2 in Hp.
    pose proof (wf_prediction_fresh Hwf1) as Hf. rewrite Forall_forall in Hf.
    specialize (Hf p Hp). unfold prediction_test.
    replace (m_sentence p =? s_id sentence) with false; [reflexivity|].
    symmetry. apply Nat.eqb_neq. lia.
Qed.


End Steps.

(** ** New pairs *)

Lemma new_predictions_spec (spk : nat) (data : list (pystr * cell)) :
  forall n t,
    map m_model_name (new_predictions spk data n t)
    = map fst (filter (fun mc => non_blank (snd mc)) data)
    /\ Forall (fun p => m_sentence p = spk /\ m_confidence_score p = None
                        /\ In (m_model_name p, Some (m_prediction_text p)) data)
              (new_predictions spk data n t).
Proof.
  induction data as [|[m c] data IH]; intros n t; simpl; [auto|].
  assert (Hweak : forall n' t',
             Forall (fun p => m_sentence p = spk /\ m_confidence_score p = None
                              /\ ((m, c) = (m_model_name p, Some (m_prediction_text p))
                                  \/ In (m_model_name p, Some (m_prediction_text p)) data))
                    (new_predictions spk data n' t')).
  { intros n' t'. destruct (IH n' t') as [_ H].
    eapply Forall_impl; [|exact H]. simpl. tauto. }
  destruct c as [text|].
  - simpl. destruct (truthy text && truthy (strip text)) eqn:E; simpl.
    + destruct (IH (S n) (S t)) as [H1 _]. split; [now rewrite H1|].
      constructor; [simpl; auto | apply Hweak].
    + destruct (IH n t) as [H1 _]. split; [exact H1 | apply Hweak].
  - destruct (IH n t) as [H1 _]. split; [exact H1 | apply Hweak].
Qed.

(** C2 (as amended). On a well-formed store, a valid row whose
    [(review_id, sentence_id)] pair is not stored yet is processed
    successfully, and afterwards: exactly one Review has the row's
    [review_id], and it carries the row's [review_text] (it was created if
    none had that [review_id], otherwise the stored one is reused and its
    text updated); exactly one ReviewSentence was created, keyed by that
    review and the row's [sentence_id], with the sentence text and the
    three raw prediction fields of the row; and one ModelPrediction was
    created for each model whose prediction is non-blank, in the order
    gpt4, gemini, perplexity (at most three), each for that sentence, with
    the row's text and a null confidence score. *)
Theorem C2_new_pair_is_reconciled
        (enforce_max_length : bool) (row : Series) (x : RowFields) (st : Store) :
  wf_store st -> valid_row row x -> pair_absent st x ->
  exists st' r s created,
    _process_single_row enforce_max_length row st = Ok (tt, st')
    /\ wf_store st'
    /\ filter (review_test (f_review_id x)) (reviews st') = [r]
    /\ r_review_text r = f_review_text x
    /\ (filter (review_test (f_review_id x)) (reviews st) = [] ->
        length (reviews st') = S (length (reviews st)))
    /\ (filter (review_test (f_review_id x)) (reviews st) <> [] ->
        length (reviews st') = length (reviews st))
    /\ sentences st' = sentences st ++ [s]
    /\ sentence_key s = (r_id r, f_sentence_id x)
    /\ sentence_has_fields s x
    /\ predictions st' = predictions st ++ created
    /\ map m_model_name created
       = map fst (filter (fun mc => non_blank (snd mc)) (fields_model_data x))
    /\ Forall (fun p => m_sentence p = s_id s /\ m_confidence_score p = None
                        /\ In (m_model_name p, Some (m_prediction_text p))
                              (fields_model_data x))
              created
    /\ length created <= 3.
Proof.
  intros Hwf [Hfields Hval] Habs.
  destruct (row_program_new_pair enforce_max_length x st Hwf Hval Habs)
    as (st' & r & s & n & t & Erun & Hwf' & Fr & Ht & Hl1 & Hl2 & Hs & Hk & Hf & Hp).
  exists st', r, s, (new_predictions (s_id s) (fields_model_data x) n t).
  rewrite (@_process_single_row_fields enforce_max_length row x st Hfields).
  destruct (new_predictions_spec (s_id s) (fields_model_data x) n t) as [Hm Hall].
  repeat (split; [assumption|]).
  rewrite <- (length_map m_model_name), Hm, length_map.
  etransitivity; [apply filter_length_le | simpl; lia].
Qed.

Lemma wf_empty_store : wf_store empty_store.
Proof. constructor; simpl; constructor. Qed.

Lemma C2_witness :
  exists st',
    _process_single_row true example_row empty_store = Ok (tt, st')
    /\ length (reviews st') = 1
    /\ length (sentences st') = 1
    /\ length (predictions st') = 2.
Proof.
  destruct (C2_new_pair_is_reconciled true example_row example_fields empty_store)
    as (st' & r & s & created & E & _ & _ & _ & Hl & _ & Hs & _ & _ & Hp & Hm & _).
  - exact wf_empty_store.
  - split.
    + unfold has_fields. simpl. repeat split; reflexivity.
    + unfold valid_fields. simpl. repeat split; try lia. discriminate.
  - intros r s [].
  - exists st'. split; [exact E|]. split; [apply Hl; reflexivity|].
    rewrite Hs, Hp. simpl. split; [reflexivity|].
    rewrite <- (length_map m_model_name), Hm. reflexivity.
Defined.

(** C2 as the specification words it fails: the second sentence of a
    review already stored is a new pair, and no Review is created for
    it. *)
Lemma C2_counterexample : ~ new_pair_creates_a_review.
Proof.
  intros H.
  assert (Hwf : wf_store store_with_example).
  { constructor; vm_compute;
      repeat constructor; simpl; try lia; intuition (try discriminate; try lia). }
  assert (Hval : valid_row second_sentence_row second_sentence_fields).
  { split.
    - unfold has_fields. simpl. repeat split; reflexivity.
    - unfold valid_fields. simpl. repeat split; try lia. discriminate. }
  assert (Habs : pair_absent store_with_example second_sentence_fields).
  { intros r s Hr Hs _ _. vm_compute in Hs. destruct Hs as [<-|[]].
    simpl. intros E. vm_compute in E. discriminate. }
  destruct (_process_single_row true second_sentence_row store_with_example)
    as [[[] st']|e] eqn:E; [|vm_compute in E; discriminate].
  specialize (H true _ _ _ _ Hwf Hval Habs E).
  vm_compute in E. injection E as <-. vm_compute in H. discriminate.
Qed.

(** ** Running a file twice *)

Section Rerun.

Variable tokenize : pystr -> pystr -> option nat -> parse_outcome.
Variable enforce_max_length : bool.

Lemma same_but_log_refl (w : World) : same_but_log w w.
Proof. unfold same_but_log. auto 10. Qed.

Lemma same_but_log_add_log (w w' : World) (m : pystr) :
  same_but_log w w' -> same_but_log (with_self w (_add_log (self w) m)) w'.
Proof. unfold same_but_log. simpl. auto. Qed.

Lemma process_row_same_but_log (w w' : World) (ir : nat * Series) :
  same_but_log w w' ->
  same_but_log (process_row enforce_max_length w ir)
               (process_row enforce_max_length w' ir).
Proof.
  intros (Hst & Hl & Hs & Hu & Hc & Hf). unfold process_row, same_but_log.
  destruct ir as [index row]. rewrite Hst.
  destruct (_process_single_row enforce_max_length row (store w')) as [[u st']|e];
    simpl; repeat split; congruence.
Qed.

Lemma fold_process_row_same_but_log (rows : list (nat * Series)) :
  forall w w', same_but_log w w' ->
               same_but_log (fold_left (process_row enforce_max_length) rows w)
                            (fold_left (process_row enforce_max_length) rows w').
Proof.
  induction rows as [|r rows IH]; intros w w' H; simpl; [exact H|].
  apply IH. now apply process_row_same_but_log.
Qed.

(** The batch loop does to the store and the counters what one loop over
    all the rows does. *)
Lemma process_batches_flat (df : DataFrame) (w : World) :
  same_but_log (process_batches enforce_max_length w df (len df))
               (fold_left (process_row enforce_max_length) (iterrows df) w).
Proof.
  unfold process_batches. rewrite <- (batched_rows_all df). unfold batched_rows.
  generalize (range 0 (len df) batch_size). intros starts.
  assert (G : forall w1 w2, same_but_log w1 w2 ->
             same_but_log
               (fold_left (fun w i => _process_batch enforce_max_length w
                                        (iloc i (i + batch_size) df) (i + 1))
                          starts w1)
               (fold_left (process_row enforce_max_length)
                          (concat (map (fun i => iterrows (iloc i (i + batch_size) df))
                                       starts)) w2)).
  { induction starts as [|i starts IH]; intros w1 w2 H; cbn [fold_left map concat].
    - exact H.
    - rewrite fold_left_app. apply IH. unfold _process_batch.
      apply fold_process_row_same_but_log. now apply same_but_log_add_log. }
  apply G. apply same_but_log_refl.
Qed.

(** The first pass over valid rows that do not contradict one another:
    every row succeeds and the store ends up agreeing with all of them. *)
Lemma first_pass (rows : list (nat * Series)) (xs : list RowFields) :
  Forall2 (fun ir x => valid_row (snd ir) x) rows xs ->
  (forall x y, In x xs -> In y xs -> compatible x y) ->
  forall w, wf_store (store w) ->
    let w' := fold_left (process_row enforce_max_length) rows w in
    wf_store (store w')
    /\ (forall x, In x xs -> agrees (store w') x)
    /\ (forall y, (forall x, In x xs -> compatible x y) ->
                  agrees (store w) y -> agrees (store w') y)
    /\ p_successful_rows (self w') = p_successful_rows (self w) + length rows
    /\ p_failed_rows (self w') = p_failed_rows (self w).
Proof.
  induction 1 as [|[index row] x rows xs [Hfields Hval] Hrest IH]; intros Hc w Hwf.
  - simpl. split; [exact Hwf|]. split; [intros x []|]. split; [auto|].
    split; [lia | reflexivity].
  - cbn [fold_left].
    destruct (row_program_agrees enforce_max_length x (store w) Hwf Hval)
      as (st' & Erun & Hwf' & Hag).
    assert (Estep : process_row enforce_max_length w (index, row)
                    = mkWorld (mkProc (upload_log (self w)) (p_processing_log (self w))
                                      (p_successful_rows (self w) + 1)
                                      (p_failed_rows (self w)))
                              st' (ledger w) (saves w)).
    { unfold process_row.
      rewrite (@_process_single_row_fields enforce_max_length row x (store w) Hfields).
      now rewrite Erun. }
    rewrite Estep.
    set (w1 := mkWorld _ st' (ledger w) (saves w)).
    destruct (IH (fun a b Ha Hb => Hc a b (or_intror Ha) (or_intror Hb)) w1 Hwf')
      as (Hwf2 & Hall & Hpres & Hs & Hf).
    cbv zeta. split; [exact Hwf2|]. split; [|split; [|split]].
    + intros y [<-|Hy]; [|now apply Hall].
      apply Hpres; [|exact Hag].
      intros a Ha. apply Hc; [now right | now left].
    + intros y Hy Hagy. apply Hpres.
      * intros a Ha. apply Hy. now right.
      * apply (row_program_preserves enforce_max_length x y (store w) st');
          auto. apply Hy. now left.
    + rewrite Hs. simpl. lia.
    + rewrite Hf. reflexivity.
Qed.

(** A pass over valid rows on a store that agrees with all of them
    writes nothing to the tables. *)
Lemma later_pass (rows : list (nat * Series)) (xs : list RowFields) :
  Forall2 (fun ir x => valid_row (snd ir) x) rows xs ->
  forall w, wf_store (store w) ->
    (forall x, In x xs -> agrees (store w) x) ->
    let w' := fold_left (process_row enforce_max_length) rows w in
    wf_store (store w')
    /\ same_tables (store w) (store w')
    /\ next_id (store w') = next_id (store w)
    /\ p_successful_rows (self w') = p_successful_rows (self w) + length rows
    /\ p_failed_rows (self w') = p_failed_rows (self w).
Proof.
  induction 1 as [|[index row] x rows xs [Hfields Hval] Hrest IH]; intros w Hwf Hag.
  - simpl. unfold same_tables. split; [exact Hwf|]. split; [auto|].
    split; [reflexivity|]. split; [lia | reflexivity].
  - cbn [fold_left].
    destruct (row_program_noop enforce_max_length x (store w) Hwf Hval
                (Hag x (or_introl eq_refl)))
      as (st' & Erun & Hwf' & Hsame & Hn).
    assert (Estep : process_row enforce_max_length w (index, row)
                    = mkWorld (mkProc (upload_log (self w)) (p_processing_log (self w))
                                      (p_successful_rows (self w) + 1)
                                      (p_failed_rows (self w)))
                              st' (ledger w) (saves w)).
    { unfold process_row.
      rewrite (@_process_single_row_fields enforce_max_length row x (store w) Hfields).
      now rewrite Erun. }
    rewrite Estep.
    set (w1 := mkWorld _ st' (ledger w) (saves w)).
    destruct (IH w1 Hwf') as (Hwf2 & Hsame2 & Hn2 & Hs & Hf).
    { intros y Hy. apply (agrees_same_tables (store w)); [exact Hsame|].
      apply Hag. now right. }
    cbv zeta. split; [exact Hwf2|]. split; [|split; [|split]].
    + unfold same_tables in *. simpl in Hsame2.
      destruct Hsame as (A1 & A2 & A3), Hsame2 as (B1 & B2 & B3).
      repeat split; congruence.
    + simpl in Hn2. congruence.
    + rewrite Hs. simpl. lia.
    + rewrite Hf. reflexivity.
Qed.

Lemma prepare_table (w w0 : World) (f : file) :
  fst (prepare tokenize w f) = fst (prepare tokenize w0 f).
Proof.
  unfold prepare.
  set (p := self (save_upload_log (set_upload_log w _))).
  set (p0 := self (save_upload_log (set_upload_log w0 _))).
  assert (R : fst (_read_csv tokenize p f (py ";"))
              = fst (_read_csv tokenize p0 f (py ";"))).
  { unfold _read_csv.
    destruct (fst (read_loop tokenize f (py ";") candidate_encodings)); reflexivity. }
  destruct (_read_csv tokenize p f (py ";")) as [[df|e] q],
           (_read_csv tokenize p0 f (py ";")) as [[df0|e0] q0];
    simpl in R; try discriminate; try (injection R as <-); [|reflexivity].
  assert (C : fst (_clean_data q df) = fst (_clean_data q0 df)).
  { unfold _clean_data. destruct (dropna essential_columns df); reflexivity. }
  destruct (_clean_data q df) as [[d|e] q'], (_clean_data q0 df) as [[d0|e0] q0'];
    simpl in C; try discriminate; try (injection C as <-); reflexivity.
Qed.

(** A run whose table was read and cleaned, through the flat loop. *)
Lemma run_on_table (log : DataUploadLog) (st : Store) (f : file) (df : DataFrame) :
  fst (prepare tokenize (start log st) f) = Ok df ->
  exists w1 l,
    store w1 = st
    /\ p_successful_rows (self w1) = 0 /\ p_failed_rows (self w1) = 0
    /\ let wl := fold_left (process_row enforce_max_length) (iterrows df) w1 in
       let run := process_csv_file tokenize enforce_max_length (start log st) f in
       store (snd run) = store wl
       /\ fst run = Success (len df) (p_successful_rows (self wl))
                            (p_failed_rows (self wl)) l.
Proof.
  intros Hp. unfold process_csv_file.
  pose proof (prepare_spec tokenize (start log st) f) as P. cbv zeta in P.
  destruct (prepare tokenize (start log st) f) as [[d|e] w1]; simpl in Hp;
    [|discriminate].
  injection Hp as ->. simpl in P. destruct P as (P1 & P2 & P3 & _).
  destruct (process_batches_flat df w1) as (Hst & _ & _ & _ & Hs & Hf).
  exists w1, (p_processing_log (self (process_batches enforce_max_length w1 df (len df)))).
  split; [exact P1|]. split; [exact P2|]. split; [exact P3|].
  cbv zeta. unfold finish. simpl. rewrite Hst, Hs, Hf. auto.
Qed.


End Rerun.


(** C4 (as amended). Take a well-formed store and a file whose cleaned
    rows are all valid and do not contradict one another (rows with the
    same [review_id] carry the same review text, rows with the same pair
    the same sentence and predictions).  Then a second run on the same file
    writes nothing to the three tables: every stored field, timestamps
    included, is as the first run left it, no entity is created, the
    uniqueness invariants hold, and both runs report every row as
    successful. *)
Theorem C4_second_run_on_consistent_file_changes_nothing
        (tokenize : pystr -> pystr -> option nat -> parse_outcome)
        (enforce_max_length : bool) (log1 log2 : DataUploadLog) (st0 : Store)
        (f : file) (df : DataFrame) (xs : list RowFields) :
  wf_store st0 ->
  fst (prepare tokenize (start log1 st0) f) = Ok df ->
  Forall2 (fun ir x => valid_row (snd ir) x) (iterrows df) xs ->
  (forall x y, In x xs -> In y xs -> compatible x y) ->
  let run1 := process_csv_file tokenize enforce_max_length (start log1 st0) f in
  let run2 := process_csv_file tokenize enforce_max_length
                               (start log2 (store (snd run1))) f in
  same_tables (store (snd run1)) (store (snd run2))
  /\ next_id (store (snd run2)) = next_id (store (snd run1))
  /\ wf_store (store (snd run2))
  /\ (exists l1, fst run1 = Success (len df) (len df) 0 l1)
  /\ (exists l2, fst run2 = Success (len df) (len df) 0 l2).
Proof.
  intros Hwf Hp Hrows Hc. cbv zeta.
  assert (Hlen : length (iterrows df) = len df)
    by (unfold iterrows, len; apply length_map).
  destruct (run_on_table tokenize enforce_max_length log1 st0 f df Hp)
    as (w1 & l1 & Hst1 & Hs1 & Hf1 & Hrun1). cbv zeta in Hrun1.
  destruct Hrun1 as [Hstore1 Hres1].
  assert (Hwf1 : wf_store (store w1)) by now rewrite Hst1.
  destruct (first_pass enforce_max_length (iterrows df) xs Hrows Hc w1 Hwf1)
    as (Hwfa & Hag & _ & Hsa & Hfa).
  rewrite <- Hstore1 in Hwfa, Hag.
  assert (Hp2 : fst (prepare tokenize
                       (start log2 (store (snd (process_csv_file tokenize
                          enforce_max_length (start log1 st0) f)))) f) = Ok df)
    by (rewrite <- Hp; apply prepare_table).
  destruct (run_on_table tokenize enforce_max_length log2 _ f df Hp2)
    as (w2 & l2 & Hst2 & Hs2 & Hf2 & Hrun2). cbv zeta in Hrun2.
  destruct Hrun2 as [Hstore2 Hres2].
  assert (Hwf2 : wf_store (store w2)) by now rewrite Hst2.
  destruct (later_pass enforce_max_length (iterrows df) xs Hrows w2 Hwf2)
    as (Hwfb & Hsame & Hn & Hsb & Hfb).
  { rewrite Hst2. exact Hag. }
  rewrite Hstore2. rewrite Hst2 in Hsame, Hn.
  split; [exact Hsame|]. split; [exact Hn|]. split; [exact Hwfb|]. split.
  - exists l1. rewrite Hres1, Hsa, Hfa, Hs1, Hf1, Hlen. reflexivity.
  - exists l2. rewrite Hres2, Hsb, Hfb, Hs2, Hf2, Hlen. reflexivity.
Qed.

Lemma C4_witness :
  same_tables (store (snd example_run))
              (store (snd (process_csv_file SimpleCsv.tokenize true
                             (start new_upload_log (store (snd example_run)))
                             example_file)))
  /\ exists l2,
       fst (process_csv_file SimpleCsv.tokenize true
              (start new_upload_log (store (snd example_run))) example_file)
       = Success 1 1 0 l2.
Proof.
  destruct (C4_second_run_on_consistent_file_changes_nothing
              SimpleCsv.tokenize true new_upload_log new_upload_log empty_store
              example_file cleaned_example_table [example_fields])
    as (H1 & _ & _ & _ & H2).
  - exact wf_empty_store.
  - reflexivity.
  - constructor; [|constructor]. split.
    + unfold has_fields. simpl. repeat split; reflexivity.
    + unfold valid_fields. simpl. repeat split; try lia. discriminate.
  - intros x y [<-|[]] [<-|[]]. unfold compatible. auto.
  - split; [exact H1 | exact H2].
Defined.

(** C4 as the specification words it fails: the two records of
    [file_with_two_texts] give two texts for review R1.  The first run
    leaves the second text; the second run writes the first text again,
    then the second, so the review is written twice and its [updated_at]
    is not what the first run left. *)
Lemma C4_counterexample : ~ second_run_is_a_no_op.
Proof.
  intros H.
  specialize (H SimpleCsv.tokenize true new_upload_log new_upload_log empty_store
                file_with_two_texts wf_empty_store).
  cbv zeta in H. destruct H as (Hr & _).
  apply (f_equal (map r_updated_at)) in Hr. vm_compute in Hr. discriminate.
Qed.

(** The store during the second run on [file_with_two_texts]: after its
    first record the review carries the first text again. *)
Lemma second_run_rewrites_review_text :
  map r_review_text (reviews (store (snd two_texts_first_run))) = [py "Second text"]
  /\ map r_review_text
         (reviews (store (process_row true
                            (start new_upload_log (store (snd two_texts_first_run)))
                            (0, mkSeries REQUIRED_COLUMNS
                                  [Some (py "R1"); Some (py "First text");
                                   Some (py "It works well"); Some (py "Positive");
                                   Some (py "Positive"); None; Some (py "R1-S1")]))))
     = [py "First text"]
  /\ map r_review_text (reviews (store (snd two_texts_second_run)))
     = [py "Second text"].
Proof. repeat split; vm_compute; reflexivity. Qed.

(** A record without review text whose review does not exist yet fails,
    and succeeds once a later record has created the review: what the two
    runs on [file_with_late_review] report. *)
Lemma runs_on_file_with_late_review :
  (exists l, fst late_review_first_run = Success 2 1 1 l)
  /\ status (ledger (snd late_review_first_run)) = completed
  /\ failed_rows (ledger (snd late_review_first_run)) = 1
  /\ (exists l, fst late_review_second_run = Success 2 2 0 l)
  /\ length (sentences (store (snd late_review_first_run))) = 1
  /\ length (sentences (store (snd late_review_second_run))) = 2.
Proof.
  split; [eexists; vm_compute; reflexivity|].
  split; [reflexivity|]. split; [reflexivity|].
  split; [eexists; vm_compute; reflexivity|].
  split; reflexivity.
Qed.

(* ===================================================================== *)
(** * Further properties of the code *)
(* ===================================================================== *)

(** ** The normalizer: which rows are kept, and the identifiers *)

Lemma has_essentials_spec (cols : list pystr) (r : nat * list cell) :
  has_essentials cols r = true
  <-> (forall c, In c essential_columns -> cell_at cols (snd r) c <> None).
Proof.
  unfold has_essentials. rewrite forallb_forall.
  split; intros H c Hc; specialize (H c Hc).
  - destruct (cell_at cols (snd r) c); [discriminate | discriminate H].
  - destruct (cell_at cols (snd r) c); [reflexivity | contradiction].
Qed.

Lemma _clean_data_log (self self' : CSVProcessor) (df df' : DataFrame) :
  _clean_data self df = (Ok df', self') ->
  self' = (if 0 <? len df - len df'
           then _add_log self (dropped_message (len df - len df'))
           else self).
Proof.
  intros H. pose proof (@_clean_data_rows _ _ _ _ H) as E.
  unfold _clean_data, dropna in H.
  destruct (filter _ essential_columns); [|discriminate].
  injection H as _ <-.
  subst df'. unfold len. cbn [df_rows]. rewrite length_map. reflexivity.
Qed.

(** X1 ([_clean_data], the [dropna] step).  The cleaned table holds
    exactly the records whose [review_id], [review_sentence] and
    [sentence_id] are all present, in their order and under their index
    labels; the number of records dropped is logged, in one line, exactly
    when it is not zero. *)
Theorem clean_data_keeps_the_rows_with_all_essentials
        (self self' : CSVProcessor) (df df' : DataFrame) :
  _clean_data self df = (Ok df', self') ->
  let dropped := len df - len df' in
  map fst (df_rows df')
  = map fst (filter (has_essentials (df_columns df)) (df_rows df))
  /\ (forall r, has_essentials (df_columns df) r = true
                <-> (forall c, In c essential_columns ->
                               cell_at (df_columns df) (snd r) c <> None))
  /\ len df' + dropped = len df
  /\ p_processing_log self'
     = p_processing_log self
       ++ (if dropped =? 0 then [] else [dropped_message dropped]).
Proof.
  intros H dropped.
  pose proof (_clean_data_log _ _ _ _ H) as Hlog.
  pose proof (@_clean_data_rows _ _ _ _ H) as E.
  assert (Hle : len df' <= len df).
  { subst df'. unfold len. cbn [df_rows]. rewrite length_map. apply filter_length_le. }
  split; [|split; [|split]].
  - subst df'. cbn [df_rows]. rewrite map_map. reflexivity.
  - intros r. apply has_essentials_spec.
  - unfold dropped. lia.
  - rewrite Hlog. fold dropped.
    destruct dropped as [|k]; simpl; [now rewrite app_nil_r | reflexivity].
Qed.

Lemma clean_data_keeps_the_rows_with_all_essentials_witness :
  map fst (df_rows table_with_gaps) = [0; 1; 2]
  /\ exists df' self',
       _clean_data (init new_upload_log) table_with_gaps = (Ok df', self')
       /\ map fst (df_rows df') = [0; 2]
       /\ p_processing_log self' = [dropped_message 1].
Proof.
  split; [reflexivity|].
  eexists. eexists. split; [reflexivity|].
  split;
    apply (clean_data_keeps_the_rows_with_all_essentials
             (init new_upload_log) _ table_with_gaps _ eq_refl).
Defined.

(** X2 ([_clean_data], [dropna] on an absent label).  The normalizer
    raises only when one of the three essential columns is absent from the
    table: the exception is then the [KeyError] naming the absent ones, and
    nothing is logged.  The other required columns may be absent. *)
Theorem clean_data_fails_only_on_a_missing_essential_column
        (self : CSVProcessor) (df : DataFrame) :
  (missing_essentials df = []
   <-> forall c, In c essential_columns -> has_column c (df_columns df) = true)
  /\ (missing_essentials df = [] ->
      exists df', fst (_clean_data self df) = Ok df'
                  /\ df_columns df' = df_columns df)
  /\ (missing_essentials df <> [] ->
      _clean_data self df
      = (Raise (KeyError (repr_labels (missing_essentials df))), self)).
Proof.
  split; [|split].
  - unfold missing_essentials. split.
    + intros E c Hc.
      destruct (has_column c (df_columns df)) eqn:Hh; [reflexivity|].
      assert (Hin : In c (filter (fun c => negb (has_column c (df_columns df)))
                                 essential_columns)).
      { apply filter_In. split; [assumption | now rewrite Hh]. }
      rewrite E in Hin. destruct Hin.
    + intros Hall. apply filter_none. intros c Hc. now rewrite (Hall c Hc).
  - intros E.
    destruct (_clean_data self df) as [[df'|e] self'] eqn:Hc.
    + exists df'. split; [reflexivity|].
      rewrite (@_clean_data_rows _ _ _ _ Hc). reflexivity.
    + exfalso. unfold _clean_data, dropna in Hc.
      unfold missing_essentials in E. rewrite E in Hc. discriminate Hc.
  - intros Hne. unfold _clean_data, dropna. unfold missing_essentials in Hne.
    fold (missing_essentials df) in *.
    change (filter (fun c => negb (has_column c (df_columns df))) essential_columns)
      with (missing_essentials df).
    destruct (missing_essentials df); [contradiction | reflexivity].
Qed.

Lemma clean_data_fails_only_on_a_missing_essential_column_witness :
  missing_essentials table_without_sentence_id = [py "sentence_id"]
  /\ _clean_data (init new_upload_log) table_without_sentence_id
     = (Raise (KeyError (py "['sentence_id']")), init new_upload_log).
Proof.
  split; [reflexivity|].
  apply (clean_data_fails_only_on_a_missing_essential_column
           (init new_upload_log) table_without_sentence_id).
  discriminate.
Defined.

Lemma nth_update_nth_some (f : cell -> cell) (i : nat) (vals : list cell) (s : pystr) :
  nth i vals None = Some s -> nth i (update_nth i f vals) None = f (Some s).
Proof.
  revert i; induction vals as [|v vals IH]; intros [|i]; simpl;
    try discriminate; auto.
  now intros ->.
Qed.

Lemma cell_at_update_some (cols : list pystr) (name : pystr) (f : cell -> cell)
      (vals : list cell) (s : pystr) :
  cell_at cols vals name = Some s ->
  cell_at cols (update_at cols name f vals) name = f (Some s).
Proof.
  unfold cell_at, update_at.
  destruct (col_pos name cols) as [i|]; [apply nth_update_nth_some | discriminate].
Qed.

Lemma cleaned_values_id (cols : list pystr) (vals : list cell) (col s : pystr) :
  In col id_columns ->
  cell_at cols vals col = Some s ->
  cell_at cols (cleaned_values cols vals) col = Some (strip s).
Proof.
  intros Hin Hs. unfold cleaned_values, text_columns. cbn [fold_left].
  assert (Ht : cell_at cols
                 (update_at cols (py "perplexity") clean_text_cell
                 (update_at cols (py "Gemini flash 2.5") clean_text_cell
                 (update_at cols (py "gpt4") clean_text_cell
                 (update_at cols (py "review_sentence") clean_text_cell
                 (update_at cols (py "review_text") clean_text_cell vals))))) col
               = Some s).
  { destruct Hin as [<-|[<-|[]]];
      rewrite !cell_at_update_other
        by (intros E; vm_compute in E; discriminate); exact Hs. }
  destruct Hin as [<-|[<-|[]]].
  - rewrite cell_at_update_other by (intros E; vm_compute in E; discriminate).
    rewrite (cell_at_update_some _ _ _ _ _ Ht). reflexivity.
  - rewrite (cell_at_update_some _ _ _ _ s); [reflexivity|].
    rewrite cell_at_update_other by (intros E; vm_compute in E; discriminate).
    exact Ht.
Qed.

(** X3 ([_clean_data], the identifier columns).  In a kept record both
    identifiers are present, and the cleaned record holds each of them
    trimmed; an identifier is never turned into the null value, whatever
    its text. *)
Theorem clean_data_trims_identifiers
        (self self' : CSVProcessor) (df df' : DataFrame) :
  _clean_data self df = (Ok df', self') ->
  Forall2 (fun raw cleaned =>
             forall col, In col id_columns ->
               exists s, cell_at (df_columns df) (snd raw) col = Some s
                         /\ cell_at (df_columns df') (snd cleaned) col
                            = Some (strip s))
          (filter (has_essentials (df_columns df)) (df_rows df))
          (df_rows df').
Proof.
  intros H. apply _clean_data_rows in H. subst df'. cbn [df_columns df_rows].
  assert (G : forall rows,
             Forall (fun r => has_essentials (df_columns df) r = true) rows ->
             Forall2 (fun raw cleaned =>
                        forall col, In col id_columns ->
                          exists s, cell_at (df_columns df) (snd raw) col = Some s
                                    /\ cell_at (df_columns df) (snd cleaned) col
                                       = Some (strip s))
                     rows
                     (map (fun r => (fst r, cleaned_values (df_columns df) (snd r)))
                          rows)).
  { induction rows as [|r rows IH]; intros Hall; simpl; constructor.
    - intros col Hcol. inversion Hall as [|? ? Hr _]; subst.
      assert (Hne : cell_at (df_columns df) (snd r) col <> None).
      { apply (proj1 (has_essentials_spec _ _) Hr).
        destruct Hcol as [<-|[<-|[]]]; unfold essential_columns; simpl; tauto. }
      destruct (cell_at (df_columns df) (snd r) col) as [s|] eqn:Hs;
        [|contradiction].
      exists s. split; [reflexivity|]. cbn [snd].
      now apply cleaned_values_id.
    - apply IH. now inversion Hall. }
  apply G. apply Forall_forall. intros r Hr. now apply filter_In in Hr.
Qed.

Lemma clean_data_trims_identifiers_witness :
  exists df' self',
    _clean_data (init new_upload_log) table_with_gaps = (Ok df', self')
    /\ Forall2 (fun raw cleaned =>
                  forall col, In col id_columns ->
                    exists s, cell_at REQUIRED_COLUMNS (snd raw) col = Some s
                              /\ cell_at (df_columns df') (snd cleaned) col
                                 = Some (strip s))
               (filter (has_essentials REQUIRED_COLUMNS) (df_rows table_with_gaps))
               (df_rows df').
Proof.
  eexists. eexists. split; [reflexivity|].
  apply (clean_data_trims_identifiers (init new_upload_log) _ table_with_gaps _ eq_refl).
Defined.

(** ** The reader: what it raises, and what it logs *)

(** X4 ([_read_csv], the outer [except]).  Whatever goes wrong, the reader
    raises a [ValueError] whose text is "Failed to read CSV file: "
    followed by the text of the cause, and logs nothing: so for a path that
    cannot be opened, and so for a file that decodes as UTF-8 but does not
    parse, which is not tried under another encoding.  When it returns a
    table it has logged one line, naming the encoding that parsed it. *)
Theorem read_csv_wraps_every_failure
        (tokenize : pystr -> pystr -> option nat -> parse_outcome)
        (self : CSVProcessor) (f : file) (sep : pystr) :
  (forall m, f = Unreadable m ->
     _read_csv tokenize self f sep
     = (Raise (ValueError (py "Failed to read CSV file: " +++ m)), self))
  /\ (forall bs text m,
        f = Content bs -> Codec.decode utf_8 bs = Some text ->
        tokenize text sep None = Malformed m ->
        _read_csv tokenize self f sep
        = (Raise (ValueError (py "Failed to read CSV file: " +++ m)), self))
  /\ (forall e self',
        _read_csv tokenize self f sep = (Raise e, self') ->
        self' = self
        /\ exists m, e = ValueError (py "Failed to read CSV file: " +++ m))
  /\ (forall df self',
        _read_csv tokenize self f sep = (Ok df, self') ->
        exists enc,
          In enc candidate_encodings
          /\ read_csv tokenize f enc sep None = Ok df
          /\ p_processing_log self' = p_processing_log self ++ [read_message enc]).
Proof.
  split; [|split; [|split]].
  - intros m ->. reflexivity.
  - intros bs text m -> Hd Ht. unfold _read_csv, candidate_encodings.
    cbn [read_loop read_csv]. rewrite Hd, Ht. reflexivity.
  - intros e self' H. unfold _read_csv in H.
    destruct (fst (read_loop tokenize f sep candidate_encodings)) as [df enc|e0|];
      [discriminate| |]; injection H as <- <-;
      (split; [reflexivity | eexists; reflexivity]).
  - intros df self' H. unfold _read_csv in H.
    destruct (fst (read_loop tokenize f sep candidate_encodings))
      as [df0 enc|e0|] eqn:L; [|discriminate|discriminate].
    injection H as <- <-.
    apply read_loop_returned in L as (before & after & E & Hr & _).
    exists enc. split; [|split; [exact Hr | reflexivity]].
    rewrite E. apply in_or_app. right. now left.
Qed.

Lemma read_csv_wraps_every_failure_witness :
  _read_csv SimpleCsv.tokenize (init new_upload_log) absent_file (py ";")
  = (Raise (ValueError
              (py "Failed to read CSV file: [Errno 2] No such file or directory: 'upload.csv'")),
     init new_upload_log).
Proof.
  apply (read_csv_wraps_every_failure SimpleCsv.tokenize (init new_upload_log)
           absent_file (py ";")).
  reflexivity.
Defined.

(** ** The validator: which headers it accepts *)

(** X5 ([CSVValidator.validate_csv_file], the report of a readable
    file).  The file is reported valid exactly when each of the seven
    required columns is among its columns, whatever other columns it has;
    [missing_columns] lists the required columns that are absent, and no
    other; the number of rows reported is the number of lines less one. *)
Theorem validator_accepts_exactly_the_complete_headers
        (tokenize : pystr -> pystr -> option nat -> parse_outcome)
        (locale_decode : list Byte.byte -> option pystr)
        (f : file) (df : DataFrame) (n : nat) :
  read_csv tokenize f utf_8 (py ";") (Some 5) = Ok df ->
  line_count locale_decode f = Ok n ->
  let r := validate_csv_file tokenize locale_decode f in
  (valid r = true
   <-> forall c, In c REQUIRED_COLUMNS -> has_column c (df_columns df) = true)
  /\ (forall c, In c (missing_columns r)
                <-> In c REQUIRED_COLUMNS /\ has_column c (df_columns df) = false)
  /\ error r = None
  /\ columns r = df_columns df
  /\ total_columns r = length (df_columns df)
  /\ report_total_rows r = (Z.of_nat n - 1)%Z
  /\ length (sample_data r) <= 3.
Proof.
  intros Hr Hl r. unfold r, validate_csv_file. rewrite Hr, Hl.
  cbn [valid missing_columns error columns total_columns report_total_rows
       sample_data].
  split; [|split; [|repeat split]].
  - rewrite Nat.eqb_eq, length_zero_iff_nil. split.
    + intros E c Hc.
      destruct (has_column c (df_columns df)) eqn:Hh; [reflexivity|].
      assert (Hin : In c (filter (fun col => negb (has_column col (df_columns df)))
                                 REQUIRED_COLUMNS)).
      { apply filter_In. split; [assumption | now rewrite Hh]. }
      rewrite E in Hin. destruct Hin.
    + intros Hall. apply filter_none. intros c Hc. now rewrite (Hall c Hc).
  - intros c. rewrite filter_In, negb_true_iff. reflexivity.
  - unfold head_records. rewrite length_map. apply firstn_le_length.
Qed.

Lemma validator_accepts_exactly_the_complete_headers_witness :
  valid (validate_csv_file SimpleCsv.tokenize (Codec.decode utf_8) example_file)
  = true
  /\ report_total_rows
       (validate_csv_file SimpleCsv.tokenize (Codec.decode utf_8) example_file)
     = 1%Z.
Proof.
  pose proof (validator_accepts_exactly_the_complete_headers
                SimpleCsv.tokenize (Codec.decode utf_8) example_file
                cleaned_example_table 2 eq_refl eq_refl) as H.
  cbv zeta in H. destruct H as (Hv & _ & _ & _ & _ & Hn & _).
  split; [|exact Hn].
  apply Hv. intros c Hc. cbn [In REQUIRED_COLUMNS] in Hc.
  unfold REQUIRED_COLUMNS in Hc. cbn [In] in Hc.
  decompose [or] Hc; subst; try contradiction; reflexivity.
Defined.



(** ** What the engine keeps of the store, whatever the row *)

Lemma extends_refl (st : Store) : extends st st.
Proof.
  unfold extends. repeat split; try lia; exists []; now rewrite app_nil_r.
Qed.

Lemma extends_trans (a b c : Store) : extends a b -> extends b c -> extends a c.
Proof.
  intros ((l1 & E1) & (l2 & E2) & (l3 & E3) & N & C)
         ((k1 & F1) & (k2 & F2) & (k3 & F3) & N' & C').
  unfold extends. repeat split; try lia.
  - exists (l1 ++ k1). now rewrite F1, E1, app_assoc.
  - exists (l2 ++ k2). now rewrite F2, E2, app_assoc.
  - exists (l3 ++ k3). now rewrite F3, E3, app_assoc.
Qed.

Lemma kept_refl (st : Store) : wf_store st -> kept st st.
Proof. intros H. split; [assumption | split; [apply extends_refl | auto]]. Qed.

Lemma kept_trans (a b c : Store) : kept a b -> kept b c -> kept a c.
Proof.
  intros (W & E & R) (W' & E' & R').
  split; [assumption | split; [eapply extends_trans; eauto | auto]].
Qed.

Lemma same_prefix (A : Type) (l : list A) : exists k, l = l ++ k.
Proof. exists []. now rewrite app_nil_r. Qed.

Section Kept.

Variable enforce_max_length : bool.

Lemma Review_get_or_create_kept (review_id review_text : cell) (st st1 : Store)
      (r : Review) (created : bool) :
  wf_store st ->
  Review_get_or_create enforce_max_length review_id review_text st
  = Ok ((r, created), st1) ->
  kept st st1 /\ In r (reviews st1).
Proof.
  intros Hwf H. unfold Review_get_or_create in H.
  destruct review_id as [rid|].
  - change (fun r => matches (r_review_id r) (Some rid)) with (review_test rid) in H.
    destruct (filter (review_test rid) (reviews st)) as [|r0 [|r1 l]] eqn:F.
    + unfold bind, Review_create, ret in H.
      destruct review_text as [text|]; [|discriminate].
      destruct (too_long enforce_max_length 100 rid); [discriminate|].
      injection H as E1 E2 E3. subst r created st1.
      destruct Hwf as [W1 W2 W3 W4 W5 W6 W7 W8 W9].
      set (r := mkReview (next_id st) rid text (clock st) (clock st)).
      assert (Hfresh : ~ In (next_id st) (map r_id (reviews st))).
      { intros Hin. apply in_map_iff in Hin as (q & Hq & Hin).
        rewrite Forall_forall in W4. specialize (W4 q Hin). lia. }
      split; [split; [|split]|].
      * constructor; cbn [reviews sentences predictions next_id clock].
        -- rewrite map_app. now apply NoDup_app_one.
        -- assumption.
        -- assumption.
        -- apply Forall_app. split.
           ++ eapply Forall_impl; [|exact W4]. simpl. intros; lia.
           ++ constructor; [simpl; lia | constructor].
        -- eapply Forall_impl; [|exact W5]. simpl. intros; lia.
        -- eapply Forall_impl; [|exact W6]. simpl. intros; lia.
        -- rewrite map_app. apply NoDup_app_one; [assumption|].
           eapply filter_nil_key; [apply review_test_spec | exact F].
        -- assumption.
        -- assumption.
      * unfold extends. cbn [reviews sentences predictions next_id clock].
        split; [|split; [|split; [|split]]]; try lia; try apply same_prefix.
        exists [review_identity r]. now rewrite map_app.
      * intros (R1 & R2). split; cbn [reviews sentences predictions]; [|assumption].
        rewrite map_app. now apply incl_appl.
      * cbn [reviews]. apply in_or_app. right. now left.
    + injection H as E1 E2 E3. subst r0 created st1.
      split; [now apply kept_refl|].
      now apply (filter_singleton_In _ _ _ _ F).
    + discriminate.
  - rewrite (filter_none _ (fun r0 => matches (r_review_id r0) None) (reviews st))
      in H by reflexivity.
    discriminate H.
Qed.

Lemma Review_save_kept (review r' : Review) (text : cell) (st st1 : Store) :
  wf_store st -> In review (reviews st) ->
  Review_save review text st = Ok (r', st1) ->
  kept st st1 /\ map r_id (reviews st1) = map r_id (reviews st).
Proof.
  intros Hwf Hin H. unfold Review_save in H.
  destruct text as [t|]; [|discriminate].
  injection H as E1 E2. subst r' st1.
  destruct Hwf as [W1 W2 W3 W4 W5 W6 W7 W8 W9].
  set (r' := mkReview (r_id review) (r_review_id review) t
                      (r_created_at review) (clock st)).
  change (map (fun r => if r_id r =? r_id review then r' else r) (reviews st))
    with (replace_pk r_id r' (reviews st)).
  assert (Hlt : r_id review < next_id st)
    by (rewrite Forall_forall in W4; now apply W4).
  cbn [reviews].
  split; [split; [|split]|].
  - constructor; cbn [reviews sentences predictions next_id clock];
      try assumption.
    + now rewrite replace_pk_pks.
    + apply replace_pk_Forall; assumption.
    + rewrite (@replace_pk_keys _ r_id _ r_review_id review r'); auto.
  - unfold extends. cbn [reviews sentences predictions next_id clock].
    split; [|split; [|split; [|split]]]; try lia; try apply same_prefix.
    rewrite (@replace_pk_keys _ r_id _ review_identity review r'); auto.
    apply same_prefix.
  - intros (R1 & R2). split; cbn [reviews sentences predictions]; [|assumption].
    now rewrite replace_pk_pks.
  - apply replace_pk_pks.
Qed.

Lemma Sentence_get_or_create_kept (review : nat) (sid text g ge p : cell)
      (st st1 : Store) (s : ReviewSentence) (created : bool) :
  wf_store st -> In review (map r_id (reviews st)) ->
  Sentence_get_or_create enforce_max_length review sid text g ge p st
  = Ok ((s, created), st1) ->
  kept st st1 /\ In s (sentences st1) /\ reviews st1 = reviews st.
Proof.
  intros Hwf Hrev H. unfold Sentence_get_or_create in H.
  destruct sid as [sid|].
  - change (fun s => (s_review s =? review) && matches (s_sentence_id s) (Some sid))
      with (sentence_test review sid) in H.
    destruct (filter (sentence_test review sid) (sentences st)) as [|s0 [|s1 l]] eqn:F.
    + unfold bind, Sentence_create, ret in H.
      destruct text as [text|]; [|discriminate].
      destruct (too_long enforce_max_length 100 sid); [discriminate|].
      injection H as E1 E2 E3. subst s created st1.
      destruct Hwf as [W1 W2 W3 W4 W5 W6 W7 W8 W9].
      set (s := mkSentence (next_id st) review sid text g ge p (clock st) (clock st)).
      assert (Hfresh : ~ In (next_id st) (map s_id (sentences st))).
      { intros Hin. apply in_map_iff in Hin as (q & Hq & Hin).
        rewrite Forall_forall in W5. specialize (W5 q Hin). lia. }
      assert (Hlt : review < next_id st).
      { apply in_map_iff in Hrev as (q & Hq & Hin).
        rewrite Forall_forall in W4. specialize (W4 q Hin). lia. }
      split; [split; [|split]|split].
      * constructor; cbn [reviews sentences predictions next_id clock].
        -- assumption.
        -- rewrite map_app. now apply NoDup_app_one.
        -- assumption.
        -- eapply Forall_impl; [|exact W4]. simpl. intros; lia.
        -- apply Forall_app. split.
           ++ eapply Forall_impl; [|exact W5]. simpl. intros; lia.
           ++ constructor; [simpl; lia | constructor].
        -- eapply Forall_impl; [|exact W6]. simpl. intros; lia.
        -- assumption.
        -- rewrite map_app. apply NoDup_app_one; [assumption|].
           eapply filter_nil_key; [apply sentence_test_spec | exact F].
        -- assumption.
      * unfold extends. cbn [reviews sentences predictions next_id clock].
        split; [|split; [|split; [|split]]]; try lia; try apply same_prefix.
        exists [sentence_identity s]. now rewrite map_app.
      * intros (R1 & R2). split; cbn [reviews sentences predictions].
        -- rewrite map_app. apply incl_app; [assumption|].
           intros k [<-|[]]. exact Hrev.
        -- rewrite map_app. now apply incl_appl.
      * cbn [sentences]. apply in_or_app. right. now left.
      * reflexivity.
    + injection H as E1 E2 E3. subst s0 created st1.
      split; [now apply kept_refl|]. split; [|reflexivity].
      now apply (filter_singleton_In _ _ _ _ F).
    + discriminate.
  - rewrite (filter_none _ (fun s0 => (s_review s0 =? review)
                                      && matches (s_sentence_id s0) None)
                         (sentences st)) in H
      by (intros a _; apply andb_false_r).
    discriminate H.
Qed.

Lemma Sentence_save_kept (sentence : ReviewSentence) (text g ge p : cell)
      (st st1 : Store) :
  wf_store st -> In sentence (sentences st) ->
  Sentence_save sentence text g ge p st = Ok (tt, st1) ->
  kept st st1 /\ map s_id (sentences st1) = map s_id (sentences st).
Proof.
  intros Hwf Hin H. unfold Sentence_save in H.
  destruct text as [t|]; [|discriminate].
  injection H as E. subst st1.
  destruct Hwf as [W1 W2 W3 W4 W5 W6 W7 W8 W9].
  set (s' := mkSentence (s_id sentence) (s_review sentence) (s_sentence_id sentence)
                        t g ge p (s_created_at sentence) (clock st)).
  change (map (fun s => if s_id s =? s_id sentence then s' else s) (sentences st))
    with (replace_pk s_id s' (sentences st)).
  assert (Hlt : s_id sentence < next_id st /\ s_review sentence < next_id st)
    by (rewrite Forall_forall in W5; now apply W5).
  cbn [sentences].
  split; [split; [|split]|].
  - constructor; cbn [reviews sentences predictions next_id clock];
      try assumption.
    + now rewrite replace_pk_pks.
    + apply replace_pk_Forall; assumption.
    + rewrite (@replace_pk_keys _ s_id _ sentence_key sentence s'); auto.
  - unfold extends. cbn [reviews sentences predictions next_id clock].
    split; [|split; [|split; [|split]]]; try lia; try apply same_prefix.
    rewrite (@replace_pk_keys _ s_id _ sentence_identity sentence s'); auto.
    apply same_prefix.
  - intros (R1 & R2). split; cbn [reviews sentences predictions].
    + rewrite (@replace_pk_keys _ s_id _ s_review sentence s'); auto.
    + now rewrite replace_pk_pks.
  - apply replace_pk_pks.
Qed.

Lemma Prediction_update_or_create_kept (sentence : nat) (model_name text : pystr)
      (st st1 : Store) :
  wf_store st -> In sentence (map s_id (sentences st)) ->
  Prediction_update_or_create enforce_max_length sentence model_name text st
  = Ok (tt, st1) ->
  kept st st1 /\ sentences st1 = sentences st.
Proof.
  intros Hwf Hs H. unfold Prediction_update_or_create in H.
  change (fun p => (m_sentence p =? sentence) && eqb (m_model_name p) model_name)
    with (prediction_test sentence model_name) in H.
  destruct Hwf as [W1 W2 W3 W4 W5 W6 W7 W8 W9].
  assert (Hlt : sentence < next_id st).
  { apply in_map_iff in Hs as (q & Hq & Hin).
    rewrite Forall_forall in W5. specialize (W5 q Hin). lia. }
  destruct (filter (prediction_test sentence model_name) (predictions st))
    as [|p0 [|p1 l]] eqn:F.
  - destruct (too_long enforce_max_length 20 model_name); [discriminate|].
    injection H as E. subst st1.
    set (p := mkPrediction (next_id st) sentence model_name text None (clock st)).
    assert (Hfresh : ~ In (next_id st) (map m_id (predictions st))).
    { intros Hin. apply in_map_iff in Hin as (q & Hq & Hin).
      rewrite Forall_forall in W6. specialize (W6 q Hin). lia. }
    split; [split; [|split]|reflexivity].
    + constructor; cbn [reviews sentences predictions next_id clock].
      * assumption.
      * assumption.
      * rewrite map_app. now apply NoDup_app_one.
      * eapply Forall_impl; [|exact W4]. simpl. intros; lia.
      * eapply Forall_impl; [|exact W5]. simpl. intros; lia.
      * apply Forall_app. split.
        -- eapply Forall_impl; [|exact W6]. simpl. intros; lia.
        -- constructor; [simpl; lia | constructor].
      * assumption.
      * assumption.
      * rewrite map_app. apply NoDup_app_one; [assumption|].
        eapply filter_nil_key; [apply prediction_test_spec | exact F].
    + unfold extends. cbn [reviews sentences predictions next_id clock].
      split; [|split; [|split; [|split]]]; try lia; try apply same_prefix.
      exists [prediction_identity p]. now rewrite map_app.
    + intros (R1 & R2). split; cbn [reviews sentences predictions]; [assumption|].
      rewrite map_app. apply incl_app; [assumption|].
      intros k [<-|[]]. exact Hs.
  - injection H as E. subst st1.
    destruct (filter_singleton_In _ _ _ _ F) as [Hin Ht].
    set (p' := mkPrediction (m_id p0) (m_sentence p0) (m_model_name p0) text None
                            (m_created_at p0)).
    change (map (fun q => if m_id q =? m_id p0 then p' else q) (predictions st))
      with (replace_pk m_id p' (predictions st)).
    assert (Hlt0 : m_id p0 < next_id st /\ m_sentence p0 < next_id st)
      by (rewrite Forall_forall in W6; now apply W6).
    split; [split; [|split]|reflexivity].
    + constructor; cbn [reviews sentences predictions next_id clock];
        try assumption.
      * now rewrite replace_pk_pks.
      * apply replace_pk_Forall; assumption.
      * rewrite (@replace_pk_keys _ m_id _ prediction_key p0 p'); auto.
    + unfold extends. cbn [reviews sentences predictions next_id clock].
      split; [|split; [|split; [|split]]]; try lia; try apply same_prefix.
      rewrite (@replace_pk_keys _ m_id _ prediction_identity p0 p'); auto.
      apply same_prefix.
    + intros (R1 & R2). split; cbn [reviews sentences predictions]; [assumption|].
      rewrite (@replace_pk_keys _ m_id _ m_sentence p0 p'); auto.
  - discriminate.
Qed.

Lemma upsert_predictions_kept (sentence : nat) (data : list (pystr * cell)) :
  forall st st1,
    wf_store st -> In sentence (map s_id (sentences st)) ->
    upsert_predictions enforce_max_length sentence data st = Ok (tt, st1) ->
    kept st st1.
Proof.
  induction data as [|[model c] data IH]; intros st st1 Hwf Hs H.
  - injection H as <-. now apply kept_refl.
  - cbn [upsert_predictions] in H.
    apply bind_ok in H as ([] & st2 & H1 & H2).
    assert (K : kept st st2 /\ sentences st2 = sentences st).
    { unfold upsert_prediction in H1. destruct c as [s|].
      - destruct (truthy s && truthy (strip s)).
        + now apply (Prediction_update_or_create_kept sentence model s).
        + injection H1 as <-. split; [now apply kept_refl | reflexivity].
      - injection H1 as <-. split; [now apply kept_refl | reflexivity]. }
    destruct K as (K & Es).
    apply (kept_trans _ st2); [exact K|].
    apply IH; [apply K | now rewrite Es | exact H2].
Qed.

Lemma _process_single_row_kept (row : Series) (st st' : Store) :
  wf_store st ->
  _process_single_row enforce_max_length row st = Ok (tt, st') ->
  kept st st'.
Proof.
  intros Hwf H. unfold _process_single_row in H.
  apply bind_ok in H as (review_id & st0 & H0 & H).
  assert (st0 = st) as ->.
  { unfold lift in H0. destruct (getitem row (py "review_id")); [|discriminate].
    now injection H0. }
  clear H0.
  apply bind_ok in H as ([review created] & st1 & H1 & H).
  destruct (Review_get_or_create_kept _ _ _ _ _ _ Hwf H1) as (K1 & Hin1).
  apply bind_ok in H as ([] & st2 & H2 & H).
  assert (K2 : kept st1 st2 /\ map r_id (reviews st2) = map r_id (reviews st1)).
  { destruct (negb created && cell_truthy (get row (py "review_text") None)).
    - apply bind_ok in H2 as (text & st1' & Ht & H2).
      assert (st1' = st1) as ->.
      { unfold lift in Ht. destruct (getitem row (py "review_text")); [|discriminate].
        now injection Ht. }
      destruct (negb (cell_eqb (Some (r_review_text review)) text)).
      + apply bind_ok in H2 as (r' & st2' & Hs & H2).
        injection H2 as <-.
        apply (Review_save_kept review r' text); [apply K1 | exact Hin1 | exact Hs].
      + injection H2 as <-. split; [apply kept_refl; apply K1 | reflexivity].
    - injection H2 as <-. split; [apply kept_refl; apply K1 | reflexivity]. }
  destruct K2 as (K2 & Er).
  apply bind_ok in H as (sentence_id & st2' & H3 & H).
  assert (st2' = st2) as ->.
  { unfold lift in H3. destruct (getitem row (py "sentence_id")); [|discriminate].
    now injection H3. }
  clear H3.
  apply bind_ok in H as (review_sentence & st2' & H3 & H).
  assert (st2' = st2) as ->.
  { unfold lift in H3. destruct (getitem row (py "review_sentence")); [|discriminate].
    now injection H3. }
  clear H3.
  cbv zeta in H.
  apply bind_ok in H as ([sentence created'] & st3 & H4 & H).
  assert (Hr2 : In (r_id review) (map r_id (reviews st2))).
  { rewrite Er. now apply in_map. }
  destruct (Sentence_get_or_create_kept _ _ _ _ _ _ _ _ _ _ (proj1 K2) Hr2 H4)
    as (K3 & Hin3 & _).
  apply bind_ok in H as ([] & st4 & H5 & H).
  assert (K4 : kept st3 st4 /\ map s_id (sentences st4) = map s_id (sentences st3)).
  { destruct (negb created').
    - match type of H5 with
      | (if ?b then _ else _) _ = _ => destruct b
      end.
      + apply (Sentence_save_kept sentence _ _ _ _ _ _ (proj1 K3) Hin3 H5).
      + injection H5 as <-. split; [apply kept_refl; apply K3 | reflexivity].
    - injection H5 as <-. split; [apply kept_refl; apply K3 | reflexivity]. }
  destruct K4 as (K4 & Es).
  assert (K5 : kept st4 st').
  { apply (upsert_predictions_kept (s_id sentence) (model_data row)).
    - apply K4.
    - rewrite Es. now apply in_map.
    - exact H. }
  apply (kept_trans _ st1); [exact K1|].
  apply (kept_trans _ st2); [exact K2|].
  apply (kept_trans _ st3); [exact K3|].
  apply (kept_trans _ st4); [exact K4 | exact K5].
Qed.

End Kept.

Section KeptByTheRun.

Variable tokenize : pystr -> pystr -> option nat -> parse_outcome.
Variable enforce_max_length : bool.

Lemma process_row_kept (w : World) (ir : nat * Series) :
  wf_store (store w) ->
  kept (store w) (store (process_row enforce_max_length w ir)).
Proof.
  intros Hwf. unfold process_row. destruct ir as [index row].
  destruct (_process_single_row enforce_max_length row (store w))
    as [[[] st']|e] eqn:H; cbn [store with_self].
  - now apply (_process_single_row_kept enforce_max_length row).
  - now apply kept_refl.
Qed.

Lemma fold_process_row_kept (rows : list (nat * Series)) :
  forall w, wf_store (store w) ->
            kept (store w) (store (fold_left (process_row enforce_max_length) rows w)).
Proof.
  induction rows as [|r rows IH]; intros w Hwf; cbn [fold_left].
  - now apply kept_refl.
  - pose proof (process_row_kept w r Hwf) as K.
    apply (kept_trans _ _ _ K). apply IH. apply K.
Qed.

(** The store a run leaves: the store it found when it fails, and
    otherwise the one the rows of the cleaned table, processed in their
    order, lead to. *)
Lemma process_csv_file_store (w : World) (f : file) :
  store (snd (process_csv_file tokenize enforce_max_length w f))
  = match fst (prepare tokenize w f) with
    | Ok df => store (fold_left (process_row enforce_max_length) (iterrows df)
                                (snd (prepare tokenize w f)))
    | Raise _ => store w
    end.
Proof.
  pose proof (@prepare_spec tokenize w f) as P. cbv zeta in P.
  destruct P as (Hst & _).
  unfold process_csv_file.
  destruct (prepare tokenize w f) as [[df|e] w'] eqn:Hp; cbn [fst snd] in *.
  - unfold finish. cbn [snd save_upload_log set_upload_log with_self store].
    apply (process_batches_flat enforce_max_length df w').
  - unfold run_failed. cbn [snd save_upload_log set_upload_log with_self store].
    exact Hst.
Qed.

Lemma process_csv_file_kept (w : World) (f : file) :
  wf_store (store w) ->
  kept (store w) (store (snd (process_csv_file tokenize enforce_max_length w f))).
Proof.
  intros Hwf. rewrite process_csv_file_store.
  pose proof (@prepare_spec tokenize w f) as P. cbv zeta in P.
  destruct P as (Hst & _).
  destruct (fst (prepare tokenize w f)) as [df|e].
  - rewrite <- Hst. apply fold_process_row_kept. now rewrite Hst.
  - now apply kept_refl.
Qed.

End KeptByTheRun.

Lemma references_ok_empty_store : references_ok empty_store.
Proof. split; intros x []. Qed.

(** X7 ([process_csv_file] on the three tables, through [get_or_create]
    and [update_or_create]).  Whatever the file, a run keeps the store
    well formed: primary keys stay unique, there is still one review per
    [review_id], one sentence per review and [sentence_id], one prediction
    per sentence and model.  It keeps referential integrity too: every
    sentence belongs to a stored review and every prediction to a stored
    sentence. *)
Theorem ingestion_keeps_keys_unique_and_references_valid
        (tokenize : pystr -> pystr -> option nat -> parse_outcome)
        (enforce_max_length : bool) (log : DataUploadLog) (st : Store) (f : file) :
  wf_store st ->
  wf_store (store_after_run tokenize enforce_max_length log st f)
  /\ (references_ok st ->
      references_ok (store_after_run tokenize enforce_max_length log st f)).
Proof.
  intros Hwf. unfold store_after_run.
  destruct (process_csv_file_kept tokenize enforce_max_length (start log st) f Hwf)
    as (W & _ & R).
  split; assumption.
Qed.

Lemma ingestion_keeps_keys_unique_and_references_valid_witness :
  wf_store (store_after_run SimpleCsv.tokenize true new_upload_log empty_store
                            file_with_two_texts)
  /\ references_ok (store_after_run SimpleCsv.tokenize true new_upload_log
                                    empty_store file_with_two_texts).
Proof.
  destruct (ingestion_keeps_keys_unique_and_references_valid
              SimpleCsv.tokenize true new_upload_log empty_store
              file_with_two_texts wf_empty_store) as (W & R).
  split; [exact W | exact (R references_ok_empty_store)].
Defined.

(** X8 ([process_csv_file]: no [delete], and [save] on the record
    found).  A run deletes nothing and re-keys nothing: each table holds
    afterwards the records it held before, in their order and each with
    its primary key, its lookup values ([review_id]; review and
    [sentence_id]; sentence and [model_name]) and its creation time,
    followed by the records the run created. *)
Theorem ingestion_only_appends_and_updates_in_place
        (tokenize : pystr -> pystr -> option nat -> parse_outcome)
        (enforce_max_length : bool) (log : DataUploadLog) (st : Store) (f : file) :
  wf_store st ->
  extends st (store_after_run tokenize enforce_max_length log st f).
Proof.
  intros Hwf. unfold store_after_run.
  apply (process_csv_file_kept tokenize enforce_max_length (start log st) f Hwf).
Qed.

Lemma ingestion_only_appends_and_updates_in_place_witness :
  extends (store (snd two_texts_first_run))
          (store_after_run SimpleCsv.tokenize true new_upload_log
                           (store (snd two_texts_first_run)) file_with_two_texts).
Proof.
  apply (ingestion_only_appends_and_updates_in_place
           SimpleCsv.tokenize true new_upload_log (store (snd two_texts_first_run))
           file_with_two_texts).
  unfold two_texts_first_run.
  exact (proj1 (process_csv_file_kept SimpleCsv.tokenize true
                  (start new_upload_log empty_store) file_with_two_texts
                  wf_empty_store)).
Defined.

(** ** A run that fails *)


Lemma _read_csv_returns (tokenize : pystr -> pystr -> option nat -> parse_outcome)
      (p p' : CSVProcessor) (f : file) (sep : pystr) (df : DataFrame) :
  _read_csv tokenize p f sep = (Ok df, p') ->
  exists enc, p' = _add_log p (read_message enc).
Proof.
  unfold _read_csv.
  destruct (fst (read_loop tokenize f sep candidate_encodings)) as [df0 enc|e0|];
    [|discriminate|discriminate].
  intros H; injection H as <- <-. now exists enc.
Qed.




(** ** Rows that cannot be stored *)





(** ** The processing log of a completed run *)

Lemma range_from_length (b : nat) :
  0 < b ->
  forall fuel start stop,
    stop - start <= fuel ->
    length (range_from fuel start stop b) = (stop - start + (b - 1)) / b.
Proof.
  intros Hb. induction fuel as [|fuel IH]; intros start stop Hf.
  - replace (stop - start) with 0 by lia. simpl.
    symmetry. apply Nat.div_small. lia.
  - cbn [range_from]. destruct (start <? stop) eqn:L.
    + apply Nat.ltb_lt in L. cbn [length]. rewrite IH by lia.
      replace (stop - start + (b - 1)) with ((stop - start - 1) + 1 * b) by lia.
      rewrite Nat.div_add by lia.
      destruct (le_lt_dec b (stop - start)) as [Hge|Hlt].
      * replace (stop - (start + b) + (b - 1)) with (stop - start - 1) by lia. lia.
      * replace (stop - (start + b)) with 0 by lia.
        rewrite (Nat.div_small (0 + (b - 1))) by lia.
        rewrite (Nat.div_small (stop - start - 1)) by lia. reflexivity.
    + apply Nat.ltb_ge in L. replace (stop - start) with 0 by lia. simpl.
      symmetry. apply Nat.div_small. lia.
Qed.

Lemma logs_added_refl (w : World) : logs_added 0 w w.
Proof. exists []. rewrite app_nil_r. repeat split. Qed.

Lemma logs_added_trans (n m : nat) (a b c : World) :
  logs_added n a b -> logs_added m b c -> logs_added (n + m) a c.
Proof.
  intros (l & E & R & B) (k & E' & R' & B').
  exists (l ++ k). rewrite E', E, app_assoc, !filter_app, !length_app.
  repeat split; lia.
Qed.

Section LogFacts.

Variable enforce_max_length : bool.

Lemma process_row_logs (w : World) (ir : nat * Series) :
  logs_added 0 w (process_row enforce_max_length w ir).
Proof.
  unfold process_row, logs_added. destruct ir as [index row].
  destruct (_process_single_row enforce_max_length row (store w)) as [[u st']|e].
  - exists []. cbn [self p_processing_log p_failed_rows].
    rewrite app_nil_r. repeat split.
  - exists [row_error_message index e].
    cbn [self with_self _add_log p_processing_log p_failed_rows].
    split; [reflexivity|]. split; [|reflexivity].
    replace (is_row_error (row_error_message index e)) with true
      by reflexivity.
    cbn [filter].
    replace (is_row_error (row_error_message index e)) with true by reflexivity.
    cbn [length]. lia.
Qed.

Lemma fold_process_row_logs (rows : list (nat * Series)) :
  forall w, logs_added 0 w (fold_left (process_row enforce_max_length) rows w).
Proof.
  induction rows as [|r rows IH]; intros w; cbn [fold_left].
  - apply logs_added_refl.
  - apply (logs_added_trans 0 0 w (process_row enforce_max_length w r));
      [apply process_row_logs | apply IH].
Qed.

Lemma _process_batch_logs (w : World) (batch_df : DataFrame) (n : nat) :
  logs_added 1 w (_process_batch enforce_max_length w batch_df n).
Proof.
  unfold _process_batch.
  apply (logs_added_trans 1 0 w
           (with_self w (_add_log (self w)
                           (py "Processing batch starting at row " +++ of_nat n)))).
  - exists [py "Processing batch starting at row " +++ of_nat n].
    cbn [self with_self _add_log p_processing_log p_failed_rows].
    split; [reflexivity|]. split; reflexivity.
  - apply fold_process_row_logs.
Qed.

Lemma fold_process_batch_logs (df : DataFrame) (starts : list nat) :
  forall w,
    logs_added (length starts) w
      (fold_left (fun w i => _process_batch enforce_max_length w
                               (iloc i (i + batch_size) df) (i + 1))
                 starts w).
Proof.
  induction starts as [|i starts IH]; intros w; cbn [fold_left length].
  - apply logs_added_refl.
  - apply (logs_added_trans 1 (length starts) w
             (_process_batch enforce_max_length w (iloc i (i + batch_size) df) (i + 1)));
      [apply _process_batch_logs | apply IH].
Qed.

End LogFacts.

Lemma prepare_log (tokenize : pystr -> pystr -> option nat -> parse_outcome)
      (log : DataUploadLog) (st : Store) (f : file) (df : DataFrame) (w1 : World) :
  prepare tokenize (start log st) f = (Ok df, w1) ->
  exists enc rest,
    p_processing_log (self w1) = read_message enc :: rest
    /\ filter is_row_error (read_message enc :: rest) = []
    /\ filter is_batch_start (read_message enc :: rest) = [].
Proof.
  unfold prepare.
  set (w2 := save_upload_log (set_upload_log (start log st) _)).
  change (self w2) with (mkProc (in_processing log) [] 0 0).
  destruct (_read_csv tokenize (mkProc (in_processing log) [] 0 0) f (py ";"))
    as [[df0|e] p] eqn:R; [|discriminate].
  apply _read_csv_returns in R as (enc & ->).
  destruct (_clean_data _ df0) as [[df'|e] p'] eqn:C; [|discriminate].
  apply _clean_data_log in C. intros H. injection H as E1 E2. subst df' w1.
  exists enc.
  assert (Hr : is_row_error (read_message enc) = false)
    by (destruct enc; reflexivity).
  assert (Hb : is_batch_start (read_message enc) = false)
    by (destruct enc; reflexivity).
  subst p'. destruct (0 <? len df0 - len df).
  - exists [dropped_message (len df0 - len df)].
    cbn [self save_upload_log set_upload_log with_self _add_log p_processing_log
         app filter].
    rewrite Hr, Hb. repeat split.
  - exists [].
    cbn [self save_upload_log set_upload_log with_self _add_log p_processing_log
         app filter].
    rewrite Hr, Hb. repeat split.
Qed.

(** X11 ([process_csv_file], [_process_batch]: the log of a completed
    run).  The log a completed run returns opens with the line of the
    reader; it holds one line that starts with "Row " for each row counted
    as failed and one "Processing batch starting at row ..." line for each
    batch of up to 1000 rows, that is none for an empty table. *)
Theorem completed_run_logs_each_failure_and_each_batch
        (tokenize : pystr -> pystr -> option nat -> parse_outcome)
        (enforce_max_length : bool) (log : DataUploadLog) (st : Store) (f : file)
        (total ok bad : nat) (logs : list pystr) :
  fst (process_csv_file tokenize enforce_max_length (start log st) f)
  = Success total ok bad logs ->
  length (filter is_row_error logs) = bad
  /\ length (filter is_batch_start logs) = (total + (batch_size - 1)) / batch_size
  /\ exists enc, hd_error logs = Some (read_message enc).
Proof.
  unfold process_csv_file.
  pose proof (@prepare_spec tokenize (start log st) f) as P. cbv zeta in P.
  destruct P as (_ & _ & Pf & _).
  destruct (prepare tokenize (start log st) f) as [[df|x] w1] eqn:Hp;
    cbn [fst snd] in *; [|unfold run_failed; discriminate].
  unfold finish. cbn [fst]. intros H. injection H as <- _ <- <-.
  apply prepare_log in Hp as (enc & rest & El & Fr & Fb).
  destruct (fold_process_batch_logs enforce_max_length df
              (range 0 (len df) batch_size) w1) as (l & E & R & B).
  fold (process_batches enforce_max_length w1 df (len df)) in E, R.
  rewrite E, El.
  change (start log st) with (mkWorld (init log) st log []) in Pf.
  cbn [self init p_failed_rows] in Pf.
  split; [|split].
  - rewrite filter_app, Fr. cbn [app]. lia.
  - rewrite filter_app, Fb. cbn [app]. rewrite B.
    unfold range. rewrite (range_from_length batch_size) by (unfold batch_size; lia).
    now rewrite Nat.sub_0_r.
  - exists enc. reflexivity.
Qed.

Lemma completed_run_logs_each_failure_and_each_batch_witness :
  fst late_review_first_run
  = Success 2 1 1
      [read_message utf_8; py "Processing batch starting at row 1";
       py "Row 1: NOT NULL constraint failed: reviews.review_text"]
  /\ length (filter is_row_error
               [read_message utf_8; py "Processing batch starting at row 1";
                py "Row 1: NOT NULL constraint failed: reviews.review_text"])
     = 1.
Proof.
  split; [vm_compute; reflexivity|].
  apply (completed_run_logs_each_failure_and_each_batch
           SimpleCsv.tokenize true new_upload_log empty_store file_with_late_review
           2 1 1
           [read_message utf_8; py "Processing batch starting at row 1";
            py "Row 1: NOT NULL constraint failed: reviews.review_text"]).
  vm_compute. reflexivity.
Defined.

(** ** A row that meets records already stored *)

(** Runs the three steps of [row_program] on [st], naming what each
    specification gives. *)
Ltac run_steps e x st Hwf Hval :=
  destruct (review_step_spec e x st Hwf Hval)
    as (review & st1 & E1 & Hwf1 & Hs1 & Hp1 & Hlt1 & (r1 & F1 & Hid1 & Htext1)
        & Hoth1 & Hcase1);
  destruct (sentence_step_spec e x (r_id review) st1 Hwf1 Hval Hlt1)
    as (sentence & st2 & E2 & Hwf2 & Hr2 & Hp2 & Hlt2 & (s1 & F2 & Hid2 & Hf2)
        & Hoth2 & Hcase2);
  destruct (upsert_predictions_spec e (s_id sentence) (fields_model_data x)
              (fields_models_distinct x) (fields_models_short x) st2 Hwf2 Hlt2)
    as (st3 & E3 & Hwf3 & Hr3 & Hs3 & Hn3 & Hoth3 & Hst3 & Hnoop3 & Hnew3);
  assert (Erun : row_program e x st = Ok (tt, st3))
    by (unfold row_program, bind; rewrite E1, E2; exact E3).

Lemma same_length_no_suffix (A : Type) (l l' k : list A) :
  l' = l ++ k -> length l' = length l -> l' = l.
Proof.
  intros -> H. rewrite length_app in H.
  destruct k; [now rewrite app_nil_r | simpl in H; lia].
Qed.

(** X12 ([_process_single_row], the branch [if not created and
    row.get('review_text')]).  A valid row whose [review_id] is already
    stored with another text creates no second Review: the stored record
    takes the text of the row and keeps its primary key, its [review_id]
    and its creation time; every other review is untouched. *)
Theorem existing_review_text_is_overwritten_in_place
        (enforce_max_length : bool) (row : Series) (x : RowFields) (st : Store)
        (r0 : Review) :
  wf_store st -> valid_row row x ->
  filter (review_test (f_review_id x)) (reviews st) = [r0] ->
  exists st' r1,
    _process_single_row enforce_max_length row st = Ok (tt, st')
    /\ filter (review_test (f_review_id x)) (reviews st') = [r1]
    /\ review_identity r1 = review_identity r0
    /\ r_review_text r1 = f_review_text x
    /\ map review_identity (reviews st') = map review_identity (reviews st)
    /\ (forall r, In r (reviews st) -> r_review_id r <> f_review_id x ->
                  In r (reviews st')).
Proof.
  intros Hwf (Hfields & Hval) F0.
  run_steps enforce_max_length x st Hwf Hval.
  assert (Hrun : _process_single_row enforce_max_length row st = Ok (tt, st3))
    by (rewrite (@_process_single_row_fields enforce_max_length row x st Hfields);
        exact Erun).
  destruct (_process_single_row_kept enforce_max_length row st st3 Hwf Hrun)
    as (_ & ((l & El) & _) & _).
  destruct Hcase1 as [(F & _)|(r0' & F0' & Hr0 & _ & Hlen & _)]; [congruence|].
  assert (r0' = r0) by congruence. subst r0'.
  assert (Er : reviews st3 = reviews st1) by congruence.
  assert (Eid : map review_identity (reviews st3) = map review_identity (reviews st)).
  { apply (same_length_no_suffix _ _ _ l El).
    rewrite !length_map, Er. exact Hlen. }
  exists st3, r1. split; [exact Hrun|]. rewrite Er.
  split; [exact F1|]. split; [|split; [exact Htext1|split]].
  - destruct (filter_singleton_In _ _ _ _ F1) as [Hin1 _].
    destruct (filter_singleton_In _ _ _ _ F0) as [Hin0 _].
    assert (Hin : In (review_identity r1) (map review_identity (reviews st))).
    { rewrite <- Eid, Er. now apply in_map. }
    apply in_map_iff in Hin as (q & Hq & Hinq).
    assert (q = r0).
    { apply (pk_inj _ r_id (reviews st)); [apply Hwf | assumption | assumption |].
      unfold review_identity in Hq. injection Hq as Hq _ _. congruence. }
    subst q. now symmetry.
  - rewrite <- Er. exact Eid.
  - intros r Hin Hne.
    assert (Hf : In r (filter (review_test (r_review_id r)) (reviews st))).
    { apply filter_In. split; [assumption | now apply review_test_spec]. }
    rewrite <- (Hoth1 (r_review_id r) Hne) in Hf.
    now apply filter_In in Hf.
Qed.

Lemma existing_review_text_is_overwritten_in_place_witness :
  map r_review_text (reviews store_with_example) = [py "Great product"]
  /\ exists st' r1,
       _process_single_row true reworded_row store_with_example = Ok (tt, st')
       /\ filter (review_test (py "R1")) (reviews st') = [r1]
       /\ r_review_text r1 = py "Great product, really"
       /\ map review_identity (reviews st')
          = map review_identity (reviews store_with_example).
Proof.
  split; [vm_compute; reflexivity|].
  destruct (existing_review_text_is_overwritten_in_place
              true reworded_row reworded_fields store_with_example
              (mkReview 0 (py "R1") (py "Great product") 0 0))
    as (st' & r1 & E & F & _ & Ht & Eid & _).
  - unfold store_with_example, example_run.
    exact (proj1 (process_csv_file_kept SimpleCsv.tokenize true
                    (start new_upload_log empty_store) example_file wf_empty_store)).
  - split.
    + unfold has_fields. simpl. repeat split; reflexivity.
    + unfold valid_fields. simpl. repeat split; try lia. discriminate.
  - vm_compute. reflexivity.
  - exists st', r1. repeat split; assumption.
Defined.

Lemma filter_andb (A : Type) (P Q : A -> bool) (l : list A) :
  filter (fun a => P a && Q a) l = filter P (filter Q l).
Proof.
  induction l as [|a l IH]; simpl; [reflexivity|].
  destruct (Q a); simpl.
  - destruct (P a); simpl; now rewrite IH.
  - rewrite andb_false_r. exact IH.
Qed.

(** X13 ([_process_single_row] with [_create_model_predictions], on a
    sentence already stored).  When a valid row brings no prediction for a
    model, the stored sentence takes the row's null value in the column of
    that model, while the ModelPrediction record the sentence had for the
    model stays, with its text: after the row the two disagree. *)
Theorem blanked_prediction_keeps_its_record
        (enforce_max_length : bool) (row : Series) (x : RowFields) (st : Store)
        (r0 : Review) (s0 : ReviewSentence) (model column text : pystr) :
  wf_store st -> valid_row row x ->
  filter (review_test (f_review_id x)) (reviews st) = [r0] ->
  filter (sentence_test (r_id r0) (f_sentence_id x)) (sentences st) = [s0] ->
  In (model, column) model_columns ->
  blank (get row column None) ->
  stored_as st (s_id s0) model text ->
  exists st' s1,
    _process_single_row enforce_max_length row st = Ok (tt, st')
    /\ filter (sentence_test (r_id r0) (f_sentence_id x)) (sentences st') = [s1]
    /\ s_id s1 = s_id s0
    /\ raw_prediction column s1 = get row column None
    /\ stored_as st' (s_id s0) model text.
Proof.
  intros Hwf (Hfields & Hval) Fr Fs Hin Hb Hstored.
  run_steps enforce_max_length x st Hwf Hval.
  assert (Hrun : _process_single_row enforce_max_length row st = Ok (tt, st3))
    by (rewrite (@_process_single_row_fields enforce_max_length row x st Hfields);
        exact Erun).
  destruct Hcase1 as [(F & _)|(r0' & F0' & Hr0 & _ & _ & _)]; [congruence|].
  assert (r0' = r0) by congruence. subst r0'.
  rewrite <- Hr0 in *.
  assert (Fs1 : filter (sentence_test (r_id r0) (f_sentence_id x)) (sentences st1)
                = [s0]) by (rewrite Hs1; exact Fs).
  destruct Hcase2 as [(F & _)|(s0' & Fs0' & Hs0 & _ & _ & _)]; [congruence|].
  assert (s0' = s0) by congruence. subst s0'.
  exists st3, s1. split; [exact Hrun|]. rewrite Hs3.
  split; [exact F2|]. split; [congruence|]. split.
  - destruct Hfields as (_ & _ & _ & _ & Hg & Hge & Hp).
    destruct Hf2 as (_ & Hg' & Hge' & Hp').
    unfold model_columns in Hin. cbn [In] in Hin.
    destruct Hin as [E|[E|[E|[]]]]; injection E as <- <-.
    + change (raw_prediction (py "gpt4") s1) with (s_gpt4_prediction s1).
      congruence.
    + change (raw_prediction (py "Gemini flash 2.5") s1)
        with (s_gemini_prediction s1).
      congruence.
    + change (raw_prediction (py "perplexity") s1)
        with (s_perplexity_prediction s1).
      congruence.
  - assert (Hok : prediction_pks_ok st).
    { split; [apply Hwf|]. destruct Hwf as [_ _ _ _ _ W6 _ _ _].
      eapply Forall_impl; [|exact W6]. simpl. tauto. }
    destruct (@_process_single_row_frame enforce_max_length model row
                (model_data_frame row Hin Hb) st Hok tt st3 Hrun) as [_ Hsame].
    unfold same_model_records, predictions_of_model in Hsame.
    destruct Hstored as (p & Fp & Hp).
    exists p. split; [|exact Hp].
    unfold prediction_test in *.
    rewrite filter_andb in *. rewrite Hsame. exact Fp.
Qed.

Lemma blanked_prediction_keeps_its_record_witness :
  exists st' s1,
    _process_single_row true example_row store_with_three_predictions = Ok (tt, st')
    /\ filter (sentence_test 0 (py "R1-S1")) (sentences st') = [s1]
    /\ s_id s1 = 1
    /\ raw_prediction (py "perplexity") s1 = None
    /\ stored_as st' 1 (py "perplexity") (py "Negative").
Proof.
  apply (blanked_prediction_keeps_its_record
           true example_row example_fields store_with_three_predictions
           (mkReview 0 (py "R1") (py "Great product") 0 0)
           (mkSentence 1 0 (py "R1-S1") (py "It works well") (Some (py "Positive"))
                       (Some (py "Positive")) (Some (py "Negative")) 1 1)
           (py "perplexity") (py "perplexity") (py "Negative")).
  - unfold store_with_three_predictions, world_with_three_predictions.
    exact (proj1 (process_row_kept true (start new_upload_log empty_store)
                    (0, full_row) wf_empty_store)).
  - split.
    + unfold has_fields. simpl. repeat split; reflexivity.
    + unfold valid_fields. simpl. repeat split; try lia. discriminate.
  - vm_compute. reflexivity.
  - vm_compute. reflexivity.
  - unfold model_columns. cbn [In]. auto.
  - exact I.
  - unfold stored_as. eexists. split; [vm_compute; reflexivity|].
    split; reflexivity.
Defined.

(** ** Rows without a review text *)

Ltac sentence_tail :=
  match goal with
  | |- context [Sentence_get_or_create ?a ?b ?c ?d ?e ?f ?g ?s] =>
      destruct (Sentence_get_or_create a b c d e f g s) as [[[? ?] ?]|?];
      [|reflexivity]
  end;
  match goal with
  | |- context [if negb ?c then _ else _] => destruct (negb c); [|reflexivity]
  end;
  match goal with
  | |- context [if ?b then Sentence_save _ _ _ _ _ else _] =>
      destruct b; [|reflexivity]
  end;
  match goal with
  | |- context [Sentence_save ?a ?b ?c ?d ?e ?s] =>
      destruct (Sentence_save a b c d e s) as [[? ?]|?]
  end;
  reflexivity.

Lemma _process_single_row_parts (enforce_max_length : bool) (row : Series)
      (x : RowFields) (st : Store) :
  has_sentence_fields row x ->
  _process_single_row enforce_max_length row st
  = (review <- review_part enforce_max_length row (f_review_id x) ;;
     sentence <- sentence_step enforce_max_length x (r_id review) ;;
     upsert_predictions enforce_max_length (s_id sentence) (fields_model_data x)) st.
Proof.
  intros (Hrid & Hsid & Hsent & Hg & Hge & Hp).
  unfold _process_single_row, review_part, sentence_step,
    _create_model_predictions, model_data, fields_model_data.
  rewrite Hrid, Hsid, Hsent, Hg, Hge, Hp.
  cbn [cell_eqb]. unfold bind, lift, ret.
  destruct (Review_get_or_create enforce_max_length (Some (f_review_id x))
              (get row (py "review_text") (Some [])) st)
    as [[[review created] st1]|e]; [|reflexivity].
  destruct (negb created && cell_truthy (get row (py "review_text") None));
    [|sentence_tail].
  destruct (getitem row (py "review_text")) as [[t|]|e]; [| |reflexivity].
  - destruct (negb (eqb (r_review_text review) t)); [|sentence_tail].
    destruct (Review_save review (Some t) st1) as [[r' st2]|e]; [|reflexivity].
    sentence_tail.
  - reflexivity.
Qed.

(** The sentence and the predictions of a row, once its review is known. *)
Lemma sentence_and_predictions (enforce_max_length : bool) (x : RowFields)
      (review : nat) (st : Store) :
  wf_store st -> ids_fit x -> review < next_id st ->
  exists sentence st1 st2,
    sentence_step enforce_max_length x review st = Ok (sentence, st1)
    /\ upsert_predictions enforce_max_length (s_id sentence) (fields_model_data x) st1
       = Ok (tt, st2)
    /\ reviews st2 = reviews st.
Proof.
  intros Hwf (Hr & Hs) Hlt.
  assert (Hval : valid_fields (with_some_text x)).
  { unfold valid_fields, with_some_text. cbn [f_review_id f_sentence_id f_review_text].
    repeat split; try assumption. discriminate. }
  destruct (sentence_step_spec enforce_max_length (with_some_text x) review st
              Hwf Hval Hlt)
    as (sentence & st1 & E1 & Hwf1 & Hr1 & _ & Hlt1 & _).
  destruct (upsert_predictions_spec enforce_max_length (s_id sentence)
              (fields_model_data (with_some_text x))
              (fields_models_distinct _) (fields_models_short _) st1 Hwf1 Hlt1)
    as (st2 & E2 & _ & Hr2 & _).
  exists sentence, st1, st2. split; [exact E1|]. split; [exact E2|]. congruence.
Qed.

(** X14 ([_process_single_row]: [defaults={'review_text':
    row.get('review_text', '')}] when the cell is null).  A row whose
    [review_text] cell is null and whose [review_id] is not stored yet is
    rejected with an [IntegrityError]: the review cannot be created
    without a text.  The row is counted as failed and nothing of it is
    stored, its sentence and its predictions included. *)
Theorem new_review_with_null_text_is_rejected
        (enforce_max_length : bool) (w : World) (index : nat) (row : Series)
        (rid : pystr) :
  getitem row (py "review_id") = Ok (Some rid) ->
  getitem row (py "review_text") = Ok None ->
  length rid <= 100 ->
  filter (review_test rid) (reviews (store w)) = [] ->
  let w' := process_row enforce_max_length w (index, row) in
  (exists m, _process_single_row enforce_max_length row (store w)
             = Raise (IntegrityError m))
  /\ store w' = store w
  /\ p_failed_rows (self w') = p_failed_rows (self w) + 1
  /\ p_successful_rows (self w') = p_successful_rows (self w).
Proof.
  intros Hrid Htext Hlen F.
  assert (E : _process_single_row enforce_max_length row (store w)
              = Raise (not_null "reviews.review_text")).
  { unfold _process_single_row. rewrite Hrid.
    rewrite (@getitem_get row (py "review_text") None (Some []) Htext).
    unfold bind at 1. unfold lift. unfold bind at 1.
    unfold Review_get_or_create.
    change (fun r => matches (r_review_id r) (Some rid)) with (review_test rid).
    rewrite F. reflexivity. }
  cbv zeta. unfold process_row. rewrite E.
  cbn [store self with_self _add_log p_successful_rows p_failed_rows].
  split; [eexists; reflexivity | repeat split].
Qed.

Lemma new_review_with_null_text_is_rejected_witness :
  store (process_row true (start new_upload_log empty_store) (0, row_with_null_text))
  = empty_store
  /\ p_failed_rows
       (self (process_row true (start new_upload_log empty_store)
                          (0, row_with_null_text)))
     = 1.
Proof.
  destruct (new_review_with_null_text_is_rejected
              true (start new_upload_log empty_store) 0 row_with_null_text (py "R1")
              eq_refl eq_refl) as (_ & Hs & Hf & _).
  - simpl. lia.
  - reflexivity.
  - split; [exact Hs | exact Hf].
Defined.

(** X15 ([_process_single_row]: [row.get('review_text', '')] on a table
    without that column).  When the table has no [review_text] column, a
    row whose [review_id] is not stored yet creates the review with the
    empty string as its text, and the row goes through; the empty default
    is used in this case only. *)
Theorem missing_review_text_column_stores_an_empty_text
        (enforce_max_length : bool) (row : Series) (x : RowFields) (st : Store) :
  wf_store st -> has_sentence_fields row x -> ids_fit x ->
  has_column (py "review_text") (s_index row) = false ->
  filter (review_test (f_review_id x)) (reviews st) = [] ->
  exists st',
    _process_single_row enforce_max_length row st = Ok (tt, st')
    /\ reviews st'
       = reviews st ++ [mkReview (next_id st) (f_review_id x) [] (clock st) (clock st)].
Proof.
  intros Hwf Hfields Hfit Hcol F.
  rewrite (_process_single_row_parts enforce_max_length row x st Hfields).
  set (r := mkReview (next_id st) (f_review_id x) [] (clock st) (clock st)).
  set (st1 := mkStore (reviews st ++ [r]) (sentences st) (predictions st)
                      (S (next_id st)) (S (clock st))).
  assert (Hg : Review_get_or_create enforce_max_length (Some (f_review_id x))
                 (Some []) st = Ok ((r, true), st1)).
  { unfold Review_get_or_create.
    change (fun r => matches (r_review_id r) (Some (f_review_id x)))
      with (review_test (f_review_id x)).
    rewrite F. unfold bind, Review_create, ret.
    rewrite (too_long_false _ _ _ (proj1 Hfit)). reflexivity. }
  assert (E1 : review_part enforce_max_length row (f_review_id x) st = Ok (r, st1)).
  { unfold review_part, get. rewrite Hcol. unfold bind at 1. rewrite Hg.
    reflexivity. }
  destruct (Review_get_or_create_kept enforce_max_length _ _ _ _ _ _ Hwf Hg)
    as ((Hwf1 & _) & _).
  destruct (sentence_and_predictions enforce_max_length x (r_id r) st1 Hwf1 Hfit)
    as (sentence & st2 & st3 & E2 & E3 & Hr); [cbn; lia|].
  exists st3. split; [|exact Hr].
  unfold bind. rewrite E1, E2. exact E3.
Qed.

Lemma missing_review_text_column_stores_an_empty_text_witness :
  exists st',
    _process_single_row true row_without_text_column empty_store = Ok (tt, st')
    /\ reviews st' = [mkReview 0 (py "R7") [] 0 0].
Proof.
  apply (missing_review_text_column_stores_an_empty_text
           true row_without_text_column fields_without_text_column empty_store).
  - exact wf_empty_store.
  - unfold has_sentence_fields. simpl. repeat split; reflexivity.
  - unfold ids_fit. simpl. lia.
  - reflexivity.
  - reflexivity.
Defined.

(** X16 ([_process_single_row]: [if not created and
    row.get('review_text')]).  A row without review text, be the cell
    null, empty or the column absent, never erases the text of a review
    that is already stored: the row goes through and the reviews are
    exactly as before it. *)
Theorem row_without_review_text_keeps_the_stored_review
        (enforce_max_length : bool) (row : Series) (x : RowFields) (st : Store)
        (r0 : Review) :
  wf_store st -> has_sentence_fields row x -> ids_fit x ->
  cell_truthy (get row (py "review_text") None) = false ->
  filter (review_test (f_review_id x)) (reviews st) = [r0] ->
  exists st',
    _process_single_row enforce_max_length row st = Ok (tt, st')
    /\ reviews st' = reviews st.
Proof.
  intros Hwf Hfields Hfit Hblank F.
  rewrite (_process_single_row_parts enforce_max_length row x st Hfields).
  assert (E1 : review_part enforce_max_length row (f_review_id x) st = Ok (r0, st)).
  { unfold review_part. unfold bind at 1. unfold Review_get_or_create.
    change (fun r => matches (r_review_id r) (Some (f_review_id x)))
      with (review_test (f_review_id x)).
    rewrite F, Hblank. reflexivity. }
  assert (Hlt : r_id r0 < next_id st).
  { destruct (filter_singleton_In _ _ _ _ F) as [Hin _].
    destruct Hwf as [_ _ _ W4 _ _ _ _ _]. rewrite Forall_forall in W4.
    now apply W4. }
  destruct (sentence_and_predictions enforce_max_length x (r_id r0) st Hwf Hfit Hlt)
    as (sentence & st2 & st3 & E2 & E3 & Hr).
  exists st3. split; [|exact Hr].
  unfold bind. rewrite E1, E2. exact E3.
Qed.

Lemma row_without_review_text_keeps_the_stored_review_witness :
  exists st',
    _process_single_row true row_with_null_text store_with_example = Ok (tt, st')
    /\ reviews st' = reviews store_with_example.
Proof.
  apply (row_without_review_text_keeps_the_stored_review
           true row_with_null_text example_fields store_with_example
           (mkReview 0 (py "R1") (py "Great product") 0 0)).
  - unfold store_with_example, example_run.
    exact (proj1 (process_csv_file_kept SimpleCsv.tokenize true
                    (start new_upload_log empty_store) example_file wf_empty_store)).
  - unfold has_sentence_fields. simpl. repeat split; reflexivity.
  - unfold ids_fit. simpl. lia.
  - reflexivity.
  - vm_compute. reflexivity.
Defined.

(* ===================================================================== *)
(** * The cleanup command *)
(* ===================================================================== *)

Lemma NoDup_map_filter (A B : Type) (f : A -> B) (P : A -> bool) (l : list A) :
  NoDup (map f l) -> NoDup (map f (filter P l)).
Proof.
  induction l as [|a l IH]; simpl; intros H; [constructor|].
  inversion H as [|? ? Hn Hd]; subst.
  destruct (P a); simpl; [|now apply IH].
  constructor; [|now apply IH].
  intros Hin. apply Hn. apply in_map_iff in Hin as (b & E & Hb).
  apply in_map_iff. exists b. split; [exact E|]. now apply filter_In in Hb.
Qed.

Lemma Forall_filter (A : Type) (Q : A -> Prop) (P : A -> bool) (l : list A) :
  Forall Q l -> Forall Q (filter P l).
Proof.
  intros H. apply Forall_forall. intros a Ha. apply filter_In in Ha as [Ha _].
  rewrite Forall_forall in H. now apply H.
Qed.

Lemma filter_length_split (A : Type) (P : A -> bool) (l : list A) :
  length (filter (fun a => negb (P a)) l) + length (filter P l) = length l.
Proof.
  induction l as [|a l IH]; simpl; [reflexivity|].
  destruct (P a); simpl; lia.
Qed.

Lemma filter_all (A : Type) (P : A -> bool) (l : list A) :
  (forall a, In a l -> P a = true) -> filter P l = l.
Proof.
  induction l as [|a l IH]; simpl; intros H; [reflexivity|].
  rewrite (H a) by now left. f_equal. apply IH. intros b Hb. apply H. now right.
Qed.

Lemma filter_comm (A : Type) (P Q : A -> bool) (l : list A) :
  filter P (filter Q l) = filter Q (filter P l).
Proof.
  induction l as [|a l IH]; simpl; [reflexivity|].
  destruct (P a) eqn:Ep, (Q a) eqn:Eq; simpl; rewrite ?Ep, ?Eq, IH; reflexivity.
Qed.

(** A foreign key survives the deletion exactly when its sentence does. *)
Lemma stays_spec (doomed : ReviewSentence -> bool) (l : list ReviewSentence)
      (k : nat) :
  negb (existsb (Nat.eqb k) (map s_id (filter doomed l))) = true ->
  In k (map s_id l) ->
  In k (map s_id (filter (fun s => negb (doomed s)) l)).
Proof.
  intros Hst Hin. apply in_map_iff in Hin as (s & Es & Hs).
  apply in_map_iff. exists s. split; [exact Es|].
  apply filter_In. split; [exact Hs|].
  destruct (doomed s) eqn:D; [|reflexivity].
  exfalso. apply negb_true_iff in Hst.
  assert (Hex : existsb (Nat.eqb k) (map s_id (filter doomed l)) = true).
  { apply existsb_exists. exists (s_id s). split.
    - apply in_map. apply filter_In. now split.
    - subst k. apply Nat.eqb_refl. }
  congruence.
Qed.

Lemma delete_sentences_ok (doomed : ReviewSentence -> bool) (db : Database) :
  database_ok db -> database_ok (cleanup_data.delete_sentences doomed db).
Proof.
  intros ([W1 W2 W3 W4 W5 W6 W7 W8 W9] & (R1 & R2) & (E1 & E2)).
  unfold cleanup_data.delete_sentences, database_ok, references_ok, evaluations_ok.
  cbn [entities users evaluations sessions reviews sentences predictions next_id].
  split; [|split; split].
  - constructor; cbn [reviews sentences predictions next_id]; try assumption.
    + now apply NoDup_map_filter.
    + now apply NoDup_map_filter.
    + now apply Forall_filter.
    + now apply Forall_filter.
    + now apply NoDup_map_filter.
    + now apply NoDup_map_filter.
  - intros k Hk. apply R1. apply in_map_iff in Hk as (s & Es & Hs).
    apply in_map_iff. exists s. split; [exact Es|]. now apply filter_In in Hs.
  - intros k Hk. apply in_map_iff in Hk as (p & Ep & Hp).
    apply filter_In in Hp as (Hp & Hst). subst k.
    apply (stays_spec doomed _ _ Hst). apply R2. now apply in_map.
  - intros k Hk. apply in_map_iff in Hk as (h & Eh & Hh).
    apply filter_In in Hh as (Hh & Hst). subst k.
    apply (stays_spec doomed _ _ Hst). apply E1. now apply in_map.
  - intros k Hk. apply E2. apply in_map_iff in Hk as (h & Eh & Hh).
    apply in_map_iff. exists h. split; [exact Eh|]. now apply filter_In in Hh.
Qed.

(** X17 ([cleanup_data.Command.handle], with the [on_delete=CASCADE]
    foreign keys of [core/models.py]).  The cleanup keeps the database
    consistent: keys stay unique, and no prediction and no evaluation is
    left that refers to a deleted sentence, the predictions and the
    evaluations of a deleted sentence being deleted with it. *)
Theorem cleanup_keeps_the_database_consistent
        (dry_run : bool) (now : Z) (db : Database) :
  database_ok db ->
  database_ok (snd (cleanup_data.handle dry_run now db)).
Proof.
  intros Hok. unfold cleanup_data.handle. destruct dry_run; cbn [snd].
  - exact Hok.
  - apply (delete_sentences_ok cleanup_data.empty_sentence) in Hok.
    destruct Hok as (W & R & E). unfold database_ok, evaluations_ok in *.
    unfold cleanup_data.delete_sessions. cbn [entities users evaluations].
    auto.
Qed.

Lemma example_database_ok : database_ok example_database.
Proof.
  split; [|split; split].
  - constructor; cbn;
      repeat (constructor; [cbn; intuition (try discriminate; try lia)|]);
      constructor.
  - intros k Hk. cbn in *. intuition.
  - intros k Hk. cbn in *. intuition.
  - intros k Hk. cbn in *. intuition.
  - intros k Hk. cbn in *. intuition.
Qed.

Lemma cleanup_keeps_the_database_consistent_witness :
  database_ok (snd (cleanup_data.handle false example_now example_database))
  /\ map m_id (predictions
                 (entities (snd (cleanup_data.handle false example_now
                                                     example_database))))
     = [2; 3]
  /\ map h_id (evaluations (snd (cleanup_data.handle false example_now
                                                     example_database)))
     = [0].
Proof.
  split; [|split; reflexivity].
  apply (cleanup_keeps_the_database_consistent false example_now example_database).
  exact example_database_ok.
Defined.

Lemma filter_negb_twice (A : Type) (P : A -> bool) (l : list A) :
  filter P (filter (fun a => negb (P a)) l) = [].
Proof.
  apply filter_none. intros a Ha. apply filter_In in Ha as [_ Ha].
  now apply negb_true_iff in Ha.
Qed.

Lemma filter_idem (A : Type) (P : A -> bool) (l : list A) :
  filter P (filter P l) = filter P l.
Proof. apply filter_all. intros a Ha. now apply filter_In in Ha. Qed.

(** X18 ([cleanup_data.Command.handle], run twice).  A second cleanup at
    the same time deletes nothing: it reports no sentence and no session,
    and leaves the database as the first one left it. *)
Theorem cleanup_twice_deletes_nothing_more (now : Z) (db : Database) :
  let db' := snd (cleanup_data.handle false now db) in
  cleanup_data.handle false now db' = (cleaned_up 0 0, db').
Proof.
  cbv zeta. unfold cleanup_data.handle. cbn [snd].
  unfold cleanup_data.delete_sessions, cleanup_data.delete_sentences.
  cbn [entities users evaluations sessions reviews sentences predictions
       next_id clock].
  rewrite !filter_negb_twice. cbn [map existsb negb length].
  rewrite !filter_idem.
  rewrite (filter_all _ (fun _ => true)) by reflexivity.
  rewrite (filter_all _ (fun _ => true)) by reflexivity.
  reflexivity.
Qed.

(** X19 ([cleanup_data.Command.handle], [--dry-run] against a run).  A
    dry run changes nothing and announces the number of sentences and of
    sessions that a run at the same time deletes.  The run deletes the
    sentences whose three prediction columns are null and the sessions
    that are inactive and completed more than seven days before, and no
    other sentence or session; it deletes no review, even one left without
    sentence, and no user. *)
Theorem dry_run_announces_what_a_run_deletes (now : Z) (db : Database) :
  let n := length (filter cleanup_data.empty_sentence (sentences (entities db))) in
  let m := length (filter (cleanup_data.old_session now) (sessions db)) in
  let db' := snd (cleanup_data.handle false now db) in
  cleanup_data.handle true now db = (would_delete n m, db)
  /\ fst (cleanup_data.handle false now db) = cleaned_up n m
  /\ length (sentences (entities db')) + n = length (sentences (entities db))
  /\ length (sessions db') + m = length (sessions db)
  /\ reviews (entities db') = reviews (entities db)
  /\ users db' = users db
  /\ (forall s, In s (sentences (entities db'))
                <-> In s (sentences (entities db))
                    /\ (s_gpt4_prediction s <> None
                        \/ s_gemini_prediction s <> None
                        \/ s_perplexity_prediction s <> None))
  /\ (forall e, In e (sessions db')
                <-> In e (sessions db)
                    /\ (e_is_active e = true
                        \/ forall t, e_completed_at e = Some t ->
                                     (now - cleanup_data.seven_days <= t)%Z)).
Proof.
  cbv zeta. unfold cleanup_data.handle. cbn [fst snd].
  unfold cleanup_data.delete_sessions, cleanup_data.delete_sentences.
  cbn [entities users evaluations sessions reviews sentences predictions].
  split; [reflexivity|]. split; [reflexivity|].
  split; [apply filter_length_split|]. split; [apply filter_length_split|].
  split; [reflexivity|]. split; [reflexivity|]. split.
  - intros s. rewrite filter_In.
    assert (Hiff : negb (cleanup_data.empty_sentence s) = true
                   <-> (s_gpt4_prediction s <> None
                        \/ s_gemini_prediction s <> None
                        \/ s_perplexity_prediction s <> None)).
    { unfold cleanup_data.empty_sentence.
      destruct (s_gpt4_prediction s) as [a|]; cbn [notna negb andb];
        [split; [intros _; left; discriminate | reflexivity]|].
      destruct (s_gemini_prediction s) as [b|]; cbn [notna negb andb];
        [split; [intros _; right; left; discriminate | reflexivity]|].
      destruct (s_perplexity_prediction s) as [c|]; cbn [notna negb andb];
        [split; [intros _; right; right; discriminate | reflexivity]|].
      split; [discriminate | intros [H|[H|H]]; exfalso; now apply H]. }
    rewrite Hiff. reflexivity.
  - intros e. rewrite filter_In.
    assert (Hiff : negb (cleanup_data.old_session now e) = true
                   <-> (e_is_active e = true
                        \/ forall t, e_completed_at e = Some t ->
                                     (now - cleanup_data.seven_days <= t)%Z)).
    { unfold cleanup_data.old_session.
      destruct (e_is_active e); cbn [negb andb].
      - split; [intros _; now left | reflexivity].
      - destruct (e_completed_at e) as [t|].
        + destruct (Z.ltb_spec t (now - cleanup_data.seven_days)) as [Hlt|Hge];
            cbn [negb].
          * split; [discriminate|]. intros [H'|H']; [discriminate|].
            specialize (H' t eq_refl). lia.
          * split; [|reflexivity]. intros _. right.
            intros t' E. injection E as <-. exact Hge.
        + split; [|reflexivity]. intros _. right. intros t E. discriminate. }
    rewrite Hiff. reflexivity.
Qed.

(** X20 ([_process_single_row] followed by [cleanup_data]).  A sentence
    ingested without any prediction does not survive a cleanup: the valid
    row is stored, and the next cleanup deletes its sentence, while the
    review of the row stays. *)
Theorem sentence_ingested_without_predictions_is_cleaned_up
        (enforce_max_length : bool) (now : Z) (db : Database) (row : Series)
        (x : RowFields) :
  wf_store (entities db) -> valid_row row x ->
  f_gpt4 x = None -> f_gemini x = None -> f_perplexity x = None ->
  exists st' r,
    _process_single_row enforce_max_length row (entities db) = Ok (tt, st')
    /\ filter (review_test (f_review_id x)) (reviews st') = [r]
    /\ filter (sentence_test (r_id r) (f_sentence_id x)) (sentences st') <> []
    /\ let db' := snd (cleanup_data.handle false now (with_entities db st')) in
       filter (review_test (f_review_id x)) (reviews (entities db')) = [r]
       /\ filter (sentence_test (r_id r) (f_sentence_id x))
                 (sentences (entities db')) = [].
Proof.
  intros Hwf (Hfields & Hval) Hg Hge Hp.
  destruct (row_program_agrees enforce_max_length x (entities db) Hwf Hval)
    as (st' & Erun & _ & (r & s & Fr & _ & Fs & (_ & Hg' & Hge' & Hp') & _)).
  exists st', r.
  split; [rewrite (@_process_single_row_fields enforce_max_length row x _ Hfields);
          exact Erun|].
  split; [exact Fr|]. split; [rewrite Fs; discriminate|].
  cbv zeta. unfold cleanup_data.handle, with_entities. cbn [snd].
  unfold cleanup_data.delete_sessions, cleanup_data.delete_sentences.
  cbn [entities reviews sentences].
  split; [exact Fr|].
  rewrite filter_comm, Fs. cbn [filter].
  unfold cleanup_data.empty_sentence. rewrite Hg', Hge', Hp', Hg, Hge, Hp.
  reflexivity.
Qed.

Lemma sentence_ingested_without_predictions_is_cleaned_up_witness :
  exists st' r,
    _process_single_row true row_without_predictions (entities example_database)
    = Ok (tt, st')
    /\ filter (review_test (py "R3")) (reviews st') = [r]
    /\ filter (sentence_test (r_id r) (py "R3-S1")) (sentences st') <> []
    /\ filter (sentence_test (r_id r) (py "R3-S1"))
              (sentences
                 (entities (snd (cleanup_data.handle false example_now
                                   (with_entities example_database st')))))
       = [].
Proof.
  destruct (sentence_ingested_without_predictions_is_cleaned_up
              true example_now example_database row_without_predictions
              fields_without_predictions)
    as (st' & r & E & Fr & Fs & _ & Fs').
  - apply example_database_ok.
  - split.
    + unfold has_fields. simpl. repeat split; reflexivity.
    + unfold valid_fields. simpl. repeat split; try lia. discriminate.
  - reflexivity.
  - reflexivity.
  - reflexivity.
  - exists st', r. repeat split; assumption.
Defined.

(* ===================================================================== *)
(** * The exporter *)
(* ===================================================================== *)

Lemma lookup_In (A : Type) (pk : A -> nat) (k : nat) (l : list A) :
  In k (map pk l) -> exists a, lookup pk k l = Some a /\ In a l /\ pk a = k.
Proof.
  unfold lookup. induction l as [|a l IH]; simpl; [tauto|].
  intros H. destruct (pk a =? k) eqn:E.
  - apply Nat.eqb_eq in E. exists a. auto.
  - destruct H as [H|H]; [apply Nat.eqb_neq in E; contradiction|].
    destruct (IH H) as (b & Hb & Hin & Hk). exists b. auto.
Qed.

Lemma select_related_joined (db : Database) :
  references_ok (entities db) -> evaluations_ok db ->
  Forall2 (joined db) (evaluations db) (select_related db).
Proof.
  intros (R1 & _) (E1 & E2). unfold select_related.
  assert (G : forall l, incl l (evaluations db) ->
            Forall2 (joined db) l
              (flat_map
                 (fun h =>
                    match lookup s_id (h_sentence h) (sentences (entities db)),
                          lookup u_id (h_evaluator h) (users db) with
                    | Some s, Some u =>
                        match lookup r_id (s_review s) (reviews (entities db)) with
                        | Some r => [(h, s, r, u)]
                        | None => []
                        end
                    | _, _ => []
                    end) l)).
  { induction l as [|h l IH]; intros Hl; cbn [flat_map]; [constructor|].
    assert (Hh : In h (evaluations db)) by (apply Hl; now left).
    destruct (lookup_In _ s_id (h_sentence h) (sentences (entities db)))
      as (s & Ls & Hs & Ks); [apply E1; now apply in_map|].
    destruct (lookup_In _ u_id (h_evaluator h) (users db))
      as (u & Lu & Hu & Ku); [apply E2; now apply in_map|].
    destruct (lookup_In _ r_id (s_review s) (reviews (entities db)))
      as (r & Lr & Hr & Kr); [apply R1; now apply in_map|].
    rewrite Ls, Lu, Lr. cbn [app]. constructor.
    - unfold joined. auto 10.
    - apply IH. intros a Ha. apply Hl. now right. }
  apply G. apply incl_refl.
Qed.

Lemma combine_seq (A : Type) (l : list A) (i : nat) :
  map fst (combine (seq i (length l)) l) = seq i (length l)
  /\ map snd (combine (seq i (length l)) l) = l.
Proof.
  revert i. induction l as [|a l IH]; intros i; cbn; [auto|].
  destruct (IH (S i)) as (E1 & E2). now rewrite E1, E2.
Qed.

(** X21 ([DataExporter.export_evaluations_to_csv]).  On a database whose
    references hold, the exported table has one record per evaluation, in
    the order of the evaluations and indexed from 0: the record of an
    evaluation holds the identifiers and the text of its sentence and
    review, the user name of its evaluator and its own choice.  The
    columns are the eleven keys of the export, except that without any
    evaluation the table has no column at all. *)
Theorem export_has_one_record_per_evaluation
        (isoformat : nat -> pystr) (db : Database) :
  references_ok (entities db) -> evaluations_ok db ->
  let df := export_evaluations_to_csv isoformat db in
  len df = length (evaluations db)
  /\ map fst (df_rows df) = seq 0 (length (evaluations db))
  /\ Forall2 (exported_as isoformat db) (evaluations db) (map snd (df_rows df))
  /\ (evaluations db = [] -> df_columns df = [])
  /\ (evaluations db <> [] -> df_columns df = export_columns).
Proof.
  intros HR HE. pose proof (select_related_joined db HR HE) as J.
  cbv zeta. unfold export_evaluations_to_csv.
  set (data := map (export_record isoformat) (select_related db)).
  assert (Hlen : length data = length (evaluations db)).
  { unfold data. rewrite length_map. symmetry. eapply Forall2_length; exact J. }
  assert (Hrec : Forall2 (exported_as isoformat db) (evaluations db) data).
  { unfold data. clear Hlen.
    induction J as [|h [[[h' s] r] u] evs js Hj _ IH]; cbn [map]; constructor;
      [|exact IH].
    destruct Hj as (-> & Hj). exists s, r, u.
    split; [unfold joined; tauto|]. repeat split. }
  destruct (combine_seq _ data 0) as (C1 & C2).
  unfold DataFrame_of_records, len.
  destruct data as [|d data'] eqn:D.
  - cbn [df_rows df_columns length map]. rewrite <- Hlen. cbn [length seq].
    split; [reflexivity|]. split; [reflexivity|]. split; [exact Hrec|].
    split; [reflexivity|].
    intros Hne. destruct (evaluations db); [contradiction | discriminate Hlen].
  - cbn [df_rows df_columns]. rewrite <- Hlen.
    split; [rewrite <- (length_map fst), C1; apply length_seq|].
    split; [exact C1|]. split; [rewrite C2; exact Hrec|].
    split; [|reflexivity].
    intros E. rewrite E in Hlen. discriminate Hlen.
Qed.

Lemma export_has_one_record_per_evaluation_witness :
  export_evaluations_to_csv of_nat example_database
  = mkDF export_columns
         [(0, [Some (py "R1-S1"); Some (py "R1"); Some (py "It works well");
               Some (py "Positive"); Some (py "Positive"); None;
               Some (py "alice"); Some (py "gpt4"); None; None; Some (py "8")]);
          (1, [Some (py "R1-S2"); Some (py "R1"); Some (py "Battery is weak");
               None; None; None;
               Some (py "alice"); Some (py "none"); Some (py "Neutral"); None;
               Some (py "9")])]
  /\ len (export_evaluations_to_csv of_nat example_database) = 2.
Proof.
  split; [vm_compute; reflexivity|].
  apply (export_has_one_record_per_evaluation of_nat example_database);
    apply example_database_ok.
Defined.
